(** * Incremental extraction and schema reconciliation of the ETL engines

    A shallow embedding of the incremental ETL jobs of this repository
    ([etl_guava_clickhouse.py], [etl_applemango_opensearch.py],
    [etl_guava_mariadb.py]) and the properties of their watermark lookup,
    filter building, paged extraction, row transformation and schema
    reconciliation.

    Conventions of the embedding.
    - Python [str] values are byte strings ([string]); only ASCII text is
      modelled, so [str.lower], [str.strip], [\d] and [\s] are their ASCII
      restrictions.
    - Row counts, offsets and page sizes are [nat]; epoch values are [Z].
    - A database client is a record of response functions.  A paged query
      takes the number of queries issued before it, so that a client may
      answer the same statement differently each time (transient errors).
    - An exception is a value carrying the text of [str(e)].
    - [datetime.timestamp()] reads a naive time in a local zone of fixed
      offset from UTC.
    - Frames are those the [DataFrame] constructor and [pd.read_sql] build
      ([Frame.constructed]); cells that are lists of fewer than two
      elements are left out. *)

From Stdlib Require Import ZArith Ascii String List Lia Bool.
From Stdlib Require Import DecimalString DecimalZ.
From stdpp Require Import base option list gmap sets strings.

(* ================================================================= *)
(** ** Python string operations used by the jobs *)

Module PyStr.

(** ['0' <= c <= '9'], the ASCII part of the pattern class [\d]. *)
Definition is_digit (c : ascii) : bool :=
  (48 <=? nat_of_ascii c)%nat && (nat_of_ascii c <=? 57)%nat.

(** ASCII characters for which [str.isspace] holds; [str.strip] and the
    pattern class [\s] use the same set. *)
Definition is_space (c : ascii) : bool :=
  let n := nat_of_ascii c in
  ((9 <=? n)%nat && (n <=? 13)%nat) || ((28 <=? n)%nat && (n <=? 32)%nat).

(** [sub in s]. *)
Fixpoint contains (sub s : string) : bool :=
  String.prefix sub s ||
  match s with
  | EmptyString => false
  | String _ s' => contains sub s'
  end.

(** [s.replace(old, new)] for a non-empty [old]: scan left to right,
    replace each occurrence and resume after it.  [skip] counts the
    characters of a matched occurrence still to be dropped. *)
Fixpoint replace_from (old new : string) (skip : nat) (s : string) : string :=
  match s with
  | EmptyString => EmptyString
  | String c s' =>
      match skip with
      | S k => replace_from old new k s'
      | O =>
          if String.prefix old s
          then new +:+ replace_from old new (String.length old - 1) s'
          else String c (replace_from old new 0 s')
      end
  end.

Definition replace (old new s : string) : string := replace_from old new 0 s.

Fixpoint lstrip (s : string) : string :=
  match s with
  | EmptyString => EmptyString
  | String c s' => if is_space c then lstrip s' else s
  end.

Fixpoint rstrip (s : string) : string :=
  match s with
  | EmptyString => EmptyString
  | String c s' =>
      match rstrip s' with
      | EmptyString => if is_space c then EmptyString else String c EmptyString
      | r => String c r
      end
  end.

(** [s.strip()]. *)
Definition strip (s : string) : string := lstrip (rstrip s).

(** [c.lower()] on ASCII. *)
Definition lower_ascii (c : ascii) : ascii :=
  let n := nat_of_ascii c in
  if (65 <=? n)%nat && (n <=? 90)%nat then ascii_of_nat (n + 32) else c.

(** [s.lower()]. *)
Fixpoint lower (s : string) : string :=
  match s with
  | EmptyString => EmptyString
  | String c s' => String (lower_ascii c) (lower s')
  end.

(** [s.ljust(width, fill)]: pad on the right up to [width] characters. *)
Definition ljust (width : nat) (fill : ascii) (s : string) : string :=
  s +:+ string_of_list_ascii (repeat fill (width - String.length s)).

(** [s.rjust(width, fill)]: pad on the left up to [width] characters. *)
Definition rjust (width : nat) (fill : ascii) (s : string) : string :=
  string_of_list_ascii (repeat fill (width - String.length s)) +:+ s.

(** [s[:n]]. *)
Definition take (n : nat) (s : string) : string := String.substring 0 n s.

(** Every character of [s] is an ASCII digit. *)
Fixpoint all_digits (s : string) : bool :=
  match s with
  | EmptyString => true
  | String c s' => is_digit c && all_digits s'
  end.

(** The character [c] occurs in [s]. *)
Fixpoint has_char (c : ascii) (s : string) : bool :=
  match s with
  | EmptyString => false
  | String x s' => Ascii.eqb c x || has_char c s'
  end.

(** [s.endswith(suffix)] *)
Fixpoint ends_with (suffix s : string) : bool :=
  String.eqb suffix s ||
  match s with
  | EmptyString => false
  | String _ s' => ends_with suffix s'
  end.

(** [int(s)] for a string of ASCII digits (the pattern groups guarantee the
    shape); the accumulator holds the value of the digits read so far. *)
Fixpoint int_of_digits_from (acc : Z) (s : string) : Z :=
  match s with
  | EmptyString => acc
  | String c s' =>
      int_of_digits_from (10 * acc + (Z.of_nat (nat_of_ascii c) - 48))%Z s'
  end.

Definition int_of_digits (s : string) : Z := int_of_digits_from 0 s.

(** [str(z)] for an integer. *)
Definition str_of_int (z : Z) : string := NilZero.string_of_int (Z.to_int z).

(** A decimal numeral read back: digits with an optional minus sign, the
    inverse of [str_of_int]; [None] when [s] is not one. *)
Definition read_decimal (s : string) : option Z :=
  match NilZero.int_of_string s with
  | Some d => Some (Z.of_int d)
  | None => None
  end.

(** The digits of an [int(s)] argument after the sign: decimal digits with
    single underscores between them.  [acc] is the value read so far and
    [after_digit] tells whether the last character read was a digit; the
    text has to start and to end with a digit. *)
Fixpoint digits_value (acc : Z) (after_digit : bool) (s : string) : option Z :=
  match s with
  | EmptyString => if after_digit then Some acc else None
  | String c s' =>
      if is_digit c
      then digits_value (10 * acc + (Z.of_nat (nat_of_ascii c) - 48))%Z true s'
      else if Ascii.eqb c "_" && after_digit then digits_value acc false s'
      else None
  end.

(** [int(s)] for a string: white space around the text is dropped, one
    sign may lead; [None] stands for the [ValueError]. *)
Definition int_of_str (s : string) : option Z :=
  match strip s with
  | String c s' =>
      if Ascii.eqb c "+" then digits_value 0 false s'
      else if Ascii.eqb c "-" then option_map Z.opp (digits_value 0 false s')
      else digits_value 0 false (String c s')
  | EmptyString => None
  end.

(** [s.isascii()]: every character is below 128.  On such strings the
    operations above are those of Python's [str]. *)
Fixpoint isascii (s : string) : bool :=
  match s with
  | EmptyString => true
  | String c s' => (nat_of_ascii c <? 128)%nat && isascii s'
  end.

(** Every character of [s] satisfies [p]. *)
Fixpoint all_chars (p : ascii -> bool) (s : string) : bool :=
  match s with
  | EmptyString => true
  | String c s' => p c && all_chars p s'
  end.

End PyStr.

(* ================================================================= *)
(** ** Values, responses and logs shared by the jobs *)

(** The values a watermark lookup can hand to the filter builder:
    [None], an [int] or a [str]. *)
Inductive pyvalue : Type :=
| PyNone
| PyInt (z : Z)
| PyStr (s : string).

(** Python truthiness: [if v:]. *)
Definition truthy (v : pyvalue) : bool :=
  match v with
  | PyNone => false
  | PyInt z => negb (z =? 0)%Z
  | PyStr s => negb (String.eqb s "")
  end.

(** [int(v)]; [None] stands for the exception [int] raises. *)
Definition py_int (v : pyvalue) : option Z :=
  match v with
  | PyNone => None
  | PyInt z => Some z
  | PyStr s => PyStr.int_of_str s
  end.

(** The result of a client call: a value, or an exception with [str(e)]. *)
Inductive response (A : Type) : Type :=
| Ok (a : A)
| Raise (msg : string).
Arguments Ok {A} a.
Arguments Raise {A} msg.

Inductive level : Type := INFO | WARNING | ERROR.

(** A log record: level and message. *)
Definition record : Type := level * string.

(** A record of level [WARNING] is in the log. *)
Definition warned (l : list record) : Prop := exists msg, In (WARNING, msg) l.

(* ================================================================= *)
(** ** Civil dates: [datetime(...)] and [datetime.timestamp()] *)

Module PyDatetime.

Definition is_leap (y : Z) : bool :=
  ((y mod 4 =? 0) && negb (y mod 100 =? 0) || (y mod 400 =? 0))%Z.

Definition days_in_month (y m : Z) : Z :=
  if (m =? 2)%Z then (if is_leap y then 29 else 28)%Z
  else if ((m =? 4) || (m =? 6) || (m =? 9) || (m =? 11))%Z then 30%Z
  else 31%Z.

(** Days in the years before year [y]. *)
Definition days_before_year (y : Z) : Z :=
  let p := (y - 1)%Z in (p * 365 + p / 4 - p / 100 + p / 400)%Z.

(** Days of year [y] before the first day of month [m], [1 <= m <= 12]. *)
Definition days_before_month (y m : Z) : Z :=
  fold_left (fun acc k => (acc + days_in_month y (Z.of_nat k))%Z)
            (seq 1 (Z.to_nat m - 1)) 0%Z.

(** [date.toordinal()]: day 1 is 0001-01-01. *)
Definition toordinal (y m d : Z) : Z :=
  (days_before_year y + days_before_month y m + d)%Z.

Record datetime : Type := mk_datetime {
  year : Z; month : Z; day : Z; hour : Z; minute : Z; second : Z
}.

(** The constructor [datetime(y, m, d, H, M, S)]; [None] is its
    [ValueError] on an out-of-range field. *)
Definition make (y m d H M S : Z) : option datetime :=
  if ((1 <=? y) && (y <=? 9999) && (1 <=? m) && (m <=? 12) &&
      (1 <=? d) && (d <=? days_in_month y m) &&
      (0 <=? H) && (H <=? 23) && (0 <=? M) && (M <=? 59) &&
      (0 <=? S) && (S <=? 59))%Z
  then Some (mk_datetime y m d H M S)
  else None.

(** [utc_to_seconds]: the seconds from the start of day 0 of the ordinal
    calendar to a civil time; [None] is its [ValueError] for a year outside
    1..9999. *)
Definition utc_to_seconds (y m d H M S : Z) : option Z :=
  if ((y <? 1) || (9999 <? y))%Z then None
  else Some ((((toordinal y m d * 24 + H) * 60 + M) * 60 + S)%Z).

(** The first and the last second [utc_to_seconds] has a value for:
    0001-01-01 00:00:00 and 9999-12-31 23:59:59. *)
Definition min_seconds : Z := 86400.
Definition max_seconds : Z := 3652059 * 86400 + 86399.

(** [local(u)]: the instant [u] read in the local zone ([localtime]) and
    put back into seconds by [utc_to_seconds].  The local zone lies
    [utcoffset] seconds east of UTC at every instant read (for a zone with
    rules, the offset in force then), so the reading is [u + utcoffset],
    and [utc_to_seconds] raises when its year is outside 1..9999. *)
Definition local (utcoffset u : Z) : option Z :=
  let v := (u + utcoffset)%Z in
  if ((min_seconds <=? v) && (v <=? max_seconds))%Z then Some v else None.

Definition max_fold_seconds : Z := 24 * 3600.

(** [local_to_seconds(y, m, d, H, M, S, fold=0)]: the instant whose local
    reading is the civil time given.  It reads three instants in the local
    zone, the third one a day before the answer, and any of the readings
    may raise. *)
Definition local_to_seconds (utcoffset : Z) (y m d H M S : Z) : option Z :=
  t ← utc_to_seconds y m d H M S;
  lt ← local utcoffset t;
  let a := (lt - t)%Z in
  let u1 := (t - a)%Z in
  t1 ← local utcoffset u1;
  let second_offset (b : Z) : option Z :=
    let u2 := (t - b)%Z in
    t2 ← local utcoffset u2;
    if (t2 =? t)%Z then Some u2
    else if (t1 =? t)%Z then Some u1
    else Some (Z.max u1 u2) in
  if (t1 =? t)%Z
  then
    let u2 := (u1 - max_fold_seconds)%Z in
    lt ← local utcoffset u2;
    let b := (lt - u2)%Z in
    if (a =? b)%Z then Some u1 else second_offset b
  else second_offset (t1 - u1)%Z.

(** The seconds from day 0 to 1970-01-01. *)
Definition epoch_seconds : Z := 719163 * 24 * 60 * 60.

(** [int(dt.timestamp())] of a naive [dt] without microseconds; [None] is
    the [ValueError] of [local_to_seconds]. *)
Definition timestamp (utcoffset : Z) (dt : datetime) : option Z :=
  seconds ← local_to_seconds utcoffset (year dt) (month dt) (day dt)
                             (hour dt) (minute dt) (second dt);
  Some (seconds - epoch_seconds)%Z.

End PyDatetime.

(* ================================================================= *)
(** ** Guava ClickHouse job: watermark, filter, paged extraction *)

Module GuavaClickHouseETL.

(** [self.timestamp_info.get(table, {'column': 'Timestamp',
    'type': 'DateTime64'})] as a pair (column, type). *)
Definition timestamp_info (table_name : string) : string * string :=
  if String.eqb table_name "otel_logs" then ("Timestamp", "DateTime64")
  else if String.eqb table_name "otel_metrics_exponential_histogram" then ("TimeUnix", "Int64")
  else if String.eqb table_name "otel_metrics_histogram" then ("TimeUnix", "Int64")
  else if String.eqb table_name "otel_metrics_sum" then ("TimeUnix", "Int64")
  else if String.eqb table_name "otel_metrics_gauge" then ("TimeUnix", "Int64")
  else if String.eqb table_name "otel_metrics_summary" then ("TimeUnix", "Int64")
  else if String.eqb table_name "otel_traces" then ("Timestamp", "DateTime64")
  else ("Timestamp", "DateTime64").

(** The target ClickHouse client as far as the watermark lookup uses it;
    each field is [result_rows[0][0]] of the statement named. *)
Record target_client : Type := {
  (** [EXISTS TABLE t] *)
  exists_table : string -> response nat;
  (** [SELECT count() FROM t] *)
  count_rows : string -> response nat;
  (** [SELECT max(col) FROM t] *)
  select_max : string -> string -> response pyvalue;
  (** [SELECT toString(max(col)) FROM t] *)
  select_max_string : string -> string -> response pyvalue
}.

Definition lookup_failed (e : string) : pyvalue * list record :=
  (PyNone, [(WARNING, "last timestamp lookup failed: " +:+ e)]).

(** [_get_last_timestamp]: the watermark and the records logged. *)
Definition _get_last_timestamp (tc : target_client)
    (table_name timestamp_col : string) : pyvalue * list record :=
  match exists_table tc table_name with
  | Raise e => lookup_failed e
  | Ok table_exists =>
      if (table_exists =? 0)%nat
      then (PyNone, [(INFO, "target table missing")])
      else
        match count_rows tc table_name with
        | Raise e => lookup_failed e
        | Ok row_count =>
            if (row_count =? 0)%nat
            then (PyNone, [(INFO, "target table empty (0 rows)")])
            else
              if String.eqb (snd (timestamp_info table_name)) "Int64"
              then
                match select_max tc timestamp_col table_name with
                | Raise e => lookup_failed e
                | Ok last_ts =>
                    if truthy last_ts
                    then match py_int last_ts with
                         | Some z => (PyInt z, [(INFO, "last value (Int64)")])
                         | None =>
                             let '(v, log) := lookup_failed "invalid literal for int()" in
                             (v, (INFO, "last value (Int64)") :: log)
                         end
                    else (PyNone, [])
                end
              else
                match select_max_string tc timestamp_col table_name with
                | Raise e => lookup_failed e
                | Ok last_ts =>
                    if truthy last_ts
                    then (last_ts, [(INFO, "last value (DateTime64)")])
                    else (PyNone, [])
                end
        end
  end.

(** The statement that reads the maximum for a table. *)
Definition max_statement (tc : target_client) (table_name timestamp_col : string)
  : response pyvalue :=
  if String.eqb (snd (timestamp_info table_name)) "Int64"
  then select_max tc timestamp_col table_name
  else select_max_string tc timestamp_col table_name.

(** One of the statements the lookup gets to raises [e]. *)
Definition lookup_raises (tc : target_client) (table_name timestamp_col e : string) : Prop :=
  exists_table tc table_name = Raise e
  \/ (exists n, exists_table tc table_name = Ok (S n)
                /\ count_rows tc table_name = Raise e)
  \/ (exists n m, exists_table tc table_name = Ok (S n)
                  /\ count_rows tc table_name = Ok (S m)
                  /\ max_statement tc table_name timestamp_col = Raise e).

(** The known timezone markers removed from a string watermark. *)
Definition tz_suffixes : list string :=
  ["+09:00"; "+00:00"; "Z"; "-00:00"; "+01:00"; "-01:00"].

(** The clean-up both string branches apply:
    [replace('T', ' ')], then each marker replaced by [''], then [strip()]. *)
Definition clean_timestamp (last_value : string) : string :=
  PyStr.strip
    (fold_left (fun timestamp_str tz => PyStr.replace tz "" timestamp_str)
               tz_suffixes (PyStr.replace "T" " " last_value)).

(** [\d{n}]: exactly [n] digits; the digits and the rest. *)
Fixpoint digits_exactly (n : nat) (s : string) : option (string * string) :=
  match n with
  | O => Some (EmptyString, s)
  | S k =>
      match s with
      | String c s' =>
          if PyStr.is_digit c
          then match digits_exactly k s' with
               | Some (ds, rest) => Some (String c ds, rest)
               | None => None
               end
          else None
      | EmptyString => None
      end
  end.

(** [\d{0,n}], greedy: as many digits as there are, at most [n]. *)
Fixpoint digits_upto (n : nat) (s : string) : string * string :=
  match n with
  | O => (EmptyString, s)
  | S k =>
      match s with
      | String c s' =>
          if PyStr.is_digit c
          then let '(ds, rest) := digits_upto k s' in (String c ds, rest)
          else (EmptyString, s)
      | EmptyString => (EmptyString, s)
      end
  end.

(** A literal character of the pattern. *)
Definition expect (c : ascii) (s : string) : option string :=
  match s with
  | String c' s' => if Ascii.eqb c c' then Some s' else None
  | EmptyString => None
  end.

(** [\s+]: one or more white-space characters. *)
Definition spaces1 (s : string) : option string :=
  match s with
  | String c s' => if PyStr.is_space c then Some (PyStr.lstrip s') else None
  | EmptyString => None
  end.

(** [\.?]: an optional dot. *)
Definition optional_dot (s : string) : string :=
  match s with
  | String c s' => if Ascii.eqb c "."%char then s' else s
  | EmptyString => s
  end.

(** [re.match(r'(\d{4})-(\d{2})-(\d{2})\s+(\d{2}):(\d{2}):(\d{2})\.?(\d{0,9})?', s)]:
    the seven groups of a match anchored at the start of [s]; what follows
    the match is not looked at.  The character classes of adjacent pattern
    items are disjoint and the tail is optional, so the greedy left-to-right
    reading is the only match. *)
Definition match_timestamp (s : string)
  : option (string * string * string * string * string * string * string) :=
  '(year, s) ← digits_exactly 4 s;
  s ← expect "-"%char s;
  '(month, s) ← digits_exactly 2 s;
  s ← expect "-"%char s;
  '(day, s) ← digits_exactly 2 s;
  s ← spaces1 s;
  '(hour, s) ← digits_exactly 2 s;
  s ← expect ":"%char s;
  '(minute, s) ← digits_exactly 2 s;
  s ← expect ":"%char s;
  '(second, s) ← digits_exactly 2 s;
  let '(nanosec, _) := digits_upto 9 (optional_dot s) in
  Some (year, month, day, hour, minute, second, nanosec).

(** [(nanosec or '0').ljust(9, '0')[:9]]. *)
Definition nanos_field (nanosec : string) : string :=
  PyStr.take 9
    (PyStr.ljust 9 "0"%char (if String.eqb nanosec "" then "0" else nanosec)).

(** The integer the Int64 branch compares against for a string watermark
    already cleaned; [None] when the pattern does not match or when
    [datetime(...)] or [dt_obj.timestamp()] raises. *)
Definition timestamp_nanos (utcoffset : Z) (timestamp_str : string) : option Z :=
  match match_timestamp timestamp_str with
  | Some (year, month, day, hour, minute, second, nanosec) =>
      let nanosec := nanos_field nanosec in
      match PyDatetime.make (PyStr.int_of_digits year) (PyStr.int_of_digits month)
                            (PyStr.int_of_digits day) (PyStr.int_of_digits hour)
                            (PyStr.int_of_digits minute) (PyStr.int_of_digits second) with
      | Some dt_obj =>
          match PyDatetime.timestamp utcoffset dt_obj with
          | Some timestamp_seconds =>
              Some (timestamp_seconds * 1000000000 + PyStr.int_of_digits nanosec)%Z
          | None => None
          end
      | None => None
      end
  | None => None
  end.

(** [_build_where_clause]; the empty string is the empty predicate. *)
Definition _build_where_clause (utcoffset : Z)
    (timestamp_col timestamp_type : string) (last_value : pyvalue) : string :=
  if negb (truthy last_value) then ""
  else
    match last_value with
    | PyInt z =>
        if String.eqb timestamp_type "Int64"
        then "WHERE `" +:+ timestamp_col +:+ "` > " +:+ PyStr.str_of_int z
        else ""
    | PyStr s =>
        if String.eqb timestamp_type "DateTime64"
        then "WHERE `" +:+ timestamp_col +:+ "` > '" +:+ clean_timestamp s +:+ "'"
        else if String.eqb timestamp_type "Int64"
        then match timestamp_nanos utcoffset (clean_timestamp s) with
             | Some timestamp_nanos =>
                 "WHERE `" +:+ timestamp_col +:+ "` > " +:+ PyStr.str_of_int timestamp_nanos
             | None => ""
             end
        else ""
    | PyNone => ""
    end.

(** The source ClickHouse client: the count statement of [run] and the
    page statement of [_process_batches].  [query_df k w l o] is the answer
    to [SELECT * FROM t w LIMIT l OFFSET o] when [k] page statements were
    issued before it. *)
Record source_client (Row : Type) : Type := {
  select_count : string -> response nat;
  query_df : nat -> string -> nat -> nat -> response (list Row)
}.
Arguments select_count {Row} _ _.
Arguments query_df {Row} _ _ _ _ _.

(** What one object's run works with: the two clients, [self.transform]
    on a frame ([Raise] when it throws) and [target_client.insert_df],
    which is told how many inserts came before. *)
Record job (Row : Type) : Type := {
  source : source_client Row;
  target : target_client;
  transform : list Row -> response (list Row);
  insert_df : nat -> list Row -> response unit
}.
Arguments source {Row} _.
Arguments target {Row} _.
Arguments transform {Row} _ _.
Arguments insert_df {Row} _ _ _.

(** The local variables of [_process_batches] together with
    [self.batch_size], and two histories kept for the statements about the
    loop: every page statement issued, as (LIMIT, OFFSET), and every frame
    handed to [_load_batch] without an exception, both oldest first. *)
Record state (Row : Type) : Type := mk_state {
  offset : nat;
  batch_num : nat;
  total_processed : nat;
  consecutive_failures : nat;
  batch_size : nat;
  issued : list (nat * nat);
  inserts : nat;
  loaded : list (list Row)
}.
Arguments mk_state {Row} _ _ _ _ _ _ _ _.
Arguments offset {Row} _.
Arguments batch_num {Row} _.
Arguments total_processed {Row} _.
Arguments consecutive_failures {Row} _.
Arguments batch_size {Row} _.
Arguments issued {Row} _.
Arguments inserts {Row} _.
Arguments loaded {Row} _.

(** How one pass through the loop body ends: at the end of the body or a
    [continue], at the [break], or at the [return]. *)
Inductive flow (Row : Type) : Type :=
| Next (s : state Row)
| Break (s : state Row)
| Return (s : state Row).
Arguments Next {Row} s.
Arguments Break {Row} s.
Arguments Return {Row} s.

(** How [_process_batches] ends: the loop condition became false, an empty
    frame came back, or three failures in a row made it return.  All three
    are normal returns. *)
Inductive exit : Type := Exhausted | Drained | GaveUp.

Definition max_consecutive_failures : nat := 3.

Section ProcessBatches.
Context {Row : Type} (j : job Row) (where_clause : string) (total_rows : nat).

Definition set_batch_num (n : nat) (s : state Row) : state Row :=
  mk_state (offset s) n (total_processed s) (consecutive_failures s)
           (batch_size s) (issued s) (inserts s) (loaded s).

Definition set_consecutive_failures (n : nat) (s : state Row) : state Row :=
  mk_state (offset s) (batch_num s) (total_processed s) n
           (batch_size s) (issued s) (inserts s) (loaded s).

Definition set_batch_size (n : nat) (s : state Row) : state Row :=
  mk_state (offset s) (batch_num s) (total_processed s) (consecutive_failures s)
           n (issued s) (inserts s) (loaded s).

(** [offset += n] *)
Definition advance (n : nat) (s : state Row) : state Row :=
  mk_state (offset s + n) (batch_num s) (total_processed s) (consecutive_failures s)
           (batch_size s) (issued s) (inserts s) (loaded s).

(** [self.source_client.query_df("... LIMIT limit OFFSET offset")] *)
Definition issue (limit : nat) (s : state Row) : response (list Row) * state Row :=
  (query_df (source j) (length (issued s)) where_clause limit (offset s),
   mk_state (offset s) (batch_num s) (total_processed s) (consecutive_failures s)
            (batch_size s) (issued s ++ [(limit, offset s)]) (inserts s) (loaded s)).

(** [_load_batch]: nothing is sent for an empty frame. *)
Definition _load_batch (data : list Row) (s : state Row) : response unit * state Row :=
  if (length data =? 0)%nat then (Ok tt, s)
  else
    (insert_df j (inserts s) data,
     mk_state (offset s) (batch_num s) (total_processed s) (consecutive_failures s)
              (batch_size s) (issued s) (S (inserts s)) (loaded s)).

(** A frame that was loaded: [total_processed += len(df_batch)]. *)
Definition count_loaded (df_batch df_transformed : list Row) (s : state Row) : state Row :=
  mk_state (offset s) (batch_num s) (total_processed s + length df_batch)
           (consecutive_failures s) (batch_size s) (issued s) (inserts s)
           (loaded s ++ [df_transformed]).

(** The body from the emptiness test to its end, once [df_batch] is there. *)
Definition process_frame (current_batch_size : nat) (df_batch : list Row)
    (s : state Row) : flow Row :=
  if (length df_batch =? 0)%nat then Break s
  else
    match transform j df_batch with
    | Raise _ => Next (advance current_batch_size s)
    | Ok df_transformed =>
        match _load_batch df_transformed s with
        | (Raise _, s) => Next (advance current_batch_size s)
        | (Ok _, s) =>
            Next (advance current_batch_size (count_loaded df_batch df_transformed s))
        end
    end.

(** The end of the [except] block: the test of the failure counter and the
    second attempt at the statement held in [query], whose LIMIT is
    [current_batch_size] on every path that gets here. *)
Definition retry (current_batch_size : nat) (s : state Row) : flow Row :=
  if (max_consecutive_failures <=? consecutive_failures s)%nat then Return s
  else
    match issue current_batch_size s with
    | (Ok df_batch, s) =>
        process_frame current_batch_size df_batch (set_consecutive_failures 0 s)
    | (Raise _, s) => Next (advance current_batch_size s)
    end.

(** The [except] block of the first attempt. *)
Definition on_error (error_msg : string) (current_batch_size : nat)
    (s : state Row) : flow Row :=
  let s := set_consecutive_failures (S (consecutive_failures s)) s in
  if PyStr.contains "MEMORY_LIMIT_EXCEEDED" error_msg
  then
    if (100 <? current_batch_size)%nat
    then
      let smaller_batch := (current_batch_size / 2)%nat in
      match issue smaller_batch s with
      | (Ok _, s) =>
          retry smaller_batch
                (set_consecutive_failures 0 (set_batch_size smaller_batch s))
      | (Raise _, s) => Next (advance smaller_batch s)
      end
    else Next (advance current_batch_size s)
  else retry current_batch_size s.

(** One pass through the body of [while offset < total_rows]. *)
Definition iteration (s : state Row) : flow Row :=
  let s := set_batch_num (S (batch_num s)) s in
  let remaining := (total_rows - offset s)%nat in
  let current_batch_size := Nat.min (batch_size s) remaining in
  match issue current_batch_size s with
  | (Ok df_batch, s) =>
      process_frame current_batch_size df_batch (set_consecutive_failures 0 s)
  | (Raise error_msg, s) => on_error error_msg current_batch_size s
  end.

(** The loop, for at most [fuel] tests of its condition; [None] when it is
    still running after them. *)
Fixpoint loop (fuel : nat) (s : state Row) : option (exit * state Row) :=
  match fuel with
  | O => None
  | S fuel' =>
      if (offset s <? total_rows)%nat
      then
        match iteration s with
        | Next s' => loop fuel' s'
        | Break s' => Some (Drained, s')
        | Return s' => Some (GaveUp, s')
        end
      else Some (Exhausted, s)
  end.

(** The page size of the pass that starts in [s]. *)
Definition page (s : state Row) : nat :=
  Nat.min (batch_size s) (total_rows - offset s).

(** Every answer of the source respects the LIMIT of its statement. *)
Definition honours_limit : Prop :=
  forall k l o rows,
    query_df (source j) k where_clause l o = Ok rows -> length rows <= l.

(** Every page statement raises a memory-limit error. *)
Definition always_memory : Prop :=
  forall k l o, exists e,
    query_df (source j) k where_clause l o = Raise e
    /\ PyStr.contains "MEMORY_LIMIT_EXCEEDED" e = true.

(** Every statement in [new] asks for at most the page size of [s], at
    the offset of [s]. *)
Definition sent_from (s : state Row) (new : list (nat * nat)) : Prop :=
  Forall (fun q => fst q <= page s /\ snd q = offset s) new.

(** What a pass that goes on to the next one may change, whatever the
    clients answer: the offset moves on by [d] within the planned rows;
    the page size does not grow and stays positive; the rows counted grow
    by at most [d] when answers respect their LIMIT; the statements sent
    are those of this page. *)
Record pass (s s' : state Row) (d : nat) : Prop := {
  pass_offset : offset s' = offset s + d;
  pass_bound : offset s' <= total_rows;
  pass_step : 1 <= batch_size s -> 1 <= d;
  pass_size : batch_size s' <= batch_size s;
  pass_size_pos : 1 <= batch_size s -> 1 <= batch_size s';
  pass_counted : total_processed s <= total_processed s';
  pass_counted_le : honours_limit -> total_processed s' <= total_processed s + d;
  pass_issued : exists new, issued s' = issued s ++ new /\ sent_from s new
}.

(** What a pass that ends the loop leaves: offset, count and loaded
    frames as they were. *)
Record halt (s s' : state Row) : Prop := {
  halt_offset : offset s' = offset s;
  halt_counted : total_processed s' = total_processed s;
  halt_loaded : loaded s' = loaded s;
  halt_size : batch_size s' <= batch_size s;
  halt_issued : exists new, issued s' = issued s ++ new /\ sent_from s new
}.

End ProcessBatches.

(** The state [_process_batches] starts from. *)
Definition initial {Row : Type} (batch_size : nat) : state Row :=
  mk_state 0 0 0 0 batch_size [] 0 [].

Definition _process_batches {Row : Type} (fuel : nat) (j : job Row)
    (batch_size : nat) (where_clause : string) (total_rows : nat)
  : option (exit * state Row) :=
  loop j where_clause total_rows fuel (initial batch_size).

(** How [run] ends for one table. *)
Inductive outcome (Row : Type) : Type :=
| Skipped
| NoNewRows
| Finished (e : exit) (s : state Row)
| Failed (msg : string)
| Running.
Arguments Skipped {Row}.
Arguments NoNewRows {Row}.
Arguments Finished {Row} e s.
Arguments Failed {Row} msg.
Arguments Running {Row}.

(** The clamp of [run]: at most [max_rows] rows are planned. *)
Definition clamp (max_rows total_rows : nat) : nat :=
  if (max_rows <? total_rows)%nat then max_rows else total_rows.

(** The test [not where_clause and last_value] of [run], on which it logs
    an error and returns before any statement is sent to the source. *)
Definition skip_table (where_clause : string) (last_value : pyvalue) : bool :=
  String.eqb where_clause "" && truthy last_value.

(** [run], from the watermark lookup on; the clients are already open. *)
Definition run {Row : Type} (fuel : nat) (utcoffset : Z) (j : job Row)
    (table_name : string) (batch_size max_rows : nat) : outcome Row :=
  let '(timestamp_col, timestamp_type) := timestamp_info table_name in
  let last_value := fst (_get_last_timestamp (target j) table_name timestamp_col) in
  let where_clause := _build_where_clause utcoffset timestamp_col timestamp_type last_value in
  if skip_table where_clause last_value then Skipped
  else
    match select_count (source j) where_clause with
    | Raise e => Failed e
    | Ok total_rows =>
        let total_rows := clamp max_rows total_rows in
        if (total_rows =? 0)%nat then NoNewRows
        else
          match _process_batches fuel j batch_size where_clause total_rows with
          | Some (e, s) => Finished e s
          | None => Running
          end
    end.

(** *** Reading a predicate back

    The literal of a predicate is what follows [WHERE `col` > ].  The
    predicate is sent to the server as it is, so the literal is read back
    the way a SQL lexer reads it: an unquoted literal as a decimal integer,
    a quoted one as the text up to the first quote, which has to end the
    predicate.  A backslash starts an escape and a quote ends the literal,
    so a text that holds either is not given back. *)

(** [s] without the prefix [p]. *)
Fixpoint strip_prefix (p s : string) : option string :=
  match p with
  | EmptyString => Some s
  | String c p' =>
      match s with
      | String c' s' => if Ascii.eqb c c' then strip_prefix p' s' else None
      | EmptyString => None
      end
  end.

(** The text of a quoted literal, given what follows the opening quote. *)
Fixpoint quoted_text (s : string) : option string :=
  match s with
  | EmptyString => None
  | String c s' =>
      if Ascii.eqb c "'"%char
      then match s' with EmptyString => Some EmptyString | _ => None end
      else if Ascii.eqb c "\"%char then None
      else match quoted_text s' with
           | Some r => Some (String c r)
           | None => None
           end
  end.

Definition literal_of (timestamp_col where_clause : string) : option string :=
  strip_prefix ("WHERE `" +:+ timestamp_col +:+ "` > ") where_clause.

Definition reparse (timestamp_col where_clause : string) : option pyvalue :=
  match literal_of timestamp_col where_clause with
  | Some (String c rest as lit) =>
      if Ascii.eqb c "'"%char
      then match quoted_text rest with
           | Some s => Some (PyStr s)
           | None => None
           end
      else match PyStr.read_decimal lit with
           | Some z => Some (PyInt z)
           | None => None
           end
  | _ => None
  end.

(** A string watermark that is a naive literal already: no [T], none of
    the six timezone markers, no white space around it. *)
Definition naive (s : string) : bool :=
  negb (PyStr.contains "T" s)
  && forallb (fun tz => negb (PyStr.contains tz s))
             ["+09:00"; "+00:00"; "Z"; "-00:00"; "+01:00"; "-01:00"]
  && String.eqb (PyStr.strip s) s.

(** The characters of the date part and of the time part of a timestamp
    text: digits and dashes, digits, colons and dots. *)
Definition date_char (c : ascii) : bool := PyStr.is_digit c || Ascii.eqb c "-"%char.
Definition time_char (c : ascii) : bool :=
  PyStr.is_digit c || Ascii.eqb c ":"%char || Ascii.eqb c "."%char.

(** A timestamp text: a date, a separator, a time and what follows. *)
Definition stamp (date sep time tail : string) : string :=
  date +:+ sep +:+ time +:+ tail.

(** The pairs of declared type and watermark the builder has a branch
    for. *)
Definition supported (timestamp_type : string) (last_value : pyvalue) : bool :=
  match last_value with
  | PyInt z => String.eqb timestamp_type "Int64" && negb (z =? 0)%Z
  | PyStr s =>
      (String.eqb timestamp_type "DateTime64" || String.eqb timestamp_type "Int64")
      && negb (String.eqb s "")
  | PyNone => false
  end.

(** The fraction field as the specification words it: padded on the left
    with zeros and cut to nine digits. *)
Definition spec_left_padded_nanos (nanosec : string) : string :=
  PyStr.take 9 (PyStr.rjust 9 "0"%char nanosec).

(** The epoch seconds of the specification: the days from 1970-01-01 to a
    date of the proleptic Gregorian calendar by the closed formula over
    eras of 400 years that start in March, and the seconds of a civil time
    read [utcoffset] seconds east of UTC. *)
Definition spec_days_from_civil (y m d : Z) : Z :=
  let y := (if m <=? 2 then y - 1 else y)%Z in
  let era := (y / 400)%Z in
  let yoe := (y - era * 400)%Z in
  let doy := ((153 * (if 2 <? m then m - 3 else m + 9) + 2) / 5 + d - 1)%Z in
  let doe := (yoe * 365 + yoe / 4 - yoe / 100 + doy)%Z in
  (era * 146097 + doe - 719468)%Z.

Definition spec_epoch_seconds (utcoffset : Z) (y m d H M S : Z) : Z :=
  (spec_days_from_civil y m d * 86400 + H * 3600 + M * 60 + S - utcoffset)%Z.

End GuavaClickHouseETL.

(* ================================================================= *)
(** ** Data frames *)

Module Frame.

Inductive int_dtype : Type :=
  int64 | int32 | int16 | int8 | uint64 | uint32 | uint16 | uint8.

Inductive float_dtype : Type := float64 | float32 | float16.

(** Column types none of the jobs names exactly. *)
Inductive other_dtype : Type := category | timedelta64 | datetime64_tz | complex128.

(** A float: [nan], or a finite value [mantissa * 2 ^ exponent]. *)
Inductive float : Type :=
| nan
| finite (mantissa exponent : Z).

Definition zero : float := finite 0 0.

(** A cell of an [object] column.  [OOther] stands for a [dict] or another
    object that is not null, [OList] for a list or array of two or more
    elements, for which [pd.isna] gives an array that has no truth value;
    lists of fewer elements are not modelled. *)
Inductive obj : Type :=
| ONone
| ONaN
| OBool (b : bool)
| OInt (z : Z)
| OFloat (m e : Z)
| OStr (s : string)
| OOther (id : nat)
| OList (id : nat).

(** A column with the values its dtype admits.  A [datetime64[ns]] value
    is its time in nanoseconds, [None] is [NaT]. *)
Inductive series : Type :=
| BoolSeries (vs : list bool)
| IntSeries (w : int_dtype) (vs : list Z)
| FloatSeries (w : float_dtype) (vs : list float)
| DatetimeSeries (vs : list (option Z))
| ObjectSeries (vs : list obj)
| OtherSeries (w : other_dtype) (vs : list nat).

(** A frame: its columns in order, each with its label. *)
Definition frame : Type := list (string * series).

Definition is_list (x : obj) : bool :=
  match x with OList _ => true | _ => false end.






Definition int_dtype_str (w : int_dtype) : string :=
  match w with
  | int64 => "int64" | int32 => "int32" | int16 => "int16" | int8 => "int8"
  | uint64 => "uint64" | uint32 => "uint32" | uint16 => "uint16" | uint8 => "uint8"
  end.

Definition float_dtype_str (w : float_dtype) : string :=
  match w with
  | float64 => "float64" | float32 => "float32" | float16 => "float16"
  end.

Definition other_dtype_str (w : other_dtype) : string :=
  match w with
  | category => "category"
  | timedelta64 => "timedelta64[ns]"
  | datetime64_tz => "datetime64[ns, UTC]"
  | complex128 => "complex128"
  end.

(** [str(series.dtype)] *)
Definition dtype_str (c : series) : string :=
  match c with
  | BoolSeries _ => "bool"
  | IntSeries w _ => int_dtype_str w
  | FloatSeries w _ => float_dtype_str w
  | DatetimeSeries _ => "datetime64[ns]"
  | ObjectSeries _ => "object"
  | OtherSeries w _ => other_dtype_str w
  end.

(** [len(series)] *)
Definition series_len (c : series) : nat :=
  match c with
  | BoolSeries vs => length vs
  | IntSeries _ vs => length vs
  | FloatSeries _ vs => length vs
  | DatetimeSeries vs => length vs
  | ObjectSeries vs => length vs
  | OtherSeries _ vs => length vs
  end.

(** [len(data)]: the number of rows. *)
Definition len (data : frame) : nat :=
  match data with
  | [] => 0
  | (_, c) :: _ => series_len c
  end.

(** [data.columns] *)
Definition columns (data : frame) : list string := map fst data.

(** [x in xs] for strings. *)
Definition mem (x : string) (xs : list string) : bool :=
  existsb (String.eqb x) xs.

(** Some label occurs twice. *)
Fixpoint has_duplicates (xs : list string) : bool :=
  match xs with
  | [] => false
  | x :: xs' => mem x xs' || has_duplicates xs'
  end.

(** Keep the rows whose mask entry is [true]. *)
Fixpoint select {A : Type} (mask : list bool) (vs : list A) : list A :=
  match mask, vs with
  | b :: mask', v :: vs' => if b then v :: select mask' vs' else select mask' vs'
  | _, _ => []
  end.

(** [series[mask]] *)
Definition series_select (mask : list bool) (c : series) : series :=
  match c with
  | BoolSeries vs => BoolSeries (select mask vs)
  | IntSeries w vs => IntSeries w (select mask vs)
  | FloatSeries w vs => FloatSeries w (select mask vs)
  | DatetimeSeries vs => DatetimeSeries (select mask vs)
  | ObjectSeries vs => ObjectSeries (select mask vs)
  | OtherSeries w vs => OtherSeries w (select mask vs)
  end.

(** [data[mask]] for a row mask. *)
Definition frame_select (mask : list bool) (data : frame) : frame :=
  map (fun '(name, c) => (name, series_select mask c)) data.

(** [data[name] = c]: replace the column in place, or append it. *)
Fixpoint set_column (name : string) (c : series) (data : frame) : frame :=
  match data with
  | [] => [(name, c)]
  | (name', c') :: data' =>
      if String.eqb name name' then (name, c) :: data'
      else (name', c') :: set_column name c data'
  end.

(** [series.iloc[i:i+n]] *)
Definition series_slice (i n : nat) (c : series) : series :=
  match c with
  | BoolSeries vs => BoolSeries (firstn n (skipn i vs))
  | IntSeries w vs => IntSeries w (firstn n (skipn i vs))
  | FloatSeries w vs => FloatSeries w (firstn n (skipn i vs))
  | DatetimeSeries vs => DatetimeSeries (firstn n (skipn i vs))
  | ObjectSeries vs => ObjectSeries (firstn n (skipn i vs))
  | OtherSeries w vs => OtherSeries w (firstn n (skipn i vs))
  end.

(** [data.iloc[i:i+n]]: the rows from [i] on, at most [n] of them. *)
Definition frame_slice (i n : nat) (data : frame) : frame :=
  map (fun '(name, c) => (name, series_slice i n c)) data.

(** The values of [c2] after those of [c1], for two columns of one kind. *)
Definition series_append (c1 c2 : series) : series :=
  match c1, c2 with
  | BoolSeries v1, BoolSeries v2 => BoolSeries (v1 ++ v2)
  | IntSeries w v1, IntSeries _ v2 => IntSeries w (v1 ++ v2)
  | FloatSeries w v1, FloatSeries _ v2 => FloatSeries w (v1 ++ v2)
  | DatetimeSeries v1, DatetimeSeries v2 => DatetimeSeries (v1 ++ v2)
  | ObjectSeries v1, ObjectSeries v2 => ObjectSeries (v1 ++ v2)
  | OtherSeries w v1, OtherSeries _ v2 => OtherSeries w (v1 ++ v2)
  | _, _ => c1
  end.

(** The rows of [d2] under those of [d1], column by column. *)
Fixpoint frame_append (d1 d2 : frame) : frame :=
  match d1, d2 with
  | (name, c1) :: d1', (_, c2) :: d2' => (name, series_append c1 c2) :: frame_append d1' d2'
  | _, _ => d1
  end.

(** A list of frames stacked in order; [None] for no frame at all. *)
Fixpoint stack (ds : list frame) : option frame :=
  match ds with
  | [] => None
  | d :: ds' =>
      match stack ds' with
      | Some rest => Some (frame_append d rest)
      | None => Some d
      end
  end.

(** Every column has [n] values. *)
Definition rectangular (n : nat) (data : frame) : Prop :=
  Forall (fun x => series_len (snd x) = n) data.

(** [range(0, stop, step)] for a positive [step]. *)
Definition py_range (stop step : nat) : list nat :=
  map (fun k => k * step) (seq 0 ((stop + step - 1) / step)).

(** [series.fillna(0)] and [series.fillna(0.0)] on a float column. *)
Definition fill_float (x : float) : float :=
  match x with
  | nan => zero
  | finite _ _ => x
  end.

End Frame.

(* ================================================================= *)
(** ** AppleMango OpenSearch job *)

Module AppleMangoOpenSearchETL.
Import Frame.

(** What [SELECT max(`opensearch_timestamp`)] can give back: nothing, a
    string, a value with [to_pydatetime], or a [datetime]; the last two
    are held by their ISO text. *)
Inductive max_value : Type :=
| MaxNone
| MaxStr (s : string)
| MaxTimestamp (iso : string)
| MaxDatetime (iso : string).

(** The target ClickHouse client; [to_datetime] is [pd.to_datetime] on a
    string, giving the ISO text of the parsed value. *)
Record target_client : Type := {
  exists_table : string -> response nat;
  count_rows : string -> response nat;
  select_max : string -> response max_value;
  to_datetime : string -> response string
}.

Definition lookup_failed (e : string) : option string * list record :=
  (None, [(WARNING, "last timestamp lookup failed: " +:+ e)]).

(** [_get_last_timestamp]: the watermark, by its ISO text, and the records
    logged. *)
Definition _get_last_timestamp (tc : target_client) (table_name : string)
  : option string * list record :=
  match exists_table tc table_name with
  | Raise e => lookup_failed e
  | Ok table_exists =>
      if (table_exists =? 0)%nat
      then (None, [(INFO, "target table missing")])
      else
        match count_rows tc table_name with
        | Raise e => lookup_failed e
        | Ok row_count =>
            if (row_count =? 0)%nat
            then (None, [(INFO, "target table empty")])
            else
              match select_max tc table_name with
              | Raise e => lookup_failed e
              | Ok MaxNone => (None, [])
              | Ok (MaxStr s) =>
                  if String.eqb s "" then (None, [])
                  else match to_datetime tc s with
                       | Ok iso => (Some iso, [(INFO, "last timestamp")])
                       | Raise e => lookup_failed e
                       end
              | Ok (MaxTimestamp iso) => (Some iso, [(INFO, "last timestamp")])
              | Ok (MaxDatetime iso) => (Some iso, [(INFO, "last timestamp")])
              end
        end
  end.

(** One of the calls the lookup gets to raises [e]. *)
Definition lookup_raises (tc : target_client) (table_name e : string) : Prop :=
  exists_table tc table_name = Raise e
  \/ (exists n, exists_table tc table_name = Ok (S n)
                /\ count_rows tc table_name = Raise e)
  \/ (exists n m, exists_table tc table_name = Ok (S n)
                  /\ count_rows tc table_name = Ok (S m)
                  /\ (select_max tc table_name = Raise e
                      \/ exists s, select_max tc table_name = Ok (MaxStr s)
                                   /\ s <> "" /\ to_datetime tc s = Raise e)).

(** The search body: the [query] part; both bodies sort ascending by the
    timestamp field. *)
Inductive query : Type :=
| match_all
| range_gt (field : string) (iso : string).

(** The choice of body at the head of [_extract_from_index]. *)
Definition build_query (timestamp_field : string) (last_timestamp : option string) : query :=
  match last_timestamp with
  | Some iso => range_gt timestamp_field iso
  | None => match_all
  end.

(** The source OpenSearch client: [search(index, body, scroll='2m', size)]
    and [scroll], told how many scroll calls came before; both give
    [page['hits']['hits']]. *)
Record source_client (Hit : Type) : Type := {
  search : string -> query -> nat -> response (list Hit);
  scroll : nat -> response (list Hit)
}.
Arguments search {Hit} _ _ _ _.
Arguments scroll {Hit} _ _.

Section Extract.
Context {Hit : Type} (sc : source_client Hit) (max_rows_per_index : nat).

(** The loop [while len(hits) > 0 and len(results) < max_rows_per_index]
    for at most [fuel] tests of its condition, after [n] scroll calls;
    [None] when it is still running after them. *)
Fixpoint scroll_loop (fuel n : nat) (hits results : list Hit)
  : option (response (list Hit)) :=
  match fuel with
  | O => None
  | S fuel' =>
      if (0 <? length hits)%nat && (length results <? max_rows_per_index)%nat
      then
        match scroll sc n with
        | Raise e => Some (Raise e)
        | Ok hits =>
            let remaining := (max_rows_per_index - length results)%nat in
            let hits :=
              if (remaining <? length hits)%nat then firstn remaining hits else hits in
            let results := results ++ hits in
            if (max_rows_per_index <=? length results)%nat
            then Some (Ok results)
            else scroll_loop fuel' (S n) hits results
        end
      else Some (Ok results)
  end.

(** [_extract_from_index] after the watermark lookup: the rows of the
    frame it returns, or the exception it re-raises. *)
Definition _extract_from_index (fuel : nat) (index_name : string) (body : query)
  : option (response (list Hit)) :=
  match search sc index_name body 1000 with
  | Raise e => Some (Raise e)
  | Ok hits => scroll_loop fuel 0 hits ([] ++ hits)
  end.

End Extract.

(** The new label of one column before collisions are resolved. *)
Definition new_col_of (col : string) : string :=
  if String.eqb col "@timestamp" then "opensearch_timestamp"
  else if String.eqb col "@metadata" then "opensearch_metadata"
  else if String.eqb col "@version" then "opensearch_version"
  else PyStr.replace "@" "at_" (PyStr.replace "-" "_" (PyStr.replace "." "_" col)).


(** [f"{new_col}_{suffix}"] *)
Definition suffixed (new_col : string) (suffix : nat) : string :=
  new_col +:+ "_" +:+ PyStr.str_of_int (Z.of_nat suffix).

(** [while f"{new_col}_{suffix}" in values: suffix += 1] for at most
    [fuel] tests; [None] when no free suffix was found within them. *)
Fixpoint free_suffix (fuel : nat) (new_col : string) (values : list string)
    (suffix : nat) : option nat :=
  match fuel with
  | O => None
  | S fuel' =>
      if mem (suffixed new_col suffix) values
      then free_suffix fuel' new_col values (S suffix)
      else Some suffix
  end.

(** A [dict] from old to new labels, in insertion order. *)
Definition dict : Type := list (string * string).

Definition values (d : dict) : list string := map snd d.

(** [d[k] = v] *)
Fixpoint dict_set (k v : string) (d : dict) : dict :=
  match d with
  | [] => [(k, v)]
  | (k', v') :: d' =>
      if String.eqb k k' then (k, v) :: d' else (k', v') :: dict_set k v d'
  end.

(** [d.get(k, k)], as [rename(columns=d)] uses the mapping. *)
Fixpoint dict_get (k : string) (d : dict) : string :=
  match d with
  | [] => k
  | (k', v') :: d' => if String.eqb k k' then v' else dict_get k d'
  end.

(** The first loop of [transform]: the mapping [new_columns].  Among
    [length values + 1] suffixes one is free, so that many tests are
    allowed to the inner loop. *)
Fixpoint build_new_columns (cols : list string) (new_columns : dict) : option dict :=
  match cols with
  | [] => Some new_columns
  | col :: cols' =>
      let new_col := new_col_of col in
      if mem new_col (values new_columns)
      then
        match free_suffix (S (length (values new_columns))) new_col (values new_columns) 1 with
        | Some suffix =>
            build_new_columns cols' (dict_set col (suffixed new_col suffix) new_columns)
        | None => None
        end
      else build_new_columns cols' (dict_set col new_col new_columns)
  end.

(** [data.rename(columns=new_columns)] *)
Definition rename (new_columns : dict) (data : frame) : frame :=
  map (fun '(name, c) => (dict_get name new_columns, c)) data.

(** [safe_convert] of the [object] branch. *)
Definition safe_convert (x : obj) : obj :=
  match x with
  | ONone | ONaN => ONone
  | OBool b => OStr (if b then "true" else "false")
  | _ => x
  end.

(** [series.astype(str).replace({'True': 'true', 'False': 'false'})] on a
    [bool] column. *)
Definition bool_to_str (c : series) : series :=
  match c with
  | BoolSeries vs => ObjectSeries (map (fun b : bool => OStr (if b then "true" else "false")) vs)
  | _ => c
  end.

(** [series.fillna(0)] and [series.fillna(0.0)]; integer columns hold no
    nulls. *)
Definition fillna_zero (c : series) : series :=
  match c with
  | FloatSeries w vs => FloatSeries w (map fill_float vs)
  | _ => c
  end.

(** [series.apply(safe_convert)].  On a list cell [pd.isna(x)] is an array
    and [if pd.isna(x)] raises; [transform] catches the exception, logs a
    warning and leaves the column as it was. *)
Definition apply_safe_convert (c : series) : series :=
  match c with
  | ObjectSeries vs =>
      if existsb is_list vs then c else ObjectSeries (map safe_convert vs)
  | _ => c
  end.

(** The branch of the second loop of [transform] for one column. *)
Definition convert (c : series) : series :=
  let dtype := dtype_str c in
  if PyStr.contains "datetime64" dtype then c
  else if String.eqb dtype "bool" then bool_to_str c
  else if mem dtype ["int64"; "int32"; "int16"; "int8"; "uint64"; "uint32"; "uint16"; "uint8"]
  then fillna_zero c
  else if mem dtype ["float64"; "float32"] then fillna_zero c
  else if String.eqb dtype "object" then apply_safe_convert c
  else c.

(** [transform].  [Some (Raise _)] is the [AttributeError] of
    [data[col].dtype] on a label that occurs twice; [None] is the inner
    suffix loop running out of its tests. *)
Definition transform (data : frame) : option (response frame) :=
  if (len data =? 0)%nat then Some (Ok data)
  else
    match build_new_columns (columns data) [] with
    | None => None
    | Some new_columns =>
        let data := rename new_columns data in
        if has_duplicates (columns data)
        then Some (Raise "'DataFrame' object has no attribute 'dtype'")
        else Some (Ok (map (fun '(name, c) => (name, convert c)) data))
    end.

(** [type_mapping.get(dtype_str, 'String')] *)
Definition type_mapping (dtype_str : string) : string :=
  if String.eqb dtype_str "int64" then "Int64"
  else if String.eqb dtype_str "int32" then "Int32"
  else if String.eqb dtype_str "int16" then "Int16"
  else if String.eqb dtype_str "int8" then "Int8"
  else if String.eqb dtype_str "uint64" then "UInt64"
  else if String.eqb dtype_str "uint32" then "UInt32"
  else if String.eqb dtype_str "uint16" then "UInt16"
  else if String.eqb dtype_str "uint8" then "UInt8"
  else if String.eqb dtype_str "float64" then "Float64"
  else if String.eqb dtype_str "float32" then "Float32"
  else if String.eqb dtype_str "object" then "String"
  else if String.eqb dtype_str "datetime64[ns]" then "DateTime64(3)"
  else if String.eqb dtype_str "bool" then "String"
  else "String".

(** The statement [ALTER TABLE `t` ADD COLUMN `c` Nullable(ty)]. *)
Record add_column : Type := mk_add_column {
  ac_table : string;
  ac_col : string;
  ac_type : string
}.

Definition alter_sql (a : add_column) : string :=
  "ALTER TABLE `" +:+ ac_table a +:+ "` ADD COLUMN `" +:+ ac_col a
  +:+ "` Nullable(" +:+ ac_type a +:+ ")".

(** The target as the reconciler uses it, over a destination in state [D]:
    [DESCRIBE TABLE t] gives the first field of every row, and an
    add-column command answers and may change the destination. *)
Record ddl_client (D : Type) : Type := {
  describe : D -> string -> response (list string);
  command : D -> add_column -> D * response unit
}.
Arguments describe {D} _ _ _.
Arguments command {D} _ _ _.

(** What a call of [_add_missing_columns] leaves: how it ended, the
    destination, the records logged, and every add-column command it sent
    with the answer it got, oldest first. *)
Record reconciled (D : Type) : Type := mk_reconciled {
  result : response unit;
  dest : D;
  log : list record;
  sent : list (add_column * response unit)
}.
Arguments mk_reconciled {D} _ _ _ _.
Arguments result {D} _.
Arguments dest {D} _.
Arguments log {D} _.
Arguments sent {D} _.

(** [str(df[col].dtype)]; [None] is the [AttributeError] raised when the
    label occurs twice and [df[col]] is a frame. *)
Definition dtype_of (df : frame) (col : string) : option string :=
  match List.filter (fun '(name, _) => String.eqb name col) df with
  | [(_, c)] => Some (dtype_str c)
  | _ => None
  end.

(** The record logged for the answer to one add-column command. *)
Definition answer_log (col : string) (r : response unit) : list record :=
  match r with
  | Ok _ => [(INFO, "column added: " +:+ col)]
  | Raise e =>
      if PyStr.contains "already exists" (PyStr.lower e) then []
      else [(ERROR, "adding column " +:+ col +:+ " failed: " +:+ e)]
  end.

(** The records the answers to the commands sent leave in the log. *)
Definition answers_log (sent : list (add_column * response unit)) : list record :=
  flat_map (fun '(a, r) => answer_log (ac_col a) r) sent.

Section AddMissingColumns.
Context {D : Type} (tc : ddl_client D) (table_name : string) (df : frame).

(** The loop [for col in missing_columns]. *)
Fixpoint add_columns (cols : list string) (d : D) : reconciled D :=
  match cols with
  | [] => mk_reconciled (Ok tt) d [] []
  | col :: cols' =>
      match dtype_of df col with
      | None => mk_reconciled (Raise "'DataFrame' object has no attribute 'dtype'") d [] []
      | Some dtype_str =>
          let ch_type := type_mapping dtype_str in
          let a := mk_add_column table_name col ch_type in
          let '(d, r) := command tc d a in
          let rest := add_columns cols' d in
          mk_reconciled (result rest) (dest rest)
                        (answer_log col r ++ log rest) ((a, r) :: sent rest)
      end
  end.

(** [_add_missing_columns].  The sets are Python sets; the loop visits the
    missing labels in the order [elements] lists them. *)
Definition _add_missing_columns (d : D) : reconciled D :=
  match describe tc d table_name with
  | Raise e => mk_reconciled (Raise e) d [(ERROR, "error while adding columns: " +:+ e)] []
  | Ok rows =>
      let existing_columns : gset string := list_to_set rows in
      let new_columns : gset string := list_to_set (columns df) in
      let missing_columns := new_columns ∖ existing_columns in
      if decide (missing_columns = ∅) then mk_reconciled (Ok tt) d [] []
      else
        let r := add_columns (elements missing_columns) d in
        match result r with
        | Ok _ =>
            mk_reconciled (Ok tt) (dest r) ((INFO, "adding missing columns") :: log r) (sent r)
        | Raise e =>
            mk_reconciled (Raise e) (dest r)
              ((INFO, "adding missing columns") :: log r
               ++ [(ERROR, "error while adding columns: " +:+ e)])
              (sent r)
        end
  end.

End AddMissingColumns.

Section LoadToTable.
(** [target_client.insert_df(table_name, batch_data)], told how many
    inserts came before. *)
Context (insert_df : nat -> frame -> response unit).

(** The loop [for i in range(0, total_rows, batch_size)] of
    [_load_to_table] over the starts still to do: how it ends and the
    batches inserted, oldest first.  An insert that raises is logged and
    re-raised. *)
Fixpoint insert_batches (batch_size : nat) (data : frame) (starts : list nat) (k : nat)
  : response unit * list frame :=
  match starts with
  | [] => (Ok tt, [])
  | i :: starts' =>
      let batch_data := frame_slice i batch_size data in
      match insert_df k batch_data with
      | Ok _ =>
          let '(r, inserted) := insert_batches batch_size data starts' (S k) in
          (r, batch_data :: inserted)
      | Raise e => (Raise e, [])
      end
  end.

(** The inserts of [_load_to_table], once the table and its columns are
    there, with the write batch size as a parameter. *)
Definition insert_all (batch_size : nat) (data : frame) : response unit * list frame :=
  if (len data =? 0)%nat then (Ok tt, [])
  else insert_batches batch_size data (py_range (len data) batch_size) 0.

End LoadToTable.

(** [batch_size = 10000] of [_load_to_table]. *)
Definition write_batch_size : nat := 10000.

(** A destination table for the examples: the labels it has, and labels
    whose add-column command the server refuses for a reason of its own.
    Adding a label that is there is answered with ClickHouse's
    duplicate-column error. *)
Record table : Type := mk_table {
  labels : gset string;
  refused : gset string
}.

Definition table_client : ddl_client table := {|
  describe := fun d _ => Ok (elements (labels d));
  command := fun d a =>
    if decide (ac_col a ∈ labels d)
    then (d, Raise ("Code: 44. DB::Exception: Cannot add column " +:+ ac_col a
                    +:+ ": column with this name already exists"))
    else if decide (ac_col a ∈ refused d)
    then (d, Raise "Code: 159. DB::Exception: Timeout exceeded")
    else (mk_table ({[ ac_col a ]} ∪ labels d) (refused d), Ok tt)
|}.

End AppleMangoOpenSearchETL.

(* ================================================================= *)
(** ** Guava MariaDB job: the row transformer *)

Module GuavaMariaDBETL.
Import Frame.

(** [series != first_col], element by element: only a string cell can be
    equal to the label. *)
Definition ne_mask (first_col : string) (c : series) : list bool :=
  match c with
  | ObjectSeries vs =>
      map (fun x => match x with
                    | OStr s => negb (String.eqb s first_col)
                    | _ => true
                    end) vs
  | _ => repeat true (series_len c)
  end.

(** [series.fillna('')] on an [object] column. *)
Definition fill_obj (x : obj) : obj :=
  match x with
  | ONone | ONaN => OStr ""
  | _ => x
  end.

Section Transform.
(** [x.strftime('%Y-%m-%d %H:%M:%S')] *)
Context (strftime : Z -> string) (table_name : string).

(** The branch of the null-handling loop for one column.  The filled
    cells of an [object] column of a constructed frame make an [object]
    column again. *)
Definition fill (c : series) : series :=
  let dtype := dtype_str c in
  if String.eqb dtype "object" then
    match c with
    | ObjectSeries vs => ObjectSeries (map fill_obj vs)
    | _ => c
    end
  else if mem dtype ["int64"; "int32"; "float64"; "float32"] then
    match c with
    | FloatSeries w vs => FloatSeries w (map fill_float vs)
    | _ => c
    end
  else if String.eqb dtype "datetime64[ns]" then
    match c with
    | DatetimeSeries vs =>
        ObjectSeries (map (fun x => match x with
                                    | Some t => OStr (strftime t)
                                    | None => ONone
                                    end) vs)
    | _ => c
    end
  else c.

(** [data[name] = value] for a string constant. *)
Definition set_constant (name value : string) (data : frame) : frame :=
  set_column name (ObjectSeries (repeat (OStr value) (len data))) data.

(** [transform].  [Raise] is the [AttributeError] of [data[col].dtype]
    when a label occurs twice. *)
Definition transform (data : frame) : response frame :=
  if (len data =? 0)%nat then Ok data
  else
    match data with
    | [] => Ok data
    | (first_col, c) :: _ =>
        if mem first_col (List.tail (columns data))
        then Raise "'DataFrame' object has no attribute 'dtype'"
        else
          let data := frame_select (ne_mask first_col c) data in
          if (len data =? 0)%nat then Ok data
          else
            let data := map (fun '(col, c) => (PyStr.lower col, c)) data in
            if has_duplicates (columns data)
            then Raise "'DataFrame' object has no attribute 'dtype'"
            else
              let data := map (fun '(col, c) => (col, fill c)) data in
              let data := set_constant "source_system" "guava" data in
              let data := set_constant "source_table" table_name data in
              Ok data
    end.

End Transform.

(** The constructor argument [primary_key]: [None], a string, a list or
    tuple of strings, or another object, held by its [str]. *)
Inductive key_argument : Type :=
| KeyNone
| KeyStr (s : string)
| KeyList (keys : list string)
| KeyOther (text : string).

(** [self.primary_key] as [__init__] sets it. *)
Definition init_primary_key (primary_key : key_argument) : option (list string) :=
  match primary_key with
  | KeyNone => None
  | KeyStr s => Some [s]
  | KeyList keys => Some keys
  | KeyOther text => Some [text]
  end.

(** Truthiness of [self.primary_key]: a list that is not empty. *)
Definition key_given (primary_key : option (list string)) : bool :=
  match primary_key with
  | Some (_ :: _) => true
  | _ => false
  end.

(** [type_mapping.get(dtype_str, 'String')] of this job. *)
Definition type_mapping (dtype_str : string) : string :=
  if String.eqb dtype_str "int64" then "Int64"
  else if String.eqb dtype_str "int32" then "Int32"
  else if String.eqb dtype_str "uint64" then "UInt64"
  else if String.eqb dtype_str "uint32" then "UInt32"
  else if String.eqb dtype_str "float64" then "Float64"
  else if String.eqb dtype_str "float32" then "Float32"
  else if String.eqb dtype_str "object" then "String"
  else if String.eqb dtype_str "datetime64[ns]" then "String"
  else if String.eqb dtype_str "bool" then "UInt8"
  else "String".

(** A column of the statement: label, type, and whether the type is
    wrapped in [Nullable]. *)
Record column_definition : Type := mk_column {
  col_name : string;
  col_type : string;
  col_nullable : bool
}.

(** The statement [CREATE TABLE t (columns) ENGINE = ReplacingMergeTree()
    ORDER BY (keys)]. *)
Record create_table : Type := mk_create_table {
  ct_table : string;
  ct_columns : list column_definition;
  ct_order_by : list string
}.

(** The primary key [_create_table_if_not_exists] settles on: the given
    one when it is not empty and all of it is in the frame, else the
    labels ending in [_id], else the first label; [None] is the
    [IndexError] of [df.columns[0]] on a frame without columns. *)
Definition settle_primary_key (primary_key : option (list string)) (df : frame)
  : option (list string) :=
  let primary_key :=
    if key_given primary_key
    then
      let missing_keys :=
        List.filter (fun pk => negb (mem pk (columns df)))
                    (match primary_key with Some keys => keys | None => [] end) in
      match missing_keys with
      | [] => primary_key
      | _ :: _ => None
      end
    else primary_key in
  if negb (key_given primary_key)
  then
    let detected_pks := List.filter (PyStr.ends_with "_id") (columns df) in
    match detected_pks with
    | _ :: _ => Some detected_pks
    | [] =>
        match columns df with
        | first :: _ => Some [first]
        | [] => None
        end
    end
  else primary_key.

(** The statement [_create_table_if_not_exists] sends, with the primary
    key it leaves in [self.primary_key]. *)
Definition _create_table_if_not_exists (primary_key : option (list string))
    (table_name : string) (df : frame) : option create_table :=
  match settle_primary_key primary_key df with
  | None => None
  | Some keys =>
      Some (mk_create_table table_name
              (map (fun '(col_name, c) =>
                      let ch_type := type_mapping (dtype_str c) in
                      if mem col_name keys || mem col_name ["source_system"; "source_table"]
                      then mk_column col_name ch_type false
                      else mk_column col_name ch_type true)
                   df)
              keys)
  end.

End GuavaMariaDBETL.

(* ================================================================= *)
(** ** Clients and frames the examples run on *)

Module Fixtures.

(** A destination whose count statement times out, for both jobs. *)
Definition timing_out_target : GuavaClickHouseETL.target_client := {|
  GuavaClickHouseETL.exists_table := fun _ => Ok 1;
  GuavaClickHouseETL.count_rows := fun _ => Raise "Code: 159. Timeout exceeded";
  GuavaClickHouseETL.select_max := fun _ _ => Ok (PyInt 7);
  GuavaClickHouseETL.select_max_string := fun _ _ => Ok (PyStr "2024-01-01 00:00:00")
|}.

Definition timing_out_index_target : AppleMangoOpenSearchETL.target_client := {|
  AppleMangoOpenSearchETL.exists_table := fun _ => Ok 1;
  AppleMangoOpenSearchETL.count_rows := fun _ => Raise "Code: 159. Timeout exceeded";
  AppleMangoOpenSearchETL.select_max := fun _ => Ok AppleMangoOpenSearchETL.MaxNone;
  AppleMangoOpenSearchETL.to_datetime := fun s => Ok s
|}.

(** A target that is never asked in the examples of the loop. *)
Definition empty_target : GuavaClickHouseETL.target_client := {|
  GuavaClickHouseETL.exists_table := fun _ => Ok 0;
  GuavaClickHouseETL.count_rows := fun _ => Ok 0;
  GuavaClickHouseETL.select_max := fun _ _ => Ok PyNone;
  GuavaClickHouseETL.select_max_string := fun _ _ => Ok PyNone
|}.

Definition memory_limit_message : string :=
  "Code: 241. DB::Exception: Memory limit (total) exceeded. (MEMORY_LIMIT_EXCEEDED)".

Definition network_message : string :=
  "Code: 210. DB::NetException: Connection reset by peer".

(** A source of [n] rows, numbered from 0, whose first [failing] page
    statements raise [msg] and whose later ones answer as asked. *)
Definition flaky_source (n failing : nat) (msg : string)
  : GuavaClickHouseETL.source_client nat := {|
  GuavaClickHouseETL.select_count := fun _ => Ok n;
  GuavaClickHouseETL.query_df := fun k _ limit offset =>
    if (k <? failing)%nat then Raise msg
    else Ok (seq offset (Nat.min limit (n - offset)))
|}.

(** A source whose every page statement raises [msg]. *)
Definition failing_source (n : nat) (msg : string)
  : GuavaClickHouseETL.source_client nat := {|
  GuavaClickHouseETL.select_count := fun _ => Ok n;
  GuavaClickHouseETL.query_df := fun _ _ _ _ => Raise msg
|}.

(** A job over a source, with a transformer and a loader that never
    fail. *)
Definition job_over (src : GuavaClickHouseETL.source_client nat)
  : GuavaClickHouseETL.job nat := {|
  GuavaClickHouseETL.source := src;
  GuavaClickHouseETL.target := empty_target;
  GuavaClickHouseETL.transform := fun df => Ok df;
  GuavaClickHouseETL.insert_df := fun _ _ => Ok tt
|}.

(** An index of [n] documents, numbered from 0, read in pages of the size
    asked for at the search. *)
Definition index_of (n : nat) : AppleMangoOpenSearchETL.source_client nat := {|
  AppleMangoOpenSearchETL.search := fun _ _ size => Ok (seq 0 (Nat.min size n));
  AppleMangoOpenSearchETL.scroll := fun k =>
    Ok (seq (1000 * S k) (Nat.min 1000 (n - 1000 * S k)))
|}.

(** An index whose scroll context is lost after the first page. *)
Definition dropping_index : AppleMangoOpenSearchETL.source_client nat := {|
  AppleMangoOpenSearchETL.search := fun _ _ _ => Ok [0; 1; 2];
  AppleMangoOpenSearchETL.scroll := fun _ => Raise "NotFoundError(404, search_context_missing_exception)"
|}.

(** A transformed batch and a destination table that has its first label
    only and refuses the label zz. *)
Definition batch : Frame.frame :=
  [("a", Frame.ObjectSeries [Frame.ONone]);
   ("b", Frame.ObjectSeries [Frame.OStr "true"]);
   ("zz", Frame.IntSeries Frame.int64 [1%Z]);
   ("c", Frame.DatetimeSeries [None])].

Definition destination : AppleMangoOpenSearchETL.table :=
  AppleMangoOpenSearchETL.mk_table {[ "a" ]} {[ "zz" ]}.

(** A frame of three rows, an insert that always answers, and one whose
    second call raises. *)
Definition three_rows : Frame.frame :=
  [("opensearch_timestamp", Frame.DatetimeSeries [Some 1%Z; Some 2%Z; Some 3%Z]);
   ("host", Frame.ObjectSeries [Frame.OStr "a"; Frame.ONone; Frame.OStr "c"])].

Definition insert_ok : nat -> Frame.frame -> response unit := fun _ _ => Ok tt.

Definition insert_second_fails : nat -> Frame.frame -> response unit :=
  fun k _ => if (k =? 1)%nat then Raise "Code: 252. DB::Exception: Too many parts" else Ok tt.

(** A transformed frame of the MariaDB job. *)
Definition users : Frame.frame :=
  [("id", Frame.IntSeries Frame.int64 [7%Z]);
   ("user_id", Frame.IntSeries Frame.int64 [1%Z]);
   ("name", Frame.ObjectSeries [Frame.OStr "kim"]);
   ("source_system", Frame.ObjectSeries [Frame.OStr "guava"]);
   ("source_table", Frame.ObjectSeries [Frame.OStr "users"])].


End Fixtures.

(* ================================================================= *)
(** * Properties *)

(** ** Facts about the string operations *)

Module PyStrFacts.
Import PyStr.

Lemma prefix_nil (s : string) : String.prefix "" s = true.
Proof. destruct s; reflexivity. Qed.

Lemma append_cons (c : ascii) (s t : string) : String c s +:+ t = String c (s +:+ t).
Proof. reflexivity. Qed.

Lemma append_nil_l (t : string) : "" +:+ t = t.
Proof. reflexivity. Qed.

Lemma contains_cons (sub : string) (c : ascii) (s : string) :
  contains sub (String c s) = false ->
  String.prefix sub (String c s) = false /\ contains sub s = false.
Proof.
  cbn [contains]. intros H. apply orb_false_iff in H. exact H.
Qed.

(** Replacing a substring that does not occur changes nothing. *)
Lemma replace_absent (old new s : string) :
  contains old s = false -> replace old new s = s.
Proof.
  unfold replace. induction s as [|c s IH]; intros H; [reflexivity|].
  apply contains_cons in H as [Hp Hc].
  cbn [replace_from]. rewrite Hp, (IH Hc). reflexivity.
Qed.

Lemma length_append (s t : string) :
  String.length (s +:+ t) = String.length s + String.length t.
Proof.
  induction s as [|c s IH]; [reflexivity|].
  rewrite append_cons. simpl. now rewrite IH.
Qed.

Lemma length_string_of_list_ascii (l : list ascii) :
  String.length (string_of_list_ascii l) = length l.
Proof. induction l as [|c l IH]; simpl; [reflexivity|]. now rewrite IH. Qed.

Lemma length_ljust (width : nat) (fill : ascii) (s : string) :
  String.length (ljust width fill s) = Nat.max width (String.length s).
Proof.
  unfold ljust. rewrite length_append, length_string_of_list_ascii, repeat_length. lia.
Qed.

Lemma length_substring0 (n : nat) (s : string) :
  String.length (String.substring 0 n s) = Nat.min n (String.length s).
Proof.
  revert s. induction n as [|n IH]; intros [|c s]; simpl; try reflexivity.
  now rewrite IH.
Qed.

Lemma substring0_append (s t : string) :
  String.substring 0 (String.length s) (s +:+ t) = s.
Proof.
  induction s as [|c s IH].
  - rewrite append_nil_l. destruct t; reflexivity.
  - rewrite append_cons. simpl. now rewrite IH.
Qed.

Lemma substring0_all (s : string) :
  String.substring 0 (String.length s) s = s.
Proof. induction s as [|c s IH]; simpl; [reflexivity|]. now rewrite IH. Qed.

Lemma append_nil_r (s : string) : s +:+ "" = s.
Proof. induction s as [|c s IH]; [reflexivity|]. rewrite append_cons. now rewrite IH. Qed.

Lemma append_assoc (s t u : string) : (s +:+ t) +:+ u = s +:+ (t +:+ u).
Proof.
  induction s as [|c s IH]; [reflexivity|].
  rewrite !append_cons. now rewrite IH.
Qed.

Lemma append_inv_head (p s t : string) : p +:+ s = p +:+ t -> s = t.
Proof.
  induction p as [|c p IH]; intros H; [exact H|].
  rewrite !append_cons in H. injection H as H. auto.
Qed.

(** The value of a digit string extends over appended digits. *)
Lemma int_of_digits_from_append (s t : string) (acc : Z) :
  int_of_digits_from acc (s +:+ t) = int_of_digits_from (int_of_digits_from acc s) t.
Proof.
  revert acc. induction s as [|c s IH]; intros acc; [reflexivity|].
  rewrite append_cons. simpl. apply IH.
Qed.

Lemma int_of_digits_from_zeros (n : nat) (acc : Z) :
  int_of_digits_from acc (string_of_list_ascii (repeat "0"%char n)) = (acc * 10 ^ Z.of_nat n)%Z.
Proof.
  revert acc. induction n as [|n IH]; intros acc.
  - cbn. lia.
  - cbn [repeat string_of_list_ascii int_of_digits_from]. rewrite IH.
    change (Z.of_nat (nat_of_ascii "0")) with 48%Z.
    rewrite Nat2Z.inj_succ, Z.pow_succ_r by lia. lia.
Qed.

(** Decimal printing and reading of integers are inverse. *)
Lemma read_decimal_str_of_int (z : Z) : read_decimal (str_of_int z) = Some z.
Proof.
  unfold read_decimal, str_of_int.
  rewrite NilZero.isi.
  - now rewrite DecimalZ.of_to.
  - destruct z; cbn; try discriminate.
    intros H. injection H as H. revert H. apply DecimalPos.Unsigned.to_uint_nonnil.
  - destruct z; cbn; try discriminate.
    intros H. injection H as H. revert H. apply DecimalPos.Unsigned.to_uint_nonnil.
Qed.


End PyStrFacts.

(* ================================================================= *)
(** ** Watermark lookup and filter building *)

Module WatermarkFacts.

(** C10.  The filter builder tells an absent watermark from a present one
    by truthiness alone: for every falsy watermark, the integer 0 and the
    empty string included, it returns the empty predicate for whatever
    column and declared type, and the test of [run] that would skip the
    table does not fire, so the table is read unfiltered. *)
Theorem falsy_watermark_selects_all
    (utcoffset : Z) (timestamp_col timestamp_type : string) (last_value : pyvalue) :
  truthy last_value = false ->
  GuavaClickHouseETL._build_where_clause utcoffset timestamp_col timestamp_type last_value = ""
  /\ GuavaClickHouseETL.skip_table
       (GuavaClickHouseETL._build_where_clause utcoffset timestamp_col timestamp_type last_value)
       last_value = false.
Proof.
  intros H. unfold GuavaClickHouseETL._build_where_clause, GuavaClickHouseETL.skip_table.
  rewrite H. split; reflexivity.
Qed.

Lemma falsy_watermark_selects_all_witness :
  truthy (PyInt 0) = false
  /\ GuavaClickHouseETL._build_where_clause 0 "TimeUnix" "Int64" (PyInt 0) = ""
  /\ GuavaClickHouseETL.skip_table
       (GuavaClickHouseETL._build_where_clause 0 "TimeUnix" "Int64" (PyInt 0)) (PyInt 0) = false.
Proof.
  split; [reflexivity|].
  apply (falsy_watermark_selects_all 0 "TimeUnix" "Int64" (PyInt 0)). reflexivity.
Defined.

(** The same for the empty string under the timestamp type. *)
Example empty_string_watermark_selects_all :
  GuavaClickHouseETL._build_where_clause 0 "Timestamp" "DateTime64" (PyStr "") = "".
Proof. reflexivity. Qed.

Section GuavaLookup.
Import GuavaClickHouseETL.
Variables (tc : target_client) (table_name timestamp_col : string).

(** The lookup itself already maps a falsy maximum to [None]. *)
Lemma falsy_maximum_is_absent (n m : nat) (v : pyvalue) :
  exists_table tc table_name = Ok (S n) ->
  count_rows tc table_name = Ok (S m) ->
  max_statement tc table_name timestamp_col = Ok v ->
  truthy v = false ->
  _get_last_timestamp tc table_name timestamp_col = (PyNone, []).
Proof.
  unfold max_statement, _get_last_timestamp. intros He Hc Hm Hv.
  rewrite He, Hc. cbn [Nat.eqb].
  destruct (String.eqb _ _); rewrite Hm, Hv; reflexivity.
Qed.

Lemma lookup_failed_absent (e : string) :
  fst (lookup_failed e) = PyNone /\ warned (snd (lookup_failed e)).
Proof. split; [reflexivity|]. eexists. left. reflexivity. Qed.

Lemma missing_table_absent :
  exists_table tc table_name = Ok 0 ->
  fst (_get_last_timestamp tc table_name timestamp_col) = PyNone.
Proof. intros H. unfold _get_last_timestamp. now rewrite H. Qed.

Lemma empty_table_absent (n : nat) :
  exists_table tc table_name = Ok n ->
  count_rows tc table_name = Ok 0 ->
  fst (_get_last_timestamp tc table_name timestamp_col) = PyNone.
Proof.
  intros H H0. unfold _get_last_timestamp. rewrite H, H0.
  destruct (n =? 0)%nat; reflexivity.
Qed.

Lemma failed_lookup_absent (e : string) :
  lookup_raises tc table_name timestamp_col e ->
  fst (_get_last_timestamp tc table_name timestamp_col) = PyNone
  /\ warned (snd (_get_last_timestamp tc table_name timestamp_col)).
Proof.
  unfold lookup_raises, max_statement, _get_last_timestamp.
  intros [H | [(n & H & H0) | (n & m & H & H0 & H1)]].
  - rewrite H. apply lookup_failed_absent.
  - rewrite H, H0. apply lookup_failed_absent.
  - rewrite H, H0. cbn [Nat.eqb].
    destruct (String.eqb _ _); rewrite H1; apply lookup_failed_absent.
Qed.

End GuavaLookup.

Section AppleMangoLookup.
Import AppleMangoOpenSearchETL.
Variables (tc : target_client) (table_name : string).

Lemma index_lookup_failed_absent (e : string) :
  fst (lookup_failed e) = None /\ warned (snd (lookup_failed e)).
Proof. split; [reflexivity|]. eexists. left. reflexivity. Qed.

Lemma index_missing_table_absent :
  exists_table tc table_name = Ok 0 ->
  fst (_get_last_timestamp tc table_name) = None.
Proof. intros H. unfold _get_last_timestamp. now rewrite H. Qed.

Lemma index_empty_table_absent (n : nat) :
  exists_table tc table_name = Ok n ->
  count_rows tc table_name = Ok 0 ->
  fst (_get_last_timestamp tc table_name) = None.
Proof.
  intros H H0. unfold _get_last_timestamp. rewrite H, H0.
  destruct (n =? 0)%nat; reflexivity.
Qed.

Lemma index_failed_lookup_absent (e : string) :
  lookup_raises tc table_name e ->
  fst (_get_last_timestamp tc table_name) = None
  /\ warned (snd (_get_last_timestamp tc table_name)).
Proof.
  unfold lookup_raises, _get_last_timestamp.
  intros [H | [(n & H & H0) | (n & m & H & H0 & [H1 | (s & H1 & Hs & H2)])]].
  - rewrite H. apply index_lookup_failed_absent.
  - rewrite H, H0. apply index_lookup_failed_absent.
  - rewrite H, H0, H1. apply index_lookup_failed_absent.
  - rewrite H, H0, H1, H2. cbn [Nat.eqb].
    apply String.eqb_neq in Hs. rewrite Hs. apply index_lookup_failed_absent.
Qed.

End AppleMangoLookup.

(** C5.  In both jobs the watermark lookup answers "absent" ([None]) when
    the destination table does not exist or has no rows, and also when any
    statement it gets to raises, in which case a warning is logged and
    nothing is re-raised; on an absent watermark the ClickHouse filter
    builder returns the empty predicate and the OpenSearch job builds the
    match-all body. *)
Theorem absent_destination_full_resync
    (gc : GuavaClickHouseETL.target_client) (ac : AppleMangoOpenSearchETL.target_client)
    (table_name timestamp_col timestamp_type timestamp_field : string) (utcoffset : Z) :
  ((GuavaClickHouseETL.exists_table gc table_name = Ok 0 ->
    fst (GuavaClickHouseETL._get_last_timestamp gc table_name timestamp_col) = PyNone)
   /\ (forall n, GuavaClickHouseETL.exists_table gc table_name = Ok n ->
                 GuavaClickHouseETL.count_rows gc table_name = Ok 0 ->
       fst (GuavaClickHouseETL._get_last_timestamp gc table_name timestamp_col) = PyNone)
   /\ (forall e, GuavaClickHouseETL.lookup_raises gc table_name timestamp_col e ->
       fst (GuavaClickHouseETL._get_last_timestamp gc table_name timestamp_col) = PyNone
       /\ warned (snd (GuavaClickHouseETL._get_last_timestamp gc table_name timestamp_col)))
   /\ GuavaClickHouseETL._build_where_clause utcoffset timestamp_col timestamp_type PyNone = "")
  /\
  ((AppleMangoOpenSearchETL.exists_table ac table_name = Ok 0 ->
    fst (AppleMangoOpenSearchETL._get_last_timestamp ac table_name) = None)
   /\ (forall n, AppleMangoOpenSearchETL.exists_table ac table_name = Ok n ->
                 AppleMangoOpenSearchETL.count_rows ac table_name = Ok 0 ->
       fst (AppleMangoOpenSearchETL._get_last_timestamp ac table_name) = None)
   /\ (forall e, AppleMangoOpenSearchETL.lookup_raises ac table_name e ->
       fst (AppleMangoOpenSearchETL._get_last_timestamp ac table_name) = None
       /\ warned (snd (AppleMangoOpenSearchETL._get_last_timestamp ac table_name)))
   /\ AppleMangoOpenSearchETL.build_query timestamp_field None
      = AppleMangoOpenSearchETL.match_all).
Proof.
  split; (split; [|split; [|split]]).
  - apply missing_table_absent.
  - apply empty_table_absent.
  - apply failed_lookup_absent.
  - reflexivity.
  - apply index_missing_table_absent.
  - apply index_empty_table_absent.
  - apply index_failed_lookup_absent.
  - reflexivity.
Qed.

Lemma absent_destination_full_resync_witness :
  GuavaClickHouseETL._get_last_timestamp Fixtures.timing_out_target "otel_logs" "Timestamp"
  = (PyNone, [(WARNING, "last timestamp lookup failed: Code: 159. Timeout exceeded")])
  /\ AppleMangoOpenSearchETL._get_last_timestamp Fixtures.timing_out_index_target "perfhist_sms"
     = (None, [(WARNING, "last timestamp lookup failed: Code: 159. Timeout exceeded")])
  /\ fst (GuavaClickHouseETL._get_last_timestamp Fixtures.timing_out_target "otel_logs" "Timestamp") = PyNone
  /\ warned (snd (GuavaClickHouseETL._get_last_timestamp Fixtures.timing_out_target "otel_logs" "Timestamp")).
Proof.
  split; [reflexivity|]. split; [reflexivity|].
  refine (proj1 (proj2 (proj2 (proj1
    (absent_destination_full_resync Fixtures.timing_out_target Fixtures.timing_out_index_target
       "otel_logs" "Timestamp" "DateTime64" "@timestamp" 0))))
    "Code: 159. Timeout exceeded" _).
  right. left. exists 0. split; reflexivity.
Defined.

End WatermarkFacts.

(* ================================================================= *)
(** ** The literal of the filter *)

Module FilterFacts.
Import PyStr PyStrFacts GuavaClickHouseETL.

Lemma strip_prefix_append (p s : string) : strip_prefix p (p +:+ s) = Some s.
Proof.
  induction p as [|c p IH]; [reflexivity|].
  rewrite append_cons. cbn [strip_prefix]. now rewrite Ascii.eqb_refl.
Qed.

Lemma literal_of_where (timestamp_col lit : string) :
  literal_of timestamp_col ("WHERE `" +:+ timestamp_col +:+ "` > " +:+ lit) = Some lit.
Proof.
  unfold literal_of.
  replace ("WHERE `" +:+ timestamp_col +:+ "` > " +:+ lit)
    with (("WHERE `" +:+ timestamp_col +:+ "` > ") +:+ lit).
  - apply strip_prefix_append.
  - now rewrite !append_assoc.
Qed.

(** A printed integer does not start with a quote. *)
Lemma str_of_int_head (z : Z) :
  exists c rest, str_of_int z = String c rest /\ Ascii.eqb c "'" = false.
Proof.
  unfold str_of_int. destruct z as [|p|p]; cbn.
  - eexists _, _; split; reflexivity.
  - destruct (Pos.to_uint p); cbn; eexists _, _; split; reflexivity.
  - eexists _, _; split; reflexivity.
Qed.

Lemma reparse_int (timestamp_col : string) (z : Z) :
  reparse timestamp_col ("WHERE `" +:+ timestamp_col +:+ "` > " +:+ str_of_int z)
  = Some (PyInt z).
Proof.
  unfold reparse. rewrite literal_of_where.
  destruct (str_of_int_head z) as (c & rest & E & Hc).
  rewrite E, Hc, <- E, read_decimal_str_of_int. reflexivity.
Qed.

(** *** Quoted literals *)

Lemma has_char_cons (c x : ascii) (s : string) :
  has_char c (String x s) = false -> Ascii.eqb c x = false /\ has_char c s = false.
Proof. cbn [has_char]. intros H. now apply orb_false_iff in H. Qed.

Lemma eqb_swap (a b : ascii) : Ascii.eqb a b = Ascii.eqb b a.
Proof.
  destruct (Ascii.eqb_spec a b) as [->|H]; [now rewrite Ascii.eqb_refl|].
  symmetry. apply Ascii.eqb_neq. congruence.
Qed.

(** A text without quote and backslash is read back from between its
    quotes. *)
Lemma quoted_text_append (s : string) :
  has_char "'" s = false -> has_char "\" s = false ->
  quoted_text (s +:+ "'") = Some s.
Proof.
  induction s as [|c s IH]; intros Hq Hb; [reflexivity|].
  apply has_char_cons in Hq as [Hq Hq']. apply has_char_cons in Hb as [Hb Hb'].
  rewrite append_cons. cbn [quoted_text].
  rewrite (eqb_swap c "'"), Hq, (eqb_swap c "\"), Hb, (IH Hq' Hb'). reflexivity.
Qed.

(** Whatever is read back from between the quotes is the text put there. *)
Lemma quoted_text_inv (s t : string) : quoted_text (s +:+ "'") = Some t -> t = s.
Proof.
  revert t. induction s as [|c s IH]; intros t H.
  - cbn in H. now injection H as <-.
  - rewrite append_cons in H. cbn [quoted_text] in H.
    destruct (Ascii.eqb c "'").
    + destruct s; rewrite ?append_cons in H; discriminate H.
    + destruct (Ascii.eqb c "\"); [discriminate H|].
      destruct (quoted_text (s +:+ "'")) as [r|]; [|discriminate H].
      injection H as <-. now rewrite (IH r eq_refl).
Qed.

Lemma reparse_quoted_form (timestamp_col s : string) :
  reparse timestamp_col ("WHERE `" +:+ timestamp_col +:+ "` > '" +:+ s +:+ "'")
  = match quoted_text (s +:+ "'") with
    | Some t => Some (PyStr t)
    | None => None
    end.
Proof.
  unfold reparse.
  replace ("WHERE `" +:+ timestamp_col +:+ "` > '" +:+ s +:+ "'")
    with ("WHERE `" +:+ timestamp_col +:+ "` > " +:+ String "'" (s +:+ "'")) by reflexivity.
  rewrite literal_of_where. reflexivity.
Qed.

Lemma reparse_quoted (timestamp_col s : string) :
  has_char "'" s = false -> has_char "\" s = false ->
  reparse timestamp_col ("WHERE `" +:+ timestamp_col +:+ "` > '" +:+ s +:+ "'")
  = Some (PyStr s).
Proof.
  intros Hq Hb. now rewrite reparse_quoted_form, quoted_text_append.
Qed.

Lemma reparse_quoted_inv (timestamp_col s : string) (v : pyvalue) :
  reparse timestamp_col ("WHERE `" +:+ timestamp_col +:+ "` > '" +:+ s +:+ "'") = Some v ->
  v = PyStr s.
Proof.
  rewrite reparse_quoted_form.
  destruct (quoted_text (s +:+ "'")) as [t|] eqn:E; [|discriminate].
  intros H. injection H as <-. now rewrite (quoted_text_inv s t E).
Qed.

Lemma truthy_str (s : string) : s <> "" -> truthy (PyStr s) = true.
Proof. intros H. cbn. apply String.eqb_neq in H. now rewrite H. Qed.

Lemma truthy_int (z : Z) : z <> 0%Z -> truthy (PyInt z) = true.
Proof. intros H. cbn. apply Z.eqb_neq in H. now rewrite H. Qed.

(** *** The clean-up *)

(** The clean-up with its steps written out. *)
Lemma clean_timestamp_steps (s : string) :
  clean_timestamp s
  = strip (replace "-01:00" "" (replace "+01:00" "" (replace "-00:00" ""
      (replace "Z" "" (replace "+00:00" "" (replace "+09:00" ""
        (replace "T" " " s))))))).
Proof. reflexivity. Qed.

Lemma where_string (utcoffset : Z) (timestamp_col s : string) :
  s <> "" ->
  _build_where_clause utcoffset timestamp_col "DateTime64" (PyStr s)
  = "WHERE `" +:+ timestamp_col +:+ "` > '" +:+ clean_timestamp s +:+ "'".
Proof.
  intros H. unfold _build_where_clause. rewrite (truthy_str s H). reflexivity.
Qed.

(** A naive literal is left as it is by the clean-up. *)
Lemma clean_naive (s : string) : naive s = true -> clean_timestamp s = s.
Proof.
  rewrite clean_timestamp_steps. unfold naive. cbn [forallb].
  intros H. rewrite !andb_true_iff, !negb_true_iff in H.
  destruct H as [[HT (H1 & H2 & H3 & H4 & H5 & H6 & _)] Hstrip].
  rewrite (replace_absent "T" " " s HT).
  rewrite (replace_absent _ "" s H1), (replace_absent _ "" s H2),
    (replace_absent _ "" s H3), (replace_absent _ "" s H4),
    (replace_absent _ "" s H5), (replace_absent _ "" s H6).
  now apply String.eqb_eq.
Qed.

(** **** Replacing in front of a text *)

Lemma prefix_head (c x : ascii) (old s : string) :
  Ascii.eqb c x = false -> String.prefix (String c old) (String x s) = false.
Proof.
  intros H. cbn [String.prefix]. destruct (ascii_dec c x) as [->|]; [|reflexivity].
  now rewrite Ascii.eqb_refl in H.
Qed.

(** A text in which the first character of [old] does not occur is passed
    over. *)
Lemma replace_past (c : ascii) (old new p r : string) :
  has_char c p = false ->
  replace (String c old) new (p +:+ r) = p +:+ replace (String c old) new r.
Proof.
  unfold replace. induction p as [|x p IH]; intros H; [reflexivity|].
  apply has_char_cons in H as [Hx Hp].
  rewrite !append_cons. cbn [replace_from].
  now rewrite (prefix_head c x old _ Hx), (IH Hp).
Qed.

Lemma date_char_not_colon (c : ascii) : date_char c = true -> c <> ":"%char.
Proof. intros H ->. discriminate H. Qed.

(** A marker that starts with a dash and has a colon in fourth place does
    not begin inside a date that a blank follows: the date has no colon
    and the marker no blank. *)
Lemma marker_not_in_date (c1 c2 : ascii) (o date r : string) :
  Ascii.eqb c1 " " = false -> Ascii.eqb c2 " " = false ->
  all_chars date_char date = true ->
  String.prefix (String c1 (String c2 (String ":" o))) (date +:+ String " " r) = false.
Proof.
  intros H1 H2 Hd.
  destruct date as [|y1 [|y2 [|y3 d]]]; rewrite ?append_cons, ?append_nil_l.
  - now apply prefix_head.
  - cbn [String.prefix]. destruct (ascii_dec c1 y1); [|reflexivity].
    destruct (ascii_dec c2 " ") as [->|]; [discriminate H2|reflexivity].
  - cbn [String.prefix]. destruct (ascii_dec c1 y1); [|reflexivity].
    destruct (ascii_dec c2 y2); [|reflexivity].
    destruct (ascii_dec ":" " "); [discriminate|reflexivity].
  - cbn [String.prefix]. destruct (ascii_dec c1 y1); [|reflexivity].
    destruct (ascii_dec c2 y2); [|reflexivity].
    destruct (ascii_dec ":" y3) as [<-|]; [|reflexivity].
    cbn [all_chars] in Hd. rewrite !andb_true_iff in Hd.
    destruct Hd as (_ & _ & Hd & _). discriminate Hd.
Qed.

Lemma replace_past_date (c1 c2 : ascii) (o new date r : string) :
  Ascii.eqb c1 " " = false -> Ascii.eqb c2 " " = false ->
  all_chars date_char date = true ->
  replace (String "-" (String c1 (String c2 (String ":" o)))) new (date +:+ String " " r)
  = date +:+ String " " (replace (String "-" (String c1 (String c2 (String ":" o)))) new r).
Proof.
  intros H1 H2. unfold replace. induction date as [|x date IH]; intros Hd.
  - rewrite !append_nil_l. cbn [replace_from].
    rewrite prefix_head by reflexivity. reflexivity.
  - cbn [all_chars] in Hd. apply andb_prop in Hd as [Hx Hd].
    rewrite !append_cons. cbn [replace_from].
    assert (Hp : String.prefix (String "-" (String c1 (String c2 (String ":" o))))
                   (String x (date +:+ String " " r)) = false).
    { cbn [String.prefix]. destruct (ascii_dec "-" x); [|reflexivity].
      now apply marker_not_in_date. }
    now rewrite Hp, (IH Hd).
Qed.

Lemma has_char_all (p : ascii -> bool) (c : ascii) (s : string) :
  p c = false -> all_chars p s = true -> has_char c s = false.
Proof.
  intros Hc. induction s as [|x s IH]; intros H; [reflexivity|].
  cbn [all_chars] in H. apply andb_prop in H as [Hx Hs].
  cbn [has_char]. rewrite (IH Hs), orb_false_r.
  destruct (Ascii.eqb_spec c x) as [->|]; [congruence|reflexivity].
Qed.

(** [replace('T', ' ')] on a timestamp text turns the separator into a
    blank and goes on in the tail. *)
Lemma replace_T_stamp (date time tail : string) :
  all_chars date_char date = true -> all_chars time_char time = true ->
  replace "T" " " (stamp date "T" time tail)
  = stamp date " " time (replace "T" " " tail).
Proof.
  intros Hd Ht. unfold stamp.
  rewrite (replace_past "T" "" " " date) by (now apply (has_char_all date_char)).
  f_equal. unfold replace at 1. rewrite append_cons, append_nil_l.
  cbn [replace_from String.prefix String.length Nat.sub].
  destruct (ascii_dec "T" "T"); [|congruence].
  rewrite prefix_nil, !append_cons, !append_nil_l. f_equal.
  change (replace_from "T" " " 0 (time +:+ tail)) with (replace "T" " " (time +:+ tail)).
  now rewrite (replace_past "T" "" " " time) by (now apply (has_char_all time_char)).
Qed.

(** A marker that starts with a plus sign or is [Z] is looked for in the
    tail only. *)
Lemma replace_plain_stamp (c : ascii) (old new date time tail : string) :
  date_char c = false -> time_char c = false -> Ascii.eqb c " " = false ->
  all_chars date_char date = true -> all_chars time_char time = true ->
  replace (String c old) new (stamp date " " time tail)
  = stamp date " " time (replace (String c old) new tail).
Proof.
  intros Hcd Hct Hcs Hd Ht. unfold stamp.
  rewrite (replace_past c old new date) by (now apply (has_char_all date_char)).
  f_equal.
  rewrite (replace_past c old new " ") by (cbn [has_char]; now rewrite Hcs).
  f_equal.
  now rewrite (replace_past c old new time) by (now apply (has_char_all time_char)).
Qed.

(** So is a marker that starts with a dash. *)
Lemma replace_dash_stamp (c1 c2 : ascii) (o new date time tail : string) :
  Ascii.eqb c1 " " = false -> Ascii.eqb c2 " " = false ->
  all_chars date_char date = true -> all_chars time_char time = true ->
  replace (String "-" (String c1 (String c2 (String ":" o)))) new (stamp date " " time tail)
  = stamp date " " time
      (replace (String "-" (String c1 (String c2 (String ":" o)))) new tail).
Proof.
  intros H1 H2 Hd Ht. unfold stamp.
  rewrite append_cons, append_nil_l.
  rewrite (replace_past_date c1 c2 o new date _ H1 H2 Hd).
  do 2 f_equal.
  now rewrite (replace_past "-" _ new time) by (now apply (has_char_all time_char)).
Qed.

(** **** Stripping *)

Lemma date_char_not_space (c : ascii) : date_char c = true -> is_space c = false.
Proof.
  unfold date_char. intros H. apply orb_prop in H as [H|H].
  - unfold is_digit in H. apply andb_prop in H as [H1 H2].
    apply Nat.leb_le in H1. apply Nat.leb_le in H2. unfold is_space.
    apply orb_false_iff. split; apply andb_false_iff; right; apply Nat.leb_gt; lia.
  - apply Ascii.eqb_eq in H as ->. reflexivity.
Qed.

Lemma time_char_not_space (c : ascii) : time_char c = true -> is_space c = false.
Proof.
  unfold time_char. intros H. apply orb_prop in H as [H|H]; [apply orb_prop in H as [H|H]|].
  - unfold is_digit in H. apply andb_prop in H as [H1 H2].
    apply Nat.leb_le in H1. apply Nat.leb_le in H2. unfold is_space.
    apply orb_false_iff. split; apply andb_false_iff; right; apply Nat.leb_gt; lia.
  - apply Ascii.eqb_eq in H as ->. reflexivity.
  - apply Ascii.eqb_eq in H as ->. reflexivity.
Qed.

Lemma rstrip_append (a b : string) :
  rstrip b <> "" -> rstrip (a +:+ b) = a +:+ rstrip b.
Proof.
  intros Hb. induction a as [|c a IH]; [reflexivity|].
  rewrite !append_cons. cbn [rstrip]. rewrite IH.
  destruct (a +:+ rstrip b) eqn:E; [|reflexivity].
  destruct a; [rewrite append_nil_l in E; contradiction|].
  rewrite append_cons in E. discriminate E.
Qed.

Lemma rstrip_time (time : string) :
  all_chars time_char time = true -> rstrip time = time.
Proof.
  induction time as [|c t IH]; intros H; [reflexivity|].
  cbn [all_chars] in H. apply andb_prop in H as [Hc Ht].
  cbn [rstrip]. rewrite (IH Ht), (time_char_not_space c Hc). now destruct t.
Qed.

Lemma strip_stamp (date time tail : string) :
  date <> "" -> time <> "" ->
  all_chars date_char date = true -> all_chars time_char time = true ->
  rstrip tail = tail ->
  strip (stamp date " " time tail) = stamp date " " time tail.
Proof.
  intros Hdn Htn Hd Ht Htail. unfold strip, stamp.
  assert (Hr : rstrip (time +:+ tail) = time +:+ tail).
  { destruct tail as [|x tail].
    - rewrite append_nil_r. now apply rstrip_time.
    - rewrite rstrip_append by (rewrite Htail; discriminate). now rewrite Htail. }
  assert (Hne : time +:+ tail <> "").
  { destruct time; [contradiction|]. rewrite append_cons. discriminate. }
  rewrite !rstrip_append by (rewrite ?Hr; try assumption;
                             rewrite rstrip_append by (now rewrite Hr);
                             rewrite Hr; rewrite append_cons; discriminate).
  rewrite Hr.
  destruct date as [|c date]; [contradiction|].
  cbn [all_chars] in Hd. apply andb_prop in Hd as [Hc _].
  rewrite append_cons. cbn [lstrip]. now rewrite (date_char_not_space c Hc).
Qed.

(** The clean-up of a timestamp text: the separator becomes a blank, and
    what is left of the tail is what the clean-up leaves of it. *)
Lemma clean_stamp (date time tail : string) :
  date <> "" -> time <> "" ->
  all_chars date_char date = true -> all_chars time_char time = true ->
  let tail' := replace "-01:00" "" (replace "+01:00" "" (replace "-00:00" ""
                 (replace "Z" "" (replace "+00:00" "" (replace "+09:00" ""
                   (replace "T" " " tail)))))) in
  rstrip tail' = tail' ->
  clean_timestamp (stamp date "T" time tail) = stamp date " " time tail'.
Proof.
  intros Hdn Htn Hd Ht tail' Htail.
  rewrite clean_timestamp_steps, (replace_T_stamp date time tail Hd Ht).
  rewrite (replace_plain_stamp "+" _ "" date time _) by (assumption || reflexivity).
  rewrite (replace_plain_stamp "+" _ "" date time _) by (assumption || reflexivity).
  rewrite (replace_plain_stamp "Z" _ "" date time _) by (assumption || reflexivity).
  rewrite (replace_dash_stamp "0" "0" _ "" date time _) by (assumption || reflexivity).
  rewrite (replace_plain_stamp "+" _ "" date time _) by (assumption || reflexivity).
  rewrite (replace_dash_stamp "0" "1" _ "" date time _) by (assumption || reflexivity).
  now apply strip_stamp.
Qed.

(** **** What the clean-up changes *)

Lemma length_replace_from (old : string) (k : nat) (s : string) :
  String.length (replace_from old "" k s) <= String.length s.
Proof.
  revert k. induction s as [|c s IH]; intros k; [reflexivity|].
  cbn [replace_from String.length]. destruct k as [|k].
  - destruct (String.prefix old (String c s)).
    + rewrite append_nil_l. specialize (IH (String.length old - 1)). lia.
    + cbn [String.length]. specialize (IH 0). lia.
  - specialize (IH k). lia.
Qed.

(** Removing a text that occurs makes the string shorter. *)
Lemma length_replace_occurs (old s : string) :
  old <> "" -> contains old s = true ->
  String.length (replace old "" s) < String.length s.
Proof.
  intros Hold. unfold replace. induction s as [|c s IH]; intros H.
  - destruct old; [contradiction|discriminate H].
  - cbn [contains] in H. cbn [replace_from String.length].
    destruct (String.prefix old (String c s)) eqn:Hp.
    + rewrite append_nil_l.
      pose proof (length_replace_from old (String.length old - 1) s). lia.
    + cbn [orb] in H. cbn [String.length]. specialize (IH H). lia.
Qed.

Lemma length_lstrip (s : string) : String.length (lstrip s) <= String.length s.
Proof.
  induction s as [|c s IH]; [reflexivity|].
  cbn [lstrip]. destruct (is_space c); cbn [String.length]; lia.
Qed.

Lemma length_rstrip (s : string) : String.length (rstrip s) <= String.length s.
Proof.
  induction s as [|c s IH]; [reflexivity|].
  cbn [rstrip]. destruct (rstrip s); [destruct (is_space c)|]; cbn [String.length] in *; lia.
Qed.

Lemma length_strip (s : string) : String.length (strip s) <= String.length s.
Proof.
  unfold strip. pose proof (length_lstrip (rstrip s)). pose proof (length_rstrip s). lia.
Qed.

(** Every character of a string with parts removed is one of the string. *)
Lemma has_char_replace_from (c : ascii) (old : string) (k : nat) (s : string) :
  has_char c s = false -> has_char c (replace_from old "" k s) = false.
Proof.
  revert k. induction s as [|x s IH]; intros k H; [reflexivity|].
  apply has_char_cons in H as [Hx Hs]. cbn [replace_from]. destruct k as [|k].
  - destruct (String.prefix old (String x s)).
    + rewrite append_nil_l. now apply IH.
    + cbn [has_char]. now rewrite Hx, IH.
  - now apply IH.
Qed.

Lemma has_char_lstrip (c : ascii) (s : string) :
  has_char c s = false -> has_char c (lstrip s) = false.
Proof.
  induction s as [|x s IH]; intros H; [reflexivity|].
  cbn [lstrip]. destruct (is_space x); [|exact H].
  apply has_char_cons in H as [_ Hs]. now apply IH.
Qed.

Lemma has_char_rstrip (c : ascii) (s : string) :
  has_char c s = false -> has_char c (rstrip s) = false.
Proof.
  induction s as [|x s IH]; intros H; [reflexivity|].
  apply has_char_cons in H as [Hx Hs]. specialize (IH Hs).
  cbn [rstrip]. destruct (rstrip s).
  - destruct (is_space x); [reflexivity|]. cbn [has_char]. now rewrite Hx.
  - cbn [has_char] in *. now rewrite Hx, IH.
Qed.

(** After [replace('T', ' ')] no [T] is left. *)
Lemma no_T_replaced (s : string) : has_char "T" (replace "T" " " s) = false.
Proof.
  unfold replace. induction s as [|x s IH]; [reflexivity|].
  cbn [replace_from String.prefix String.length Nat.sub].
  destruct (ascii_dec "T" x) as [<-|Hx].
  - rewrite prefix_nil, append_cons, append_nil_l. cbn [has_char]. now rewrite IH.
  - cbn [has_char]. rewrite IH, orb_false_r. apply Ascii.eqb_neq. exact Hx.
Qed.

Lemma no_T_cleaned (s : string) : has_char "T" (clean_timestamp s) = false.
Proof.
  rewrite clean_timestamp_steps. unfold strip, replace.
  apply has_char_lstrip, has_char_rstrip.
  do 6 apply has_char_replace_from. apply no_T_replaced.
Qed.

Lemma contains_has_char (c : ascii) (s : string) :
  contains (String c "") s = true -> has_char c s = true.
Proof.
  induction s as [|x s IH]; [discriminate|].
  cbn [contains String.prefix has_char].
  destruct (ascii_dec c x) as [->|]; [now rewrite Ascii.eqb_refl|].
  cbn [orb]. intros H. rewrite (IH H). apply orb_true_r.
Qed.

(** A watermark that is no naive literal is changed by the clean-up. *)
Lemma clean_changes (s : string) : naive s = false -> clean_timestamp s <> s.
Proof.
  intros Hn E.
  destruct (contains "T" s) eqn:HT.
  { pose proof (no_T_cleaned s) as H. rewrite E in H.
    now rewrite (contains_has_char "T" s HT) in H. }
  assert (Hlen : forall a b : string, String.length a < String.length b -> a <> b)
    by (intros a b Hl ->; lia).
  assert (Hr : forall old x, String.length (replace old "" x) <= String.length x)
    by (intros; apply length_replace_from).
  revert E. rewrite clean_timestamp_steps, (replace_absent "T" " " s HT).
  destruct (contains "+09:00" s) eqn:H1.
  { apply Hlen. pose proof (length_replace_occurs "+09:00" s ltac:(discriminate) H1).
    eapply Nat.le_lt_trans; [apply length_strip|].
    do 5 (eapply Nat.le_lt_trans; [apply Hr|]). exact H. }
  rewrite (replace_absent "+09:00" "" s H1).
  destruct (contains "+00:00" s) eqn:H2.
  { apply Hlen. pose proof (length_replace_occurs "+00:00" s ltac:(discriminate) H2).
    eapply Nat.le_lt_trans; [apply length_strip|].
    do 4 (eapply Nat.le_lt_trans; [apply Hr|]). exact H. }
  rewrite (replace_absent "+00:00" "" s H2).
  destruct (contains "Z" s) eqn:H3.
  { apply Hlen. pose proof (length_replace_occurs "Z" s ltac:(discriminate) H3).
    eapply Nat.le_lt_trans; [apply length_strip|].
    do 3 (eapply Nat.le_lt_trans; [apply Hr|]). exact H. }
  rewrite (replace_absent "Z" "" s H3).
  destruct (contains "-00:00" s) eqn:H4.
  { apply Hlen. pose proof (length_replace_occurs "-00:00" s ltac:(discriminate) H4).
    eapply Nat.le_lt_trans; [apply length_strip|].
    do 2 (eapply Nat.le_lt_trans; [apply Hr|]). exact H. }
  rewrite (replace_absent "-00:00" "" s H4).
  destruct (contains "+01:00" s) eqn:H5.
  { apply Hlen. pose proof (length_replace_occurs "+01:00" s ltac:(discriminate) H5).
    eapply Nat.le_lt_trans; [apply length_strip|].
    do 1 (eapply Nat.le_lt_trans; [apply Hr|]). exact H. }
  rewrite (replace_absent "+01:00" "" s H5).
  destruct (contains "-01:00" s) eqn:H6.
  { apply Hlen. pose proof (length_replace_occurs "-01:00" s ltac:(discriminate) H6).
    eapply Nat.le_lt_trans; [apply length_strip|]. exact H. }
  rewrite (replace_absent "-01:00" "" s H6).
  intros E. unfold naive in Hn. cbn [forallb] in Hn.
  rewrite HT, H1, H2, H3, H4, H5, H6, E, String.eqb_refl in Hn. discriminate Hn.
Qed.


Lemma append_inv_quote (a b : string) : a +:+ "'" = b +:+ "'" -> a = b.
Proof.
  revert b. induction a as [|x a IH]; intros [|y b] H;
    rewrite ?append_cons, ?append_nil_l in H.
  - reflexivity.
  - injection H as _ H. destruct b; discriminate H.
  - injection H as _ H. destruct a; discriminate H.
  - injection H as -> H. now rewrite (IH b H).
Qed.

Lemma where_string_inv (timestamp_col a b : string) :
  "WHERE `" +:+ timestamp_col +:+ "` > '" +:+ a +:+ "'"
  = "WHERE `" +:+ timestamp_col +:+ "` > '" +:+ b +:+ "'" -> a = b.
Proof.
  intros H. apply append_inv_head in H. apply append_inv_head in H.
  apply append_inv_head in H. now apply append_inv_quote.
Qed.

(** C8, as the code has it.  For a non-empty ASCII string watermark under
    the timestamp type the predicate is [column > 'literal'], the literal
    being the watermark with every [T] turned into a blank, then the
    markers +09:00, +00:00, Z, -00:00, +01:00 and -01:00 removed in this
    order wherever they stand, then the white space around it stripped.
    For a text made of a date, a [T] and a time, each of the six markers
    at its end goes and the literal is the date, a blank and the time,
    while another offset such as +02:00 stays in the literal.  Read back,
    the literal is the watermark itself when the watermark is a naive
    literal already and holds neither quote nor backslash; the literal of
    any other string watermark differs from the watermark, so what is read
    back is not the watermark.  A non-zero integer watermark under the
    integer type is read back unchanged. *)
Theorem filter_literal_round_trip (utcoffset : Z) (timestamp_col : string) :
  (forall s, s <> "" -> isascii s = true ->
     _build_where_clause utcoffset timestamp_col "DateTime64" (PyStr s)
     = "WHERE `" +:+ timestamp_col +:+ "` > '"
       +:+ strip (replace "-01:00" "" (replace "+01:00" "" (replace "-00:00" ""
             (replace "Z" "" (replace "+00:00" "" (replace "+09:00" ""
               (replace "T" " " s)))))))
       +:+ "'")
  /\ (forall date time, date <> "" -> time <> "" ->
        all_chars date_char date = true -> all_chars time_char time = true ->
        Forall (fun tz =>
                  _build_where_clause utcoffset timestamp_col "DateTime64"
                    (PyStr (date +:+ "T" +:+ time +:+ tz))
                  = "WHERE `" +:+ timestamp_col +:+ "` > '"
                    +:+ date +:+ " " +:+ time +:+ "'")
               ["+09:00"; "+00:00"; "Z"; "-00:00"; "+01:00"; "-01:00"]
        /\ _build_where_clause utcoffset timestamp_col "DateTime64"
             (PyStr (date +:+ "T" +:+ time +:+ "+02:00"))
           = "WHERE `" +:+ timestamp_col +:+ "` > '"
             +:+ date +:+ " " +:+ time +:+ "+02:00'")
  /\ (forall s, s <> "" -> isascii s = true -> naive s = true ->
        has_char "'" s = false -> has_char "\" s = false ->
        reparse timestamp_col
          (_build_where_clause utcoffset timestamp_col "DateTime64" (PyStr s))
        = Some (PyStr s))
  /\ (forall s literal, s <> "" -> isascii s = true -> naive s = false ->
        _build_where_clause utcoffset timestamp_col "DateTime64" (PyStr s)
        = "WHERE `" +:+ timestamp_col +:+ "` > '" +:+ literal +:+ "'" ->
        literal <> s
        /\ reparse timestamp_col
             (_build_where_clause utcoffset timestamp_col "DateTime64" (PyStr s))
           <> Some (PyStr s)
        /\ (has_char "'" literal = false -> has_char "\" literal = false ->
            reparse timestamp_col
              (_build_where_clause utcoffset timestamp_col "DateTime64" (PyStr s))
            = Some (PyStr literal)))
  /\ (forall z, z <> 0%Z ->
        _build_where_clause utcoffset timestamp_col "Int64" (PyInt z)
        = "WHERE `" +:+ timestamp_col +:+ "` > " +:+ str_of_int z
        /\ reparse timestamp_col
             (_build_where_clause utcoffset timestamp_col "Int64" (PyInt z))
           = Some (PyInt z)).
Proof.
  split; [|split; [|split; [|split]]].
  - intros s H _. rewrite (where_string _ _ s H). now rewrite clean_timestamp_steps.
  - intros date time Hdn Htn Hd Ht.
    assert (Hne : forall tail, date +:+ "T" +:+ time +:+ tail <> "").
    { intros tail. destruct date; [contradiction|]. rewrite append_cons. discriminate. }
    assert (Hc : forall tail tail',
               replace "-01:00" "" (replace "+01:00" "" (replace "-00:00" ""
                 (replace "Z" "" (replace "+00:00" "" (replace "+09:00" ""
                   (replace "T" " " tail)))))) = tail' ->
               rstrip tail' = tail' ->
               _build_where_clause utcoffset timestamp_col "DateTime64"
                 (PyStr (date +:+ "T" +:+ time +:+ tail))
               = "WHERE `" +:+ timestamp_col +:+ "` > '"
                 +:+ date +:+ " " +:+ time +:+ tail' +:+ "'").
    { intros tail tail' E Hr. rewrite (where_string _ _ _ (Hne tail)).
      change (date +:+ "T" +:+ time +:+ tail) with (stamp date "T" time tail).
      rewrite (clean_stamp date time tail Hdn Htn Hd Ht) by (now rewrite E).
      rewrite E. unfold stamp. now rewrite !append_assoc. }
    split.
    + repeat constructor; apply (Hc _ ""); reflexivity.
    + apply (Hc "+02:00" "+02:00"); reflexivity.
  - intros s H _ Hn Hq Hb.
    rewrite (where_string _ _ s H), (clean_naive s Hn). now apply reparse_quoted.
  - intros s literal H _ Hn E.
    rewrite (where_string _ _ s H) in E. apply where_string_inv in E. subst literal.
    rewrite (where_string _ _ s H).
    pose proof (clean_changes s Hn) as Hd.
    split; [exact Hd|]. split.
    + intros Hr. apply reparse_quoted_inv in Hr. injection Hr as Hr. congruence.
    + intros Hq Hb. now apply reparse_quoted.
  - intros z H. unfold _build_where_clause.
    rewrite (truthy_int z H). cbn [negb String.eqb Ascii.eqb Bool.eqb].
    split; [reflexivity|]. apply reparse_int.
Qed.

Lemma filter_literal_round_trip_witness :
  ("2024-01-01" <> "" /\ "10:00:00.123" <> ""
   /\ all_chars date_char "2024-01-01" = true
   /\ all_chars time_char "10:00:00.123" = true
   /\ _build_where_clause 0 "Timestamp" "DateTime64" (PyStr "2024-01-01T10:00:00.123-01:00")
      = "WHERE `Timestamp` > '2024-01-01 10:00:00.123'"
   /\ _build_where_clause 0 "Timestamp" "DateTime64" (PyStr "2024-01-01T10:00:00.123+02:00")
      = "WHERE `Timestamp` > '2024-01-01 10:00:00.123+02:00'")
  /\ ("2024-01-01 10:00:00.123" <> "" /\ isascii "2024-01-01 10:00:00.123" = true
      /\ naive "2024-01-01 10:00:00.123" = true
      /\ reparse "Timestamp"
           (_build_where_clause 0 "Timestamp" "DateTime64" (PyStr "2024-01-01 10:00:00.123"))
         = Some (PyStr "2024-01-01 10:00:00.123"))
  /\ (" 2024-01-01T10:00:00Z" <> "" /\ naive " 2024-01-01T10:00:00Z" = false
      /\ reparse "Timestamp"
           (_build_where_clause 0 "Timestamp" "DateTime64" (PyStr " 2024-01-01T10:00:00Z"))
         = Some (PyStr "2024-01-01 10:00:00"))
  /\ reparse "TimeUnix"
       (_build_where_clause 0 "TimeUnix" "Int64" (PyInt 1704067200000000000))
     = Some (PyInt 1704067200000000000).
Proof.
  pose proof (filter_literal_round_trip 0 "Timestamp") as (_ & Hiso & Hnaive & Hother & _).
  pose proof (filter_literal_round_trip 0 "TimeUnix") as (_ & _ & _ & _ & Hint).
  assert (Hd : "2024-01-01" <> "") by discriminate.
  assert (Ht : "10:00:00.123" <> "") by discriminate.
  assert (Hs : "2024-01-01 10:00:00.123" <> "") by discriminate.
  assert (Hz : " 2024-01-01T10:00:00Z" <> "") by discriminate.
  split; [|split; [|split]].
  - destruct (Hiso "2024-01-01" "10:00:00.123" Hd Ht eq_refl eq_refl) as [Hall Htwo].
    split; [exact Hd|]. split; [exact Ht|]. split; [reflexivity|]. split; [reflexivity|].
    split; [|exact Htwo].
    exact (Forall_inv (Forall_inv_tail (Forall_inv_tail (Forall_inv_tail
             (Forall_inv_tail (Forall_inv_tail Hall)))))).
  - split; [exact Hs|]. split; [reflexivity|]. split; [reflexivity|].
    exact (Hnaive "2024-01-01 10:00:00.123" Hs eq_refl eq_refl eq_refl eq_refl).
  - split; [exact Hz|]. split; [reflexivity|].
    exact (proj2 (proj2 (Hother " 2024-01-01T10:00:00Z" "2024-01-01 10:00:00"
                           Hz eq_refl eq_refl eq_refl)) eq_refl eq_refl).
  - apply Hint. discriminate.
Defined.

(** C8, as stated, fails: two watermarks that name instants eight hours
    apart get the same predicate, so no way of reading the literal back
    gives the original watermark for every supported pair. *)
Lemma timezone_markers_break_round_trip :
  ~ exists read_back : string -> pyvalue,
      forall last_value,
        supported "DateTime64" last_value = true ->
        read_back (_build_where_clause 0 "Timestamp" "DateTime64" last_value) = last_value.
Proof.
  intros [read_back H].
  pose proof (H (PyStr "2024-01-01T00:00:00+09:00") eq_refl) as H1.
  pose proof (H (PyStr "2024-01-01T00:00:00+01:00") eq_refl) as H2.
  assert (E : _build_where_clause 0 "Timestamp" "DateTime64" (PyStr "2024-01-01T00:00:00+09:00")
              = _build_where_clause 0 "Timestamp" "DateTime64" (PyStr "2024-01-01T00:00:00+01:00"))
    by reflexivity.
  rewrite E, H2 in H1. discriminate H1.
Qed.

End FilterFacts.
(* ================================================================= *)
(** ** The integer-epoch filter from a string watermark *)

Module EpochFacts.
Import PyStr PyStrFacts GuavaClickHouseETL.

Lemma digit_not_space (c : ascii) : is_digit c = true -> is_space c = false.
Proof.
  unfold is_digit, is_space. intros H. apply andb_prop in H as [H1 H2].
  apply Nat.leb_le in H1. apply Nat.leb_le in H2.
  apply orb_false_iff. split; apply andb_false_iff.
  - right. apply Nat.leb_gt. lia.
  - right. apply Nat.leb_gt. lia.
Qed.

Lemma digit_not_dot (c : ascii) : is_digit c = true -> Ascii.eqb "." c = false.
Proof.
  intros H. destruct (Ascii.eqb_spec "."%char c) as [<-|]; [discriminate H|reflexivity].
Qed.

(** [\d{n}] reads a run of exactly [n] digits and leaves the rest. *)
Lemma digits_exactly_append (ds rest : string) :
  all_digits ds = true ->
  digits_exactly (String.length ds) (ds +:+ rest) = Some (ds, rest).
Proof.
  induction ds as [|c ds IH]; intros H; [reflexivity|].
  cbn [all_digits] in H. apply andb_prop in H as [Hc Hd].
  rewrite append_cons. cbn [String.length digits_exactly].
  now rewrite Hc, (IH Hd).
Qed.

Lemma digits_exactly_length (n : nat) (ds rest : string) :
  all_digits ds = true -> String.length ds = n ->
  digits_exactly n (ds +:+ rest) = Some (ds, rest).
Proof. intros H <-. now apply digits_exactly_append. Qed.

(** [\d{0,n}] reads a whole run of at most [n] digits that ends the
    string. *)
Lemma digits_upto_all (n : nat) (ds : string) :
  all_digits ds = true -> String.length ds <= n ->
  digits_upto n ds = (ds, "").
Proof.
  revert ds. induction n as [|n IH]; intros [|c ds] H Hl; cbn in Hl; try reflexivity; try lia.
  cbn [all_digits] in H. apply andb_prop in H as [Hc Hd].
  cbn [digits_upto]. rewrite Hc, (IH ds Hd) by lia. reflexivity.
Qed.

(** What [\d{0,n}] reads is at most [n] digits. *)
Lemma digits_upto_spec (n : nat) (s : string) :
  all_digits (fst (digits_upto n s)) = true
  /\ String.length (fst (digits_upto n s)) <= n.
Proof.
  revert s. induction n as [|n IH]; intros s; [split; [reflexivity|cbn; lia]|].
  destruct s as [|c s]; [split; [reflexivity|cbn; lia]|].
  cbn [digits_upto]. destruct (is_digit c) eqn:Hc; [|split; [reflexivity|cbn; lia]].
  specialize (IH s). destruct (digits_upto n s) as [ds rest]. cbn in *.
  rewrite Hc. destruct IH as [-> ?]. split; [reflexivity|lia].
Qed.

(** The seventh group of a match: at most nine digits. *)
Lemma match_timestamp_fraction (s year month day hour minute second nanosec : string) :
  match_timestamp s = Some (year, month, day, hour, minute, second, nanosec) ->
  all_digits nanosec = true /\ String.length nanosec <= 9.
Proof.
  unfold match_timestamp. intros H.
  repeat (match type of H with
          | context [mbind _ ?o] => destruct o as [[? ?]|] eqn:?; cbn [mbind option_bind] in H; [|discriminate H]
          | context [mbind _ ?o] => destruct o as [?|] eqn:?; cbn [mbind option_bind] in H; [|discriminate H]
          end).
  match type of H with
  | context [digits_upto 9 ?t] =>
      pose proof (digits_upto_spec 9 t) as Hspec; destruct (digits_upto 9 t) as [ds rest]
  end.
  injection H as <- <- <- <- <- <- <-. exact Hspec.
Qed.

(** The fraction field is cut or filled up on the right to nine
    characters. *)
Lemma nanos_field_length (nanosec : string) :
  String.length (nanos_field nanosec) = 9.
Proof.
  unfold nanos_field, take. rewrite length_substring0, length_ljust. lia.
Qed.

Lemma nanos_field_short (nanosec : string) :
  String.length nanosec <= 9 -> nanosec <> "" ->
  nanos_field nanosec
  = nanosec +:+ string_of_list_ascii (repeat "0"%char (9 - String.length nanosec)).
Proof.
  intros Hl Hne. unfold nanos_field, take, ljust.
  apply String.eqb_neq in Hne. rewrite Hne.
  set (t := nanosec +:+ _).
  assert (Ht : String.length t = 9).
  { unfold t. rewrite length_append, length_string_of_list_ascii, repeat_length. lia. }
  rewrite <- Ht. apply substring0_all.
Qed.

(** Its value is the fraction scaled to nanoseconds. *)
Lemma nanos_field_value (nanosec : string) :
  String.length nanosec <= 9 ->
  int_of_digits (nanos_field nanosec)
  = (int_of_digits nanosec * 10 ^ Z.of_nat (9 - String.length nanosec))%Z.
Proof.
  intros Hl. destruct (String.eqb_spec nanosec "") as [->|Hne]; [reflexivity|].
  rewrite (nanos_field_short nanosec Hl Hne). unfold int_of_digits.
  now rewrite int_of_digits_from_append, int_of_digits_from_zeros.
Qed.


Lemma expect_append (c : ascii) (rest : string) :
  expect c (String c "" +:+ rest) = Some rest.
Proof. rewrite append_cons, append_nil_l. cbn. now rewrite Ascii.eqb_refl. Qed.

Lemma lstrip_digits (ds rest : string) :
  all_digits ds = true -> ds <> "" -> lstrip (ds +:+ rest) = ds +:+ rest.
Proof.
  destruct ds as [|c ds]; [congruence|]. intros H _.
  cbn [all_digits] in H. apply andb_prop in H as [Hc _].
  rewrite append_cons. cbn [lstrip]. now rewrite (digit_not_space c Hc).
Qed.

(** A text of the shape YYYY-MM-DD HH:MM:SS.fraction, the fraction of at
    most nine digits, matches the pattern, and the groups are its fields. *)
Lemma match_timestamp_canonical (year month day hour minute second nanosec : string) :
  all_digits year = true -> String.length year = 4 ->
  all_digits month = true -> String.length month = 2 ->
  all_digits day = true -> String.length day = 2 ->
  all_digits hour = true -> String.length hour = 2 ->
  all_digits minute = true -> String.length minute = 2 ->
  all_digits second = true -> String.length second = 2 ->
  all_digits nanosec = true -> String.length nanosec <= 9 ->
  match_timestamp (year +:+ "-" +:+ month +:+ "-" +:+ day +:+ " " +:+ hour +:+ ":"
                   +:+ minute +:+ ":" +:+ second +:+ "." +:+ nanosec)
  = Some (year, month, day, hour, minute, second, nanosec).
Proof.
  intros Hy Ly Hmo Lmo Hd Ld Hh Lh Hmi Lmi Hs Ls Hn Ln.
  unfold match_timestamp.
  rewrite (digits_exactly_length 4 year _ Hy Ly). cbn [mbind option_bind option_ret mret].
  rewrite expect_append. cbn [mbind option_bind option_ret mret].
  rewrite (digits_exactly_length 2 month _ Hmo Lmo). cbn [mbind option_bind option_ret mret].
  rewrite expect_append. cbn [mbind option_bind option_ret mret].
  rewrite (digits_exactly_length 2 day _ Hd Ld). cbn [mbind option_bind option_ret mret].
  rewrite append_cons, append_nil_l. cbn [spaces1].
  replace (is_space " ") with true by reflexivity.
  rewrite (lstrip_digits hour _ Hh) by (intros ->; discriminate Lh).
  cbn [mbind option_bind].
  rewrite (digits_exactly_length 2 hour _ Hh Lh). cbn [mbind option_bind option_ret mret].
  rewrite expect_append. cbn [mbind option_bind option_ret mret].
  rewrite (digits_exactly_length 2 minute _ Hmi Lmi). cbn [mbind option_bind option_ret mret].
  rewrite expect_append. cbn [mbind option_bind option_ret mret].
  rewrite (digits_exactly_length 2 second _ Hs Ls). cbn [mbind option_bind option_ret mret].
  rewrite append_cons, append_nil_l. cbn [optional_dot Ascii.eqb Bool.eqb].
  now rewrite (digits_upto_all 9 nanosec Hn Ln).
Qed.

(** *** Dates and epoch seconds *)

Import PyDatetime.

Lemma days_before_month_value (y m : Z) :
  (1 <= m <= 12)%Z ->
  days_before_month y m
  = ((if m =? 1 then 0 else if m =? 2 then 31 else if m =? 3 then 59
      else if m =? 4 then 90 else if m =? 5 then 120 else if m =? 6 then 151
      else if m =? 7 then 181 else if m =? 8 then 212 else if m =? 9 then 243
      else if m =? 10 then 273 else if m =? 11 then 304 else 334)
     + (if (2 <? m) && is_leap y then 1 else 0))%Z.
Proof.
  intros Hm.
  assert (E : (m = 1 \/ m = 2 \/ m = 3 \/ m = 4 \/ m = 5 \/ m = 6 \/ m = 7 \/ m = 8
               \/ m = 9 \/ m = 10 \/ m = 11 \/ m = 12)%Z) by lia.
  repeat (destruct E as [E|E]); subst m;
    cbv - [is_leap Z.add]; destruct (is_leap y); lia.
Qed.

(** The ordinal of a date, counted from 1970-01-01, is given by the closed
    formula. *)
Lemma toordinal_days_from_civil (y m d : Z) :
  (1 <= y)%Z -> (1 <= m <= 12)%Z ->
  (toordinal y m d - 719163)%Z = spec_days_from_civil y m d.
Proof.
  intros Hy Hm. unfold toordinal. rewrite (days_before_month_value y m Hm).
  unfold days_before_year, is_leap, spec_days_from_civil.
  assert (E : (m = 1 \/ m = 2 \/ m = 3 \/ m = 4 \/ m = 5 \/ m = 6 \/ m = 7 \/ m = 8
               \/ m = 9 \/ m = 10 \/ m = 11 \/ m = 12)%Z) by lia.
  repeat (destruct E as [E|E]); subst m;
    repeat match goal with
           | |- context [Z.eqb (Z.pos ?a) (Z.pos ?b)] =>
               let v := eval vm_compute in (Z.eqb (Z.pos a) (Z.pos b)) in
               change (Z.eqb (Z.pos a) (Z.pos b)) with v
           | |- context [Z.leb (Z.pos ?a) (Z.pos ?b)] =>
               let v := eval vm_compute in (Z.leb (Z.pos a) (Z.pos b)) in
               change (Z.leb (Z.pos a) (Z.pos b)) with v
           | |- context [Z.ltb (Z.pos ?a) (Z.pos ?b)] =>
               let v := eval vm_compute in (Z.ltb (Z.pos a) (Z.pos b)) in
               change (Z.ltb (Z.pos a) (Z.pos b)) with v
           end;
    cbv beta iota zeta;
    repeat match goal with
           | |- context [Z.eqb ?a ?b] => destruct (Z.eqb_spec a b)
           end;
    cbn [andb orb negb]; Z.div_mod_to_equations; lia.
Qed.

(** The ordinals of the dates [datetime] accepts. *)
Lemma toordinal_bounds (y m d : Z) :
  (1 <= y <= 9999)%Z -> (1 <= m <= 12)%Z -> (1 <= d <= days_in_month y m)%Z ->
  (1 <= toordinal y m d <= 3652059)%Z.
Proof.
  intros Hy Hm Hd. unfold toordinal. rewrite (days_before_month_value y m Hm).
  revert Hd. unfold days_in_month, days_before_year.
  assert (Hl : y = 9999%Z -> is_leap y = false) by (intros ->; reflexivity).
  assert (E : (m = 1 \/ m = 2 \/ m = 3 \/ m = 4 \/ m = 5 \/ m = 6 \/ m = 7 \/ m = 8
               \/ m = 9 \/ m = 10 \/ m = 11 \/ m = 12)%Z) by lia.
  repeat (destruct E as [E|E]); subst m;
    repeat match goal with
           | |- context [Z.eqb (Z.pos ?a) (Z.pos ?b)] =>
               let v := eval vm_compute in (Z.eqb (Z.pos a) (Z.pos b)) in
               change (Z.eqb (Z.pos a) (Z.pos b)) with v
           | |- context [Z.leb (Z.pos ?a) (Z.pos ?b)] =>
               let v := eval vm_compute in (Z.leb (Z.pos a) (Z.pos b)) in
               change (Z.leb (Z.pos a) (Z.pos b)) with v
           | |- context [Z.ltb (Z.pos ?a) (Z.pos ?b)] =>
               let v := eval vm_compute in (Z.ltb (Z.pos a) (Z.pos b)) in
               change (Z.ltb (Z.pos a) (Z.pos b)) with v
           end;
    cbv beta iota zeta; cbn [andb orb];
    (destruct (is_leap y); intros Hd;
     [assert (y <= 9998)%Z
        by (destruct (Z.eq_dec y 9999%Z) as [Hy'|]; [discriminate (Hl Hy')|lia])|]);
    Z.div_mod_to_equations; lia.
Qed.

(** [datetime(...)] accepts the fields of a civil date and time and raises
    on any other. *)
Lemma make_spec (y m d H M S : Z) :
  make y m d H M S
  = if ((1 <=? y) && (y <=? 9999) && (1 <=? m) && (m <=? 12)
        && (1 <=? d) && (d <=? days_in_month y m)
        && (0 <=? H) && (H <=? 23) && (0 <=? M) && (M <=? 59)
        && (0 <=? S) && (S <=? 59))%Z
    then Some (mk_datetime y m d H M S) else None.
Proof. reflexivity. Qed.

(** [timestamp()] of a civil date and time read [utcoffset] seconds east
    of UTC: the epoch seconds, unless the day before the date or the
    reading shifted by the offset falls outside the years 1 to 9999. *)
Lemma timestamp_spec (utcoffset y m d H M S : Z) :
  (1 <= y <= 9999)%Z -> (1 <= m <= 12)%Z -> (1 <= d <= days_in_month y m)%Z ->
  (0 <= H <= 23)%Z -> (0 <= M <= 59)%Z -> (0 <= S <= 59)%Z ->
  timestamp utcoffset (mk_datetime y m d H M S)
  = if ((-62135510400 <=? spec_epoch_seconds 0 y m d H M S)
        && (-62135596800 <=? spec_epoch_seconds 0 y m d H M S + utcoffset)
        && (spec_epoch_seconds 0 y m d H M S + utcoffset <=? 253402300799))%Z
    then Some (spec_epoch_seconds utcoffset y m d H M S) else None.
Proof.
  intros Hy Hm Hd HH HM HS.
  pose proof (toordinal_bounds y m d Hy Hm Hd) as Hb.
  pose proof (toordinal_days_from_civil y m d ltac:(lia) Hm) as Ho.
  unfold spec_epoch_seconds. rewrite <- Ho.
  unfold timestamp, local_to_seconds, utc_to_seconds, local, min_seconds, max_seconds,
    max_fold_seconds, epoch_seconds.
  cbn [year month day hour minute second].
  set (o := toordinal y m d) in *. clearbody o.
  replace (y <? 1)%Z with false by (symmetry; apply Z.ltb_ge; lia).
  replace (9999 <? y)%Z with false by (symmetry; apply Z.ltb_ge; lia).
  cbn [orb mbind option_bind]. cbv zeta.
  repeat (first [ progress cbn [andb mbind option_bind]
                | match goal with
                  | |- context [Z.leb ?a ?b] => destruct (Z.leb_spec a b)
                  | |- context [Z.eqb ?a ?b] => destruct (Z.eqb_spec a b)
                  end ];
          try lia);
    try reflexivity; f_equal; lia.
Qed.

Lemma where_nonempty (timestamp_col lit : string) :
  String.eqb ("WHERE `" +:+ timestamp_col +:+ "` > " +:+ lit) "" = false.
Proof. reflexivity. Qed.

(** C4, as the code has it.  For a non-empty ASCII string watermark under
    the integer-epoch type, cleaned as for the timestamp type: when the
    pattern YYYY-MM-DD HH:MM:SS[.fraction] matches at its start, the
    fraction group has at most nine digits and is filled up with zeros on
    the right to exactly nine, so that its value is the fraction in
    nanoseconds.  When the fields are a date and time of the calendar, the
    date is not 0001-01-01 and the reading shifted by the offset of the
    local zone stays within the years 1 to 9999, the predicate compares
    the column with [seconds * 1_000_000_000 + nanos], the seconds being
    the epoch seconds of the date and time read in the local zone.  In
    every other case, and when the pattern does not match, the builder
    returns the empty predicate and the test of [run] that skips the table
    fires.  The five texts at the end are a leap day with a fraction, a
    text with a marker read nine hours east of UTC, a day that is not in
    the calendar, the first day of the calendar and its last second read
    east of UTC. *)
Theorem epoch_filter_from_string (utcoffset : Z) (timestamp_col s : string) :
  s <> "" -> isascii s = true ->
  (forall year month day hour minute second nanosec,
     match_timestamp (clean_timestamp s)
     = Some (year, month, day, hour, minute, second, nanosec) ->
     let y := int_of_digits year in
     let m := int_of_digits month in
     let d := int_of_digits day in
     let H := int_of_digits hour in
     let M := int_of_digits minute in
     let S := int_of_digits second in
     let leap := ((y mod 4 =? 0) && negb (y mod 100 =? 0) || (y mod 400 =? 0))%Z in
     let month_days :=
       (if m =? 2 then (if leap then 29 else 28)
        else if (m =? 4) || (m =? 6) || (m =? 9) || (m =? 11) then 30 else 31)%Z in
     let civil :=
       ((1 <=? y) && (y <=? 9999) && (1 <=? m) && (m <=? 12)
        && (1 <=? d) && (d <=? month_days)
        && (0 <=? H) && (H <=? 23) && (0 <=? M) && (M <=? 59)
        && (0 <=? S) && (S <=? 59))%Z in
     let read_as_utc := spec_epoch_seconds 0 y m d H M S in
     let in_range :=
       ((-62135510400 <=? read_as_utc)
        && (-62135596800 <=? read_as_utc + utcoffset)
        && (read_as_utc + utcoffset <=? 253402300799))%Z in
     String.length nanosec <= 9
     /\ String.length (nanos_field nanosec) = 9
     /\ int_of_digits (nanos_field nanosec)
        = (int_of_digits nanosec * 10 ^ Z.of_nat (9 - String.length nanosec))%Z
     /\ _build_where_clause utcoffset timestamp_col "Int64" (PyStr s)
        = (if civil && in_range
           then "WHERE `" +:+ timestamp_col +:+ "` > "
                +:+ str_of_int (spec_epoch_seconds utcoffset y m d H M S * 1000000000
                                + int_of_digits (nanos_field nanosec))
           else "")
     /\ skip_table (_build_where_clause utcoffset timestamp_col "Int64" (PyStr s))
                   (PyStr s)
        = negb (civil && in_range))
  /\ (match_timestamp (clean_timestamp s) = None ->
      _build_where_clause utcoffset timestamp_col "Int64" (PyStr s) = ""
      /\ skip_table (_build_where_clause utcoffset timestamp_col "Int64" (PyStr s))
                    (PyStr s) = true)
  /\ _build_where_clause 0 "TimeUnix" "Int64" (PyStr "2024-02-29 12:34:56.789")
     = "WHERE `TimeUnix` > 1709210096789000000"
  /\ _build_where_clause 32400 "TimeUnix" "Int64" (PyStr "2024-01-01T00:00:00+09:00")
     = "WHERE `TimeUnix` > 1704034800000000000"
  /\ _build_where_clause 0 "TimeUnix" "Int64" (PyStr "2023-02-29 00:00:00") = ""
  /\ _build_where_clause 0 "TimeUnix" "Int64" (PyStr "0001-01-01 00:00:00") = ""
  /\ _build_where_clause 32400 "TimeUnix" "Int64" (PyStr "9999-12-31 23:59:59") = "".
Proof.
  intros Hne _.
  assert (Ht : truthy (PyStr s) = true) by now apply FilterFacts.truthy_str.
  assert (Hb : _build_where_clause utcoffset timestamp_col "Int64" (PyStr s)
               = match timestamp_nanos utcoffset (clean_timestamp s) with
                 | Some n => "WHERE `" +:+ timestamp_col +:+ "` > " +:+ str_of_int n
                 | None => ""
                 end).
  { unfold _build_where_clause. rewrite Ht. reflexivity. }
  split; [|split; [|repeat split; vm_compute; reflexivity]].
  - intros year month day hour minute second nanosec Hm y m d H M S.
    intros leap month_days civil read_as_utc in_range.
    destruct (match_timestamp_fraction _ _ _ _ _ _ _ _ Hm) as [_ Hl].
    split; [exact Hl|]. split; [apply nanos_field_length|].
    split; [now apply nanos_field_value|].
    assert (Hn : timestamp_nanos utcoffset (clean_timestamp s)
                 = if civil && in_range
                   then Some (spec_epoch_seconds utcoffset y m d H M S * 1000000000
                              + int_of_digits (nanos_field nanosec))%Z
                   else None).
    { unfold timestamp_nanos. rewrite Hm. fold y m d H M S.
      rewrite make_spec. change (days_in_month y m) with month_days. fold civil.
      destruct civil eqn:Hc; [|reflexivity].
      unfold civil in Hc. rewrite !andb_true_iff, !Z.leb_le in Hc.
      rewrite (timestamp_spec utcoffset y m d H M S)
        by (try change (days_in_month y m) with month_days; lia).
      fold read_as_utc. fold in_range. now destruct in_range. }
    rewrite Hb, Hn. destruct (civil && in_range).
    + split; [reflexivity|]. unfold skip_table. now rewrite where_nonempty.
    + split; [reflexivity|]. unfold skip_table. now rewrite Ht.
  - intros Hm. rewrite Hb. unfold timestamp_nanos. rewrite Hm.
    unfold skip_table. now rewrite Ht.
Qed.

Lemma epoch_filter_from_string_witness :
  "2024-01-01T00:00:00.5Z" <> ""
  /\ isascii "2024-01-01T00:00:00.5Z" = true
  /\ match_timestamp (clean_timestamp "2024-01-01T00:00:00.5Z")
     = Some ("2024", "01", "01", "00", "00", "00", "5")
  /\ _build_where_clause 0 "TimeUnix" "Int64" (PyStr "2024-01-01T00:00:00.5Z")
     = "WHERE `TimeUnix` > 1704067200500000000"
  /\ skip_table (_build_where_clause 0 "TimeUnix" "Int64" (PyStr "2024-01-01T00:00:00.5Z"))
                (PyStr "2024-01-01T00:00:00.5Z") = false.
Proof.
  assert (Hne : "2024-01-01T00:00:00.5Z" <> "") by discriminate.
  split; [exact Hne|]. split; [reflexivity|]. split; [reflexivity|].
  pose proof (proj1 (epoch_filter_from_string 0 "TimeUnix" "2024-01-01T00:00:00.5Z"
                       Hne eq_refl)
                "2024" "01" "01" "00" "00" "00" "5" eq_refl) as (_ & _ & _ & Hw & Hs).
  split; [exact Hw|exact Hs].
Defined.

(** C4, as stated, fails: the fraction is not padded on the left.  For the
    fraction ".5" the code compares with half a second past the epoch
    second, where a fraction padded on the left would add five
    nanoseconds. *)
Lemma fraction_is_not_left_padded :
  _build_where_clause 0 "TimeUnix" "Int64" (PyStr "2024-01-01 00:00:00.5")
  = "WHERE `TimeUnix` > 1704067200500000000"
  /\ spec_left_padded_nanos "5" = "000000005"
  /\ _build_where_clause 0 "TimeUnix" "Int64" (PyStr "2024-01-01 00:00:00.5")
     <> "WHERE `TimeUnix` > "
        +:+ str_of_int (1704067200 * 1000000000 + int_of_digits (spec_left_padded_nanos "5")).
Proof.
  split; [reflexivity|]. split; [reflexivity|]. vm_compute. discriminate.
Qed.

End EpochFacts.

(* ================================================================= *)
(** ** The paged extraction loop of the ClickHouse job *)

Module BatchFacts.
Import GuavaClickHouseETL.

(** The error text is a memory-limit error. *)
Abbreviation memory_error e := (PyStr.contains "MEMORY_LIMIT_EXCEEDED" e).

(** Case analysis on the innermost scrutinee of the goal. *)
Ltac break_inner :=
  match goal with
  | |- context [match ?x with _ => _ end] =>
      lazymatch x with
      | context [match _ with _ => _ end] => fail
      | _ => destruct x eqn:?
      end
  end.

(** Reduce the field reads of updated states, and nothing else. *)
Ltac fields :=
  cbn [offset batch_num total_processed consecutive_failures batch_size
       issued inserts loaded fst snd] in *.

(** Unfold one layer of the loop body and reduce the field reads. *)
Ltac unfold_pass :=
  first
    [ progress (unfold set_batch_num, set_consecutive_failures, set_batch_size,
                advance, count_loaded, issue, max_consecutive_failures); fields
    | progress (unfold GuavaClickHouseETL.iteration); fields
    | progress (unfold on_error); fields
    | progress (unfold retry); fields
    | progress (unfold process_frame); fields
    | progress (unfold _load_batch); fields ].

Ltac break_pass := repeat (repeat unfold_pass; break_inner; fields).

Ltac bools :=
  repeat match goal with
         | H : (_ <? _)%nat = true |- _ => apply Nat.ltb_lt in H
         | H : (_ <? _)%nat = false |- _ => apply Nat.ltb_ge in H
         | H : (_ <=? _)%nat = true |- _ => apply Nat.leb_le in H
         | H : (_ <=? _)%nat = false |- _ => apply Nat.leb_gt in H
         | H : (_ =? _)%nat = true |- _ => apply Nat.eqb_eq in H
         | H : (_ =? _)%nat = false |- _ => apply Nat.eqb_neq in H
         end.

Lemma half_le (n : nat) : n / 2 <= n.
Proof. apply Nat.Div0.div_le_upper_bound. lia. Qed.

Lemma half_pos (n : nat) : 100 < n -> 50 <= n / 2.
Proof. intros H. apply Nat.div_le_lower_bound; lia. Qed.

Section Loop.
Context {Row : Type} (j : job Row) (where_clause : string) (total_rows : nat).

Abbreviation iteration := (iteration j where_clause total_rows).
Abbreviation loop := (loop j where_clause total_rows).
Abbreviation query k l o := (query_df (source j) k where_clause l o).
Abbreviation page := (page total_rows).
Abbreviation pass := (pass j where_clause total_rows).
Abbreviation halt := (halt total_rows).
Abbreviation honours_limit := (honours_limit j where_clause).
Abbreviation always_memory := (always_memory j where_clause).

Ltac case_query :=
  match goal with
  | |- context [match query_df ?a ?b ?c ?d ?e with _ => _ end] =>
      destruct (query_df a b c d e) eqn:Heqr
  end.

Ltac limits :=
  repeat match goal with
         | Hh : honours_limit, H : query_df _ _ _ _ _ = Ok _ |- _ =>
             apply Hh in H
         end.

Ltac trace :=
  rewrite <- ?app_assoc; eexists; split;
  [ first [ reflexivity | symmetry; apply app_nil_r ]
  | unfold sent_from, GuavaClickHouseETL.page; fields;
    repeat constructor; fields; try lia ].

(** The tail of a pass never returns from the loop and sends no
    statement. *)
Lemma process_frame_spec (cbs : nat) (df_batch : list Row) (s : state Row) :
  match process_frame j cbs df_batch s with
  | Next s' =>
      offset s' = offset s + cbs /\ batch_size s' = batch_size s
      /\ issued s' = issued s
      /\ consecutive_failures s' = consecutive_failures s
  | Break s' => s' = s
  | Return _ => False
  end.
Proof.
  destruct s as [o bn tp cf bs iss ins ld].
  unfold process_frame, _load_batch, advance, count_loaded. fields.
  repeat (break_inner; fields); repeat split.
Qed.

(** Every pass is a [pass] or a [halt]. *)
Lemma iteration_spec (s : state Row) :
  offset s < total_rows ->
  match iteration s with
  | Next s' => exists d, pass s s' d
  | Break s' => halt s s'
  | Return s' => halt s s'
  end.
Proof.
  intros Hlt.
  destruct s as [o bn tp cf bs iss ins ld]; fields.
  pose proof (half_le (Nat.min bs (total_rows - o))) as Hhalf.
  pose proof (half_pos (Nat.min bs (total_rows - o))) as Hpos.
  break_pass; bools.
  all: try (eexists; constructor; unfold GuavaClickHouseETL.page; fields;
            [ reflexivity | try lia .. | ]).
  all: try (constructor; unfold GuavaClickHouseETL.page; fields;
            [ try reflexivity; try lia .. | ]).
  all: try (intros; limits; fields; lia).
  all: try trace.
Qed.


(** What a finished loop has done to the state it started from. *)
Lemma loop_spec (fuel : nat) (s : state Row) (e : exit) (s' : state Row) :
  loop fuel s = Some (e, s') ->
  offset s <= offset s'
  /\ (offset s <= total_rows -> offset s' <= total_rows)
  /\ batch_size s' <= batch_size s
  /\ total_processed s <= total_processed s'
  /\ (honours_limit -> total_processed s' + offset s <= total_processed s + offset s')
  /\ (e = Exhausted -> total_rows <= offset s')
  /\ exists new, issued s' = issued s ++ new
                 /\ Forall (fun q => fst q <= batch_size s) new.
Proof.
  revert s. induction fuel as [|fuel IH]; intros s H; [discriminate H|].
  cbn [GuavaClickHouseETL.loop] in H.
  destruct (offset s <? total_rows)%nat eqn:Hlt.
  - apply Nat.ltb_lt in Hlt. pose proof (iteration_spec s Hlt) as Hs.
    destruct (iteration s) as [s1|s1|s1].
    + destruct Hs as [d [Ho Hb Hd Hsz Hp Hc Hcl (new & Hi & Hn)]].
      destruct (IH s1 H) as (I1 & I2 & I3 & I4 & I5 & I6 & (new' & Hi' & Hn')).
      repeat split; try lia.
      * intros Hh. specialize (Hcl Hh). specialize (I5 Hh). lia.
      * exact I6.
      * exists (new ++ new'). split; [now rewrite Hi', Hi, app_assoc|].
        apply Forall_app. split.
        -- eapply Forall_impl; [exact Hn|]. unfold GuavaClickHouseETL.page.
           cbn. intros q [Hq _]. lia.
        -- eapply Forall_impl; [exact Hn'|]. cbn. intros q Hq. lia.
    + injection H as <- <-. destruct Hs as [Ho Hc Hl Hsz (new & Hi & Hn)].
      repeat split; try lia; try discriminate.
      exists new. split; [exact Hi|].
      eapply Forall_impl; [exact Hn|]. unfold GuavaClickHouseETL.page.
      cbn. intros q [Hq _]. lia.
    + injection H as <- <-. destruct Hs as [Ho Hc Hl Hsz (new & Hi & Hn)].
      repeat split; try lia; try discriminate.
      exists new. split; [exact Hi|].
      eapply Forall_impl; [exact Hn|]. unfold GuavaClickHouseETL.page.
      cbn. intros q [Hq _]. lia.
  - injection H as <- <-. apply Nat.ltb_ge in Hlt.
    repeat split; try lia. exists []. split; [now rewrite app_nil_r|constructor].
Qed.

(** With a positive page size the loop ends within as many passes as rows
    are left. *)
Lemma loop_terminates (fuel : nat) (s : state Row) :
  1 <= batch_size s -> total_rows - offset s < fuel ->
  exists e s', loop fuel s = Some (e, s').
Proof.
  revert s. induction fuel as [|fuel IH]; intros s Hbs Hf; [lia|].
  cbn [GuavaClickHouseETL.loop].
  destruct (offset s <? total_rows)%nat eqn:Hlt; [|eauto].
  apply Nat.ltb_lt in Hlt. pose proof (iteration_spec s Hlt) as Hs.
  destruct (iteration s) as [s1|s1|s1]; [|eauto..].
  destruct Hs as [d [Ho Hb Hd Hsz Hp Hc Hcl _]].
  apply IH; [auto|]. specialize (Hd Hbs). lia.
Qed.



Lemma iteration_all_memory (s : state Row) :
  always_memory ->
  exists s', iteration s = Next s'
             /\ total_processed s' = total_processed s /\ loaded s' = loaded s.
Proof.
  intros Hall. destruct s as [o bn tp cf bs iss ins ld].
  unfold GuavaClickHouseETL.iteration. fields. unfold set_batch_num, issue. fields.
  destruct (Hall (length iss) (Nat.min bs (total_rows - o)) o) as (e & -> & Hm).
  unfold on_error. fields. rewrite Hm.
  unfold set_consecutive_failures, issue, advance. fields.
  destruct (100 <? _)%nat.
  - destruct (Hall (length (iss ++ [(Nat.min bs (total_rows - o), o)]))
                   (Nat.min bs (total_rows - o) / 2) o) as (e2 & -> & _).
    eexists. repeat split.
  - eexists. repeat split.
Qed.

Lemma loop_all_memory (fuel : nat) (s : state Row) (e : exit) (s' : state Row) :
  always_memory -> loop fuel s = Some (e, s') ->
  e = Exhausted /\ total_processed s' = total_processed s /\ loaded s' = loaded s.
Proof.
  intros Hall. revert s. induction fuel as [|fuel IH]; intros s H; [discriminate H|].
  cbn [GuavaClickHouseETL.loop] in H.
  destruct (offset s <? total_rows)%nat.
  - destruct (iteration_all_memory s Hall) as (s1 & E & Ht & Hl).
    rewrite E in H. destruct (IH s1 H) as (-> & Ht' & Hl').
    repeat split; congruence.
  - injection H as <- <-. repeat split.
Qed.


(** With a page size of at least one row the loop ends within
    [total_rows] passes whatever the clients answer; and when every page
    statement raises a memory-limit error it ends by running past the
    planned rows, with no row counted and no frame loaded: what was
    accumulated is what there was before. *)
Theorem extraction_terminates (batch_size fuel : nat) :
  1 <= batch_size -> total_rows < fuel ->
  (exists e s, _process_batches fuel j batch_size where_clause total_rows = Some (e, s))
  /\ (always_memory ->
      exists s, _process_batches fuel j batch_size where_clause total_rows
                = Some (Exhausted, s)
                /\ total_processed s = 0 /\ loaded s = [] /\ total_rows <= offset s).
Proof.
  intros Hbs Hf. unfold _process_batches.
  destruct (loop_terminates fuel (initial batch_size)) as (e & s & H);
    [exact Hbs|cbn; lia|].
  split; [eauto|]. intros Hall.
  destruct (loop_all_memory fuel _ e s Hall H) as (-> & Ht & Hl).
  exists s. repeat split; try assumption.
  now apply (loop_spec fuel _ Exhausted s H).
Qed.

(** The failure counter.  Let the first attempt at a page raise [e].
    If [e] is not a memory-limit error and two failures were counted
    before, the loop returns at once, normally, with offset, count and
    loaded frames as they were and no further statement sent; with fewer
    failures counted the pass does not return.  If [e] is a memory-limit
    error the pass never returns, however many failures were counted; at
    a page size of at most 100 it skips the page and goes on. *)
Theorem gives_up_on_third_failure (s : state Row) (e : string) :
  offset s < total_rows ->
  query (length (issued s)) (page s) (offset s) = Raise e ->
  (memory_error e = false -> 2 <= consecutive_failures s ->
   forall fuel, exists s',
     loop (S fuel) s = Some (GaveUp, s')
     /\ offset s' = offset s /\ total_processed s' = total_processed s
     /\ loaded s' = loaded s
     /\ issued s' = issued s ++ [(page s, offset s)])
  /\ (memory_error e = false -> consecutive_failures s < 2 ->
      forall s', iteration s <> Return s')
  /\ (memory_error e = true ->
      (forall s', iteration s <> Return s')
      /\ (page s <= 100 ->
          exists s', iteration s = Next s'
                     /\ offset s' = offset s + page s
                     /\ consecutive_failures s' = S (consecutive_failures s)
                     /\ total_processed s' = total_processed s
                     /\ loaded s' = loaded s)).
Proof.
  intros Hlt Hq. destruct s as [o bn tp cf bs iss ins ld].
  unfold GuavaClickHouseETL.page in *. fields.
  assert (Hit : iteration (mk_state o bn tp cf bs iss ins ld)
                = on_error j where_clause e (Nat.min bs (total_rows - o))
                    (mk_state o (S bn) tp cf bs
                       (iss ++ [(Nat.min bs (total_rows - o), o)]) ins ld)).
  { unfold GuavaClickHouseETL.iteration. fields. unfold set_batch_num, issue. fields.
    now rewrite Hq. }
  split; [|split].
  - intros Hm Hcf fuel. cbn [GuavaClickHouseETL.loop]. fields.
    apply Nat.ltb_lt in Hlt. rewrite Hlt, Hit.
    unfold on_error. fields. rewrite Hm.
    unfold set_consecutive_failures, retry, max_consecutive_failures. fields.
    assert (Hc : (3 <=? S cf)%nat = true) by (apply Nat.leb_le; lia).
    rewrite Hc. eexists. repeat split.
  - intros Hm Hcf s'. rewrite Hit.
    unfold on_error. fields. rewrite Hm.
    unfold set_consecutive_failures, retry, max_consecutive_failures. fields.
    assert (Hc : (3 <=? S cf)%nat = false) by (apply Nat.leb_gt; lia).
    rewrite Hc. unfold issue. fields.
    case_query; [|discriminate].
    unfold set_consecutive_failures. fields.
    match goal with
    | |- process_frame ?a ?b ?c ?d <> _ =>
        pose proof (process_frame_spec b c d) as Hp;
        destruct (process_frame a b c d); try discriminate
    end.
    destruct Hp.
  - intros Hm. rewrite Hit. unfold on_error. fields. rewrite Hm.
    unfold set_consecutive_failures, advance. fields.
    destruct (100 <? Nat.min bs (total_rows - o))%nat eqn:Hfl.
    + apply Nat.ltb_lt in Hfl. split; [|lia].
      intros s'. unfold issue. fields.
      case_query; [|discriminate].
      unfold set_batch_size, set_consecutive_failures, retry, max_consecutive_failures.
      fields. cbn [Nat.leb]. unfold issue. fields.
      clear Heqr; case_query; [|discriminate].
      unfold set_consecutive_failures. fields.
      match goal with
      | |- process_frame ?a ?b ?c ?d <> _ =>
          pose proof (process_frame_spec b c d) as Hp;
          destruct (process_frame a b c d); try discriminate
      end.
      destruct Hp.
    + split; [discriminate|]. intros _. eexists. repeat split.
Qed.

(** Halving on a memory-limit error.  Let the first attempt at a page of more than
    100 rows raise a memory-limit error.  The same offset is then asked
    again with half the page size.  If that statement raises too, the
    offset moves on by the halved size and the loop goes on, with nothing
    counted and the page size of the run as it was.  If it answers, the
    halved size becomes the page size of the run, the pass does not
    return, and every statement of the rest of the run asks for at most
    the halved size. *)
Theorem memory_error_halves_the_page (s : state Row) (e : string) :
  offset s < total_rows -> 100 < page s ->
  query (length (issued s)) (page s) (offset s) = Raise e ->
  memory_error e = true ->
  (forall e2,
     query (S (length (issued s))) (page s / 2) (offset s) = Raise e2 ->
     exists s', iteration s = Next s'
                /\ offset s' = offset s + page s / 2
                /\ batch_size s' = batch_size s
                /\ total_processed s' = total_processed s
                /\ issued s' = issued s ++ [(page s, offset s); (page s / 2, offset s)])
  /\ (forall rows,
        query (S (length (issued s))) (page s / 2) (offset s) = Ok rows ->
        exists s', (iteration s = Next s' \/ iteration s = Break s')
                   /\ batch_size s' = page s / 2
                   /\ (exists new,
                         issued s' = issued s ++ (page s, offset s)
                                     :: (page s / 2, offset s)
                                     :: (page s / 2, offset s) :: new)
                   /\ forall fuel x s'',
                        loop fuel s' = Some (x, s'') ->
                        batch_size s'' <= page s / 2
                        /\ exists new, issued s'' = issued s' ++ new
                                       /\ Forall (fun q => fst q <= page s / 2) new).
Proof.
  intros Hlt Hfl Hq Hm. destruct s as [o bn tp cf bs iss ins ld].
  unfold GuavaClickHouseETL.page in *. fields.
  set (p := Nat.min bs (total_rows - o)) in *.
  assert (Hit : iteration (mk_state o bn tp cf bs iss ins ld)
                = match query (S (length iss)) (p / 2) o with
                  | Ok _ =>
                      retry j where_clause (p / 2)
                        (mk_state o (S bn) tp 0 (p / 2)
                           (iss ++ [(p, o); (p / 2, o)]) ins ld)
                  | Raise _ =>
                      Next (mk_state (o + p / 2) (S bn) tp (S cf) bs
                              (iss ++ [(p, o); (p / 2, o)]) ins ld)
                  end).
  { unfold GuavaClickHouseETL.iteration. fields. unfold set_batch_num, issue. fields.
    fold p. rewrite Hq. unfold on_error. fields. rewrite Hm.
    apply Nat.ltb_lt in Hfl. rewrite Hfl.
    unfold set_consecutive_failures, issue. fields.
    rewrite length_app, Nat.add_1_r. cbn [length].
    rewrite <- app_assoc. cbn [app].
    case_query; reflexivity. }
  split.
  - intros e2 H2. rewrite Hit, H2. eexists. repeat split.
  - intros rows H2. rewrite Hit, H2.
    unfold retry, max_consecutive_failures. fields. cbn [Nat.leb].
    unfold issue. fields.
    assert (Hsub : forall s', batch_size s' = p / 2 ->
              forall fuel x s'', loop fuel s' = Some (x, s'') ->
              batch_size s'' <= p / 2
              /\ exists new, issued s'' = issued s' ++ new
                             /\ Forall (fun q => fst q <= p / 2) new).
    { intros s' Hs' fuel x s'' Hl.
      destruct (loop_spec fuel s' x s'' Hl) as (_ & _ & Hb & _ & _ & _ & new & Hi & Hn).
      rewrite Hs' in *. split; [exact Hb|]. exists new. split; assumption. }
    case_query.
    + unfold set_consecutive_failures. fields.
      match goal with
      | |- context [process_frame ?a ?b ?c ?d] =>
          pose proof (process_frame_spec b c d) as Hp;
          destruct (process_frame a b c d) as [s1|s1|s1]
      end.
      * destruct Hp as (_ & Hb & Hi & _).
        fields. exists s1. split; [now left|]. split; [exact Hb|]. split.
        -- exists []. rewrite Hi, <- app_assoc. reflexivity.
        -- now apply Hsub.
      * exists s1. split; [now right|]. rewrite Hp.
        fields. split; [reflexivity|]. split.
        -- exists []. rewrite <- app_assoc. reflexivity.
        -- now apply Hsub.
      * destruct Hp.
    + unfold advance. fields. eexists. split; [now left|]. fields.
      split; [reflexivity|]. split.
      * exists []. rewrite <- app_assoc. reflexivity.
      * now apply Hsub.
Qed.

End Loop.

End BatchFacts.

Module BatchExamples.
Import GuavaClickHouseETL BatchFacts.

Lemma extraction_terminates_witness :
  1 <= 100 /\ 500 < 501
  /\ exists s,
       _process_batches 501 (Fixtures.job_over
                               (Fixtures.failing_source 500 Fixtures.memory_limit_message))
                        100 "" 500
       = Some (Exhausted, s)
       /\ total_processed s = 0 /\ loaded s = [] /\ 500 <= offset s.
Proof.
  split; [lia|]. split; [lia|].
  apply (extraction_terminates
           (Fixtures.job_over (Fixtures.failing_source 500 Fixtures.memory_limit_message))
           "" 500 100 501); [lia|lia|].
  intros k l o. eexists. split; reflexivity.
Defined.

Lemma gives_up_on_third_failure_witness :
  let j := Fixtures.job_over (Fixtures.failing_source 500 Fixtures.network_message) in
  let s := mk_state 200 2 0 2 100 [(100, 0); (100, 0); (100, 100); (100, 100)] 0 [] in
  offset s < 500
  /\ query_df (source j) (length (issued s)) "" (page 500 s) (offset s)
     = Raise Fixtures.network_message
  /\ PyStr.contains "MEMORY_LIMIT_EXCEEDED" Fixtures.network_message = false
  /\ 2 <= consecutive_failures s
  /\ exists s', loop j "" 500 1 s = Some (GaveUp, s')
                /\ offset s' = offset s /\ total_processed s' = total_processed s
                /\ loaded s' = loaded s
                /\ issued s' = issued s ++ [(page 500 s, offset s)].
Proof.
  intros j s.
  assert (Hlt : offset s < 500) by (unfold s; cbn [offset]; lia).
  assert (Hcf : 2 <= consecutive_failures s) by (unfold s; cbn [consecutive_failures]; lia).
  split; [exact Hlt|]. split; [reflexivity|]. split; [reflexivity|].
  split; [exact Hcf|].
  exact (proj1 (gives_up_on_third_failure j "" 500 s Fixtures.network_message
                  Hlt eq_refl) eq_refl Hcf 0).
Defined.

(** Three pages in a row whose two attempts fail on the network: the loop
    returns on the fifth statement with nothing counted.  Five pages in a
    row failing with a memory-limit error at the floor of 100 rows: the
    loop goes on to the end of the planned rows. *)
Example failing_pages :
  (exists s,
     _process_batches 6 (Fixtures.job_over
                           (Fixtures.failing_source 500 Fixtures.network_message))
                      100 "" 500
     = Some (GaveUp, s)
     /\ issued s = [(100, 0); (100, 0); (100, 100); (100, 100); (100, 200)]
     /\ total_processed s = 0 /\ offset s = 200)
  /\ (exists s,
        _process_batches 6 (Fixtures.job_over
                              (Fixtures.failing_source 500 Fixtures.memory_limit_message))
                         100 "" 500
        = Some (Exhausted, s)
        /\ consecutive_failures s = 5
        /\ issued s = [(100, 0); (100, 100); (100, 200); (100, 300); (100, 400)]
        /\ total_processed s = 0).
Proof. vm_compute. split; eexists; repeat split. Qed.

Lemma memory_error_halves_the_page_witness :
  let j := Fixtures.job_over (Fixtures.flaky_source 1000 1 Fixtures.memory_limit_message) in
  let s := initial 500 in
  offset s < 1000 /\ 100 < page 1000 s
  /\ query_df (source j) (length (issued s)) "" (page 1000 s) (offset s)
     = Raise Fixtures.memory_limit_message
  /\ PyStr.contains "MEMORY_LIMIT_EXCEEDED" Fixtures.memory_limit_message = true
  /\ query_df (source j) (S (length (issued s))) "" (page 1000 s / 2) (offset s)
     = Ok (seq 0 250)
  /\ exists s', (iteration j "" 1000 s = Next s' \/ iteration j "" 1000 s = Break s')
                /\ batch_size s' = 250.
Proof.
  intros j s.
  assert (Hlt : offset s < 1000) by (vm_compute; lia).
  assert (Hfl : 100 < page 1000 s) by (vm_compute; lia).
  assert (Hq : query_df (source j) (S (length (issued s))) "" (page 1000 s / 2) (offset s)
               = Ok (seq 0 250)) by (vm_compute; reflexivity).
  split; [exact Hlt|]. split; [exact Hfl|]. split; [reflexivity|].
  split; [reflexivity|]. split; [exact Hq|].
  destruct (proj2 (memory_error_halves_the_page j "" 1000 s Fixtures.memory_limit_message
                     Hlt Hfl eq_refl eq_refl) (seq 0 250) Hq)
    as (s' & H & Hb & _).
  exists s'. split; [exact H|]. rewrite Hb. vm_compute. reflexivity.
Defined.

(** A run of 1000 rows at a page size of 500 whose first two statements
    raise a memory-limit error keeps the page size of 500; when only the
    first one raises, the halved statement is sent twice for offset 0 and
    250 is the page size of the rest of the run. *)
Example halving_runs :
  (exists s,
     _process_batches 10 (Fixtures.job_over
                            (Fixtures.flaky_source 1000 2 Fixtures.memory_limit_message))
                      500 "" 1000
     = Some (Exhausted, s)
     /\ issued s = [(500, 0); (250, 0); (500, 250); (250, 750)]
     /\ batch_size s = 500 /\ total_processed s = 750)
  /\ (exists s,
        _process_batches 10 (Fixtures.job_over
                               (Fixtures.flaky_source 1000 1 Fixtures.memory_limit_message))
                         500 "" 1000
        = Some (Exhausted, s)
        /\ issued s = [(500, 0); (250, 0); (250, 0); (250, 250); (250, 500); (250, 750)]
        /\ batch_size s = 250 /\ total_processed s = 1000).
Proof. vm_compute. split; eexists; repeat split. Qed.

End BatchExamples.

(* ================================================================= *)
(** ** The run of one table stays within its cap *)

Module RunFacts.
Import GuavaClickHouseETL BatchFacts.

Section Plan.
Context {Row : Type} (j : job Row) (where_clause : string) (total_rows : nat).

(** No statement of the loop reaches past the planned rows. *)
Lemma loop_statements (fuel : nat) (s : state Row) (e : exit) (s' : state Row) :
  loop j where_clause total_rows fuel s = Some (e, s') ->
  exists new, issued s' = issued s ++ new
              /\ Forall (fun q => fst q + snd q <= total_rows) new.
Proof.
  revert s. induction fuel as [|fuel IH]; intros s H; [discriminate H|].
  cbn [loop] in H.
  assert (Hsent : forall new, offset s < total_rows ->
            sent_from total_rows s new ->
            Forall (fun q => fst q + snd q <= total_rows) new).
  { intros new Hlt Hn. eapply Forall_impl; [exact Hn|].
    unfold page. cbn. intros q [Hq ->]. lia. }
  destruct (offset s <? total_rows)%nat eqn:Hlt.
  - apply Nat.ltb_lt in Hlt.
    pose proof (iteration_spec j where_clause total_rows s Hlt) as Hs.
    destruct (iteration j where_clause total_rows s) as [s1|s1|s1].
    + destruct Hs as [d [_ _ _ _ _ _ _ (new & Hi & Hn)]].
      destruct (IH s1 H) as (new' & Hi' & Hn').
      exists (new ++ new'). split; [now rewrite Hi', Hi, app_assoc|].
      apply Forall_app. split; [now apply Hsent|exact Hn'].
    + injection H as <- <-. destruct Hs as [_ _ _ _ (new & Hi & Hn)].
      exists new. split; [exact Hi|now apply Hsent].
    + injection H as <- <-. destruct Hs as [_ _ _ _ (new & Hi & Hn)].
      exists new. split; [exact Hi|now apply Hsent].
  - injection H as <- <-. exists []. split; [now rewrite app_nil_r|constructor].
Qed.

End Plan.

Lemma clamp_le (max_rows total_rows : nat) :
  clamp max_rows total_rows <= max_rows /\ clamp max_rows total_rows <= total_rows.
Proof.
  unfold clamp. destruct (max_rows <? total_rows)%nat eqn:H.
  - apply Nat.ltb_lt in H. lia.
  - apply Nat.ltb_ge in H. lia.
Qed.

(** A run that gets through its loop has planned at most [max_rows] rows:
    no page statement reaches past row [max_rows] of the filtered source,
    and when the source answers no statement with more rows than its
    LIMIT, at most [max_rows] rows are counted as processed. *)
Theorem run_within_cap {Row : Type} (fuel : nat) (utcoffset : Z) (j : job Row)
    (table_name : string) (batch_size max_rows : nat) (e : exit) (s : state Row) :
  run fuel utcoffset j table_name batch_size max_rows = Finished e s ->
  Forall (fun q => fst q + snd q <= max_rows) (issued s)
  /\ offset s <= max_rows
  /\ ((forall where_clause, honours_limit j where_clause) ->
      total_processed s <= max_rows).
Proof.
  unfold run. destruct (timestamp_info table_name) as [timestamp_col timestamp_type].
  intros H. cbv zeta in H.
  set (w := _build_where_clause _ _ _ _) in H.
  destruct (skip_table w _); cbv beta iota in H; [discriminate H|].
  destruct (select_count (source j) w) as [total|]; cbv beta iota in H; [|discriminate H].
  pose proof (clamp_le max_rows total) as [Hc _].
  destruct (clamp max_rows total =? 0)%nat; cbv beta iota in H; [discriminate H|].
  unfold _process_batches in H.
  destruct (loop j w (clamp max_rows total) fuel (initial batch_size))
    as [[e' s']|] eqn:Hl; cbv beta iota in H; [|discriminate H].
  injection H as -> ->.
  destruct (loop_statements _ _ _ _ _ _ _ Hl) as (new & Hi & Hn).
  destruct (loop_spec _ _ _ _ _ _ _ Hl) as (_ & Ho & _ & _ & Hh & _).
  cbn [initial issued offset total_processed app] in *.
  split; [|split].
  - rewrite Hi. eapply Forall_impl; [exact Hn|]. cbn. intros q Hq. lia.
  - specialize (Ho ltac:(lia)). lia.
  - intros Hall. specialize (Hh (Hall _)). specialize (Ho ltac:(lia)). lia.
Qed.

Lemma flaky_source_honours_limit (n failing : nat) (msg where_clause : string) :
  honours_limit (Fixtures.job_over (Fixtures.flaky_source n failing msg)) where_clause.
Proof.
  intros k l o rows.
  cbn [Fixtures.job_over Fixtures.flaky_source source query_df]. intros H.
  destruct (k <? failing)%nat; [discriminate H|].
  injection H as <-. rewrite length_seq. lia.
Qed.

Lemma run_within_cap_witness :
  exists e s,
    run 10 0 (Fixtures.job_over (Fixtures.flaky_source 7 1 Fixtures.network_message))
        "otel_logs" 2 5
    = Finished e s
    /\ Forall (fun q => fst q + snd q <= 5) (issued s)
    /\ offset s <= 5
    /\ total_processed s <= 5.
Proof.
  destruct (run 10 0 (Fixtures.job_over (Fixtures.flaky_source 7 1 Fixtures.network_message))
              "otel_logs" 2 5) as [| |e s|msg|] eqn:Hrun; try (vm_compute in Hrun; discriminate Hrun).
  exists e, s. split; [reflexivity|].
  destruct (run_within_cap 10 0 _ "otel_logs" 2 5 e s Hrun) as (H1 & H2 & H3).
  split; [exact H1|]. split; [exact H2|].
  apply H3. intros w. apply flaky_source_honours_limit.
Defined.

End RunFacts.

(* ================================================================= *)
(** ** The scroll extraction of the OpenSearch job *)

Module ScrollFacts.
Import AppleMangoOpenSearchETL.

Section Scroll.
Context {Hit : Type} (sc : source_client Hit) (max_rows_per_index : nat).

Abbreviation scroll_loop := (scroll_loop sc max_rows_per_index).
Abbreviation _extract_from_index := (_extract_from_index sc max_rows_per_index).

(** The loop keeps what was read, and never lets the result grow past the
    cap once it is within it. *)
Lemma scroll_loop_spec (fuel n : nat) (hits results rows : list Hit) :
  scroll_loop fuel n hits results = Some (Ok rows) ->
  (exists more, rows = results ++ more)
  /\ (length results <= max_rows_per_index -> length rows <= max_rows_per_index).
Proof.
  revert n hits results. induction fuel as [|fuel IH]; intros n hits results H;
    [discriminate H|].
  cbn [AppleMangoOpenSearchETL.scroll_loop] in H.
  destruct ((0 <? length hits)%nat && (length results <? max_rows_per_index)%nat) eqn:Hc.
  - apply andb_prop in Hc as [_ Hc]. apply Nat.ltb_lt in Hc.
    destruct (scroll sc n) as [page|e]; [|discriminate H].
    set (hits' := if (max_rows_per_index - length results <? length page)%nat
                  then firstn (max_rows_per_index - length results) page else page) in H.
    assert (Hl : length hits' <= max_rows_per_index - length results).
    { unfold hits'. destruct (_ <? _)%nat eqn:Ht.
      - rewrite length_firstn. lia.
      - apply Nat.ltb_ge in Ht. exact Ht. }
    destruct (max_rows_per_index <=? length (results ++ hits'))%nat.
    + injection H as <-. split; [eauto|]. intros _. rewrite length_app. lia.
    + destruct (IH _ _ _ H) as [[more ->] Hb]. split.
      * exists (hits' ++ more). now rewrite app_assoc.
      * intros _. apply Hb. rewrite length_app. lia.
  - injection H as <-. split; [|auto]. exists []. now rewrite app_nil_r.
Qed.

(** The loop ends within as many passes as the cap leaves room for, and
    one more. *)
Lemma scroll_loop_terminates (fuel n : nat) (hits results : list Hit) :
  (hits = [] /\ 1 <= fuel) \/ max_rows_per_index - length results < fuel ->
  exists r, scroll_loop fuel n hits results = Some r.
Proof.
  revert n hits results. induction fuel as [|fuel IH]; intros n hits results Hf;
    [destruct Hf as [[_ Hf]|Hf]; lia|].
  cbn [AppleMangoOpenSearchETL.scroll_loop].
  destruct ((0 <? length hits)%nat && (length results <? max_rows_per_index)%nat) eqn:Hc;
    [|eauto].
  apply andb_prop in Hc as [Hh Hc]. apply Nat.ltb_lt in Hc. apply Nat.ltb_lt in Hh.
  destruct Hf as [[-> _]|Hf]; [cbn in Hh; lia|].
  destruct (scroll sc n) as [page|e]; [|eauto].
  set (hits' := if (max_rows_per_index - length results <? length page)%nat
                then firstn (max_rows_per_index - length results) page else page).
  destruct (max_rows_per_index <=? length (results ++ hits'))%nat; [eauto|].
  apply IH. destruct hits' as [|h hits''] eqn:E.
  - left. split; [reflexivity|lia].
  - right. rewrite length_app. cbn [length]. lia.
Qed.

(** When the first page is within the cap, the extraction ends, and what
    it returns is within the cap and begins with the first page. *)
Theorem scroll_within_cap (index_name : string) (body : query) (hits : list Hit)
    (fuel : nat) :
  search sc index_name body 1000 = Ok hits ->
  length hits <= max_rows_per_index ->
  max_rows_per_index < fuel ->
  exists r, _extract_from_index fuel index_name body = Some r
            /\ forall rows, r = Ok rows ->
                 length rows <= max_rows_per_index
                 /\ exists more, rows = hits ++ more.
Proof.
  intros Hs Hl Hf. unfold AppleMangoOpenSearchETL._extract_from_index.
  rewrite Hs. cbn [app].
  destruct (scroll_loop_terminates fuel 0 hits hits) as [r Hr]; [right; lia|].
  exists r. split; [exact Hr|]. intros rows ->.
  destruct (scroll_loop_spec _ _ _ _ _ Hr) as [Hm Hb]. split; auto.
Qed.

(** The first page is never trimmed: when it alone reaches the cap it is
    returned whole, so a first page longer than the cap comes back with
    more rows than the cap. *)
Theorem first_page_returned_whole (index_name : string) (body : query)
    (hits : list Hit) (fuel : nat) :
  search sc index_name body 1000 = Ok hits ->
  max_rows_per_index <= length hits ->
  _extract_from_index (S fuel) index_name body = Some (Ok hits).
Proof.
  intros Hs Hl. unfold AppleMangoOpenSearchETL._extract_from_index.
  rewrite Hs. cbn [app AppleMangoOpenSearchETL.scroll_loop].
  assert (Hc : (length hits <? max_rows_per_index)%nat = false)
    by (apply Nat.ltb_ge; exact Hl).
  rewrite Hc, andb_false_r. reflexivity.
Qed.

(** An exception of a scroll call is re-raised: the first page, already
    read, is not returned. *)
Theorem scroll_error_discards_pages (index_name : string) (body : query)
    (hits : list Hit) (e : string) (fuel : nat) :
  search sc index_name body 1000 = Ok hits ->
  hits <> [] -> length hits < max_rows_per_index ->
  scroll sc 0 = Raise e ->
  _extract_from_index (S fuel) index_name body = Some (Raise e).
Proof.
  intros Hs Hh Hl He. unfold AppleMangoOpenSearchETL._extract_from_index.
  rewrite Hs. cbn [app AppleMangoOpenSearchETL.scroll_loop].
  assert (H1 : (0 <? length hits)%nat = true)
    by (apply Nat.ltb_lt; destruct hits; [congruence|cbn; lia]).
  assert (H2 : (length hits <? max_rows_per_index)%nat = true)
    by (apply Nat.ltb_lt; exact Hl).
  now rewrite H1, H2, He.
Qed.

End Scroll.

Lemma scroll_within_cap_witness :
  search (Fixtures.index_of 7) "perfhist-sms" match_all 1000 = Ok (seq 0 7)
  /\ length (seq 0 7) <= 9 /\ 9 < 10
  /\ exists r, AppleMangoOpenSearchETL._extract_from_index (Fixtures.index_of 7) 9 10
                 "perfhist-sms" match_all = Some r
               /\ forall rows, r = Ok rows ->
                    length rows <= 9 /\ exists more, rows = seq 0 7 ++ more.
Proof.
  assert (H1 : search (Fixtures.index_of 7) "perfhist-sms" match_all 1000 = Ok (seq 0 7))
    by (vm_compute; reflexivity).
  assert (H2 : length (seq 0 7) <= 9) by (vm_compute; lia).
  assert (H3 : 9 < 10) by lia.
  split; [exact H1|]. split; [exact H2|]. split; [exact H3|].
  exact (scroll_within_cap (Fixtures.index_of 7) 9 "perfhist-sms" match_all
           (seq 0 7) 10 H1 H2 H3).
Defined.

Lemma first_page_returned_whole_witness :
  search (Fixtures.index_of 7) "perfhist-sms" match_all 1000 = Ok (seq 0 7)
  /\ 5 <= length (seq 0 7)
  /\ AppleMangoOpenSearchETL._extract_from_index (Fixtures.index_of 7) 5 1
       "perfhist-sms" match_all = Some (Ok (seq 0 7)).
Proof.
  assert (H1 : search (Fixtures.index_of 7) "perfhist-sms" match_all 1000 = Ok (seq 0 7))
    by (vm_compute; reflexivity).
  assert (H2 : 5 <= length (seq 0 7)) by (vm_compute; lia).
  split; [exact H1|]. split; [exact H2|].
  exact (first_page_returned_whole (Fixtures.index_of 7) 5 "perfhist-sms" match_all
           (seq 0 7) 0 H1 H2).
Defined.

Lemma scroll_error_discards_pages_witness :
  search Fixtures.dropping_index "perfhist-nms" match_all 1000 = Ok [0; 1; 2]
  /\ [0; 1; 2] <> [] /\ length [0; 1; 2] < 5
  /\ AppleMangoOpenSearchETL._extract_from_index Fixtures.dropping_index 5 1
       "perfhist-nms" match_all
     = Some (Raise "NotFoundError(404, search_context_missing_exception)").
Proof.
  assert (H2 : [0; 1; 2] <> []) by discriminate.
  assert (H3 : length [0; 1; 2] < 5) by (cbn; lia).
  split; [reflexivity|]. split; [exact H2|]. split; [exact H3|].
  exact (scroll_error_discards_pages Fixtures.dropping_index 5 "perfhist-nms" match_all
           [0; 1; 2] _ 0 eq_refl H2 H3 eq_refl).
Defined.

End ScrollFacts.

(* ================================================================= *)
(** ** Adding the missing columns *)

Module SchemaFacts.
Import Frame AppleMangoOpenSearchETL.

(** A label that occurs in a frame without repeated labels has a dtype. *)
Lemma dtype_of_unique (df : frame) (col : string) :
  NoDup (columns df) -> In col (columns df) ->
  exists d, dtype_of df col = Some d.
Proof.
  unfold dtype_of, columns.
  induction df as [|[name c] df IH]; intros Hn Hi; [destruct Hi|].
  cbn [map fst] in Hn, Hi. apply NoDup_cons in Hn as [Hnot Hn].
  cbn [List.filter]. destruct (String.eqb_spec name col) as [->|Hne].
  - assert (Hf : List.filter (fun '(name, _) => String.eqb name col) df = []).
    { clear -Hnot. induction df as [|[n c'] df IH]; [reflexivity|].
      cbn [List.filter]. destruct (String.eqb_spec n col) as [->|_].
      - exfalso. apply Hnot. cbn [map fst]. left.
      - apply IH. intros H. apply Hnot. cbn [map fst]. now right. }
    rewrite Hf. eauto.
  - destruct Hi as [Hi|Hi]; [congruence|]. apply IH; [|exact Hi].
    exact Hn.
Qed.

Section Reconcile.
Context {D : Type} (tc : ddl_client D) (table_name : string) (df : frame).
Hypothesis unique_labels : NoDup (columns df).

Abbreviation add_columns := (add_columns tc table_name df).
Abbreviation _add_missing_columns := (_add_missing_columns tc table_name df).

(** The loop over the missing labels sends one command for each label, in
    order, whatever the answers, and ends normally. *)
Lemma add_columns_spec (cols : list string) (d : D) :
  (forall col, In col cols -> In col (columns df)) ->
  result (add_columns cols d) = Ok tt
  /\ map (fun x => ac_col (fst x)) (sent (add_columns cols d)) = cols
  /\ Forall (fun x => ac_table (fst x) = table_name
                      /\ dtype_of df (ac_col (fst x)) <> None
                      /\ forall dt, dtype_of df (ac_col (fst x)) = Some dt ->
                                    ac_type (fst x) = type_mapping dt)
            (sent (add_columns cols d))
  /\ log (add_columns cols d) = answers_log (sent (add_columns cols d)).
Proof.
  revert d. induction cols as [|col cols IH]; intros d Hin.
  - cbn. repeat split; constructor.
  - cbn [AppleMangoOpenSearchETL.add_columns].
    destruct (dtype_of_unique df col unique_labels (Hin col (or_introl eq_refl)))
      as [dt Hdt].
    rewrite Hdt. destruct (command tc d _) as [d' r] eqn:Hc.
    destruct (IH d' (fun c Hc' => Hin c (or_intror Hc'))) as (I1 & I2 & I3 & I4).
    cbn [result sent log dest map fst ac_col]. repeat split.
    + exact I1.
    + now rewrite I2.
    + constructor; [|exact I3]. cbn [fst ac_table ac_col ac_type].
      rewrite Hdt. repeat split; [discriminate|]. intros ? [= <-]. reflexivity.
    + unfold answers_log in *. cbn [flat_map ac_col]. now rewrite I4.
Qed.

(** No answer to an add-column command surfaces.  The call raises only
    what [DESCRIBE TABLE] raised; otherwise it ends normally after one
    command for every label of the frame the description lacks, whatever
    was answered before, each for this table and with the type mapped from
    the dtype of the column; the log is the heading and the records of the
    answers, where a duplicate-column answer leaves no record and any
    other failure leaves one of level [ERROR]. *)
Theorem add_errors_never_surface (d : D) :
  result (_add_missing_columns d)
  = match describe tc d table_name with
    | Raise e => Raise e
    | Ok _ => Ok tt
    end
  /\ (forall rows, describe tc d table_name = Ok rows ->
        map (fun x => ac_col (fst x)) (sent (_add_missing_columns d))
        = elements (list_to_set (columns df) ∖ list_to_set rows : gset string)
        /\ Forall (fun x => ac_table (fst x) = table_name
                            /\ forall dt, dtype_of df (ac_col (fst x)) = Some dt ->
                                          ac_type (fst x) = type_mapping dt)
                  (sent (_add_missing_columns d))
        /\ (sent (_add_missing_columns d) <> [] ->
            log (_add_missing_columns d)
            = (INFO, "adding missing columns")
              :: answers_log (sent (_add_missing_columns d)))
        /\ forall a e, In (a, Raise e) (sent (_add_missing_columns d)) ->
             if PyStr.contains "already exists" (PyStr.lower e)
             then answer_log (ac_col a) (Raise e) = []
             else In (ERROR, "adding column " +:+ ac_col a +:+ " failed: " +:+ e)
                     (log (_add_missing_columns d))).
Proof.
  unfold AppleMangoOpenSearchETL._add_missing_columns.
  destruct (describe tc d table_name) as [rows|e]; [|split; [reflexivity|discriminate]].
  set (missing := (list_to_set (columns df) ∖ list_to_set rows : gset string)).
  assert (Hin : forall col, In col (elements missing) -> In col (columns df)).
  { intros col Hc. apply list_elem_of_In in Hc. apply elem_of_elements in Hc.
    unfold missing in Hc. apply elem_of_difference in Hc as [Hc _].
    apply elem_of_list_to_set in Hc. now apply list_elem_of_In. }
  destruct (add_columns_spec (elements missing) d Hin) as (I1 & I2 & I3 & I4).
  destruct (decide (missing = ∅)) as [He|Hne].
  - split; [reflexivity|]. intros rows' [= <-]. fold missing. rewrite He.
    rewrite elements_empty. cbn [sent map]. split; [reflexivity|].
    split; [constructor|]. split; [congruence|]. intros a e [].
  - rewrite I1. cbn [result sent log]. split; [reflexivity|].
    intros rows' [= <-]. fold missing. split; [exact I2|]. split; [|split].
    + eapply Forall_impl; [exact I3|]. cbn. intros x (? & _ & ?). split; assumption.
    + intros _. now rewrite I4.
    + intros a e Ha. destruct (PyStr.contains _ _) eqn:Hc.
      * cbn [answer_log]. now rewrite Hc.
      * right. rewrite I4. unfold answers_log. apply in_flat_map.
        exists (a, Raise e). split; [exact Ha|].
        cbn [answer_log]. rewrite Hc. left. reflexivity.
Qed.

(** When the description lists every label of the frame, nothing is sent
    and the destination is left as it was. *)
Theorem nothing_missing_nothing_sent (d : D) (rows : list string) :
  describe tc d table_name = Ok rows ->
  (forall col, In col (columns df) -> In col rows) ->
  _add_missing_columns d = mk_reconciled (Ok tt) d [] [].
Proof.
  intros Hd Hall. unfold AppleMangoOpenSearchETL._add_missing_columns. rewrite Hd.
  destruct (decide _) as [_|Hne]; [reflexivity|].
  exfalso. apply Hne. apply set_eq. intros x. split; [|intros Hx; now apply elem_of_empty in Hx].
  intros Hx. apply elem_of_difference in Hx as [H1 H2]. exfalso. apply H2.
  apply elem_of_list_to_set. apply list_elem_of_In. apply Hall.
  apply list_elem_of_In. now apply elem_of_list_to_set in H1.
Qed.

End Reconcile.

Lemma batch_labels_unique : NoDup (columns Fixtures.batch).
Proof. apply (bool_decide_unpack _). vm_compute. exact I. Qed.

Lemma add_errors_never_surface_witness :
  NoDup (columns Fixtures.batch)
  /\ result (_add_missing_columns table_client "perfhist_sms" Fixtures.batch
               Fixtures.destination) = Ok tt
  /\ map (fun x => ac_col (fst x))
         (sent (_add_missing_columns table_client "perfhist_sms" Fixtures.batch
                  Fixtures.destination))
     = elements (list_to_set (columns Fixtures.batch) ∖ list_to_set ["a"] : gset string).
Proof.
  split; [exact batch_labels_unique|].
  pose proof (add_errors_never_surface table_client "perfhist_sms" Fixtures.batch
                batch_labels_unique Fixtures.destination) as [H1 H2].
  split; [exact H1|].
  exact (proj1 (H2 ["a"] ltac:(vm_compute; reflexivity))).
Defined.

Lemma nothing_missing_nothing_sent_witness :
  let d := mk_table {[ "a"; "b"; "c"; "zz" ]} ∅ in
  describe table_client d "perfhist_sms" = Ok (elements (labels d))
  /\ (forall col, In col (columns Fixtures.batch) -> In col (elements (labels d)))
  /\ _add_missing_columns table_client "perfhist_sms" Fixtures.batch d
     = mk_reconciled (Ok tt) d [] [].
Proof.
  intros d.
  assert (H : forall col, In col (columns Fixtures.batch) -> In col (elements (labels d))).
  { intros col Hc. apply list_elem_of_In, elem_of_elements.
    cbn in Hc. unfold d. cbn [labels].
    destruct Hc as [<-|[<-|[<-|[<-|[]]]]]; set_solver. }
  split; [reflexivity|]. split; [exact H|].
  exact (nothing_missing_nothing_sent table_client "perfhist_sms" Fixtures.batch d
           (elements (labels d)) eq_refl H).
Defined.

(** Two calls in a row on the example table: the first adds what it can,
    the second asks only for the label that was refused, and neither
    raises. *)
Example reconcile_twice :
  let r1 := _add_missing_columns table_client "perfhist_sms" Fixtures.batch
              Fixtures.destination in
  let r2 := _add_missing_columns table_client "perfhist_sms" Fixtures.batch (dest r1) in
  result r1 = Ok tt /\ result r2 = Ok tt
  /\ length (sent r1) = 3
  /\ map (fun x => ac_col (fst x)) (sent r2) = ["zz"]
  /\ labels (dest r2) = labels (dest r1).
Proof. vm_compute. repeat split. Qed.

End SchemaFacts.

(* ================================================================= *)
(** ** The write batches of the OpenSearch job *)

Module LoadFacts.
Import Frame AppleMangoOpenSearchETL.

Lemma firstn_skipn_add {A : Type} (i a b : nat) (l : list A) :
  firstn a (skipn i l) ++ firstn b (skipn (i + a) l) = firstn (a + b) (skipn i l).
Proof.
  replace (i + a) with (a + i) by lia. rewrite <- skipn_skipn.
  generalize (skipn i l) as m. clear l.
  induction a as [|a IH]; intros m; [reflexivity|].
  destruct m as [|x m]; cbn [firstn skipn Nat.add app].
  - now destruct b.
  - now rewrite IH.
Qed.

Lemma series_slice_add (i a b : nat) (c : series) :
  series_append (series_slice i a c) (series_slice (i + a) b c) = series_slice i (a + b) c.
Proof. destruct c; cbn; now rewrite firstn_skipn_add. Qed.

Lemma frame_slice_add (i a b : nat) (data : frame) :
  frame_append (frame_slice i a data) (frame_slice (i + a) b data)
  = frame_slice i (a + b) data.
Proof.
  unfold frame_slice. induction data as [|[name c] data IH]; [reflexivity|].
  cbn [map frame_append]. now rewrite series_slice_add, IH.
Qed.

Lemma series_slice_all (n m : nat) (c : series) :
  series_len c = n -> n <= m -> series_slice 0 m c = c.
Proof.
  intros <- Hm. destruct c; cbn in *; now rewrite firstn_all2.
Qed.

Lemma frame_slice_all (n m : nat) (data : frame) :
  rectangular n data -> n <= m -> frame_slice 0 m data = data.
Proof.
  unfold rectangular, frame_slice. intros Hr Hm.
  induction data as [|[name c] data IH]; [reflexivity|].
  apply Forall_cons in Hr as [Hc Hr]. cbn [map snd] in *.
  now rewrite (series_slice_all n m c Hc Hm), (IH Hr).
Qed.

Lemma series_slice_len (i n : nat) (c : series) :
  series_len (series_slice i n c) <= n.
Proof. destruct c; cbn; rewrite length_firstn; lia. Qed.

Lemma frame_slice_len (i n : nat) (data : frame) : len (frame_slice i n data) <= n.
Proof.
  destruct data as [|[name c] data]; cbn; [lia|]. apply series_slice_len.
Qed.

(** The slices that start at the multiples of [bs] from [a] on, stacked,
    are one slice. *)
Lemma stack_slices (bs a n : nat) (data : frame) :
  stack (map (fun i => frame_slice i bs data) (map (fun k => k * bs) (seq a (S n))))
  = Some (frame_slice (a * bs) (S n * bs) data).
Proof.
  revert a. induction n as [|n IH]; intros a.
  - cbn [seq map stack]. now rewrite Nat.mul_1_l.
  - change (seq a (S (S n))) with (a :: seq (S a) (S n)).
    cbn [map stack]. rewrite IH. f_equal.
    replace (S a * bs) with (a * bs + bs) by lia.
    rewrite frame_slice_add. f_equal; lia.
Qed.

Lemma range_covers (n bs : nat) : 0 < bs -> n <= (n + bs - 1) / bs * bs.
Proof.
  intros Hbs. pose proof (Nat.div_mod_eq (n + bs - 1) bs) as H.
  pose proof (Nat.mod_upper_bound (n + bs - 1) bs ltac:(lia)) as H'. nia.
Qed.

Section Inserts.
Context (insert_df : nat -> frame -> response unit).

Abbreviation insert_batches := (insert_batches insert_df).
Abbreviation insert_all := (insert_all insert_df).

(** The loop when the inserts numbered below [limit] answer and the one
    numbered [limit], if it comes, raises [e]. *)
Lemma insert_batches_spec (bs : nat) (data : frame) (e : string) (limit : nat)
    (starts : list nat) (k : nat) :
  (forall k' f, k' < limit -> exists u, insert_df k' f = Ok u) ->
  (forall f, insert_df limit f = Raise e) ->
  k <= limit ->
  insert_batches bs data starts k
  = (if (limit - k <? length starts)%nat then Raise e else Ok tt,
     map (fun i => frame_slice i bs data) (firstn (limit - k) starts)).
Proof.
  intros Hok Hbad. revert k. induction starts as [|i starts IH]; intros k Hk.
  - cbn. now destruct (limit - k).
  - cbn [AppleMangoOpenSearchETL.insert_batches length].
    destruct (Nat.eq_dec k limit) as [->|Hne].
    + rewrite Hbad, Nat.sub_diag. reflexivity.
    + destruct (Hok k (frame_slice i bs data) ltac:(lia)) as [u ->].
      rewrite (IH (S k)) by lia.
      replace (limit - k) with (S (limit - S k)) by lia.
      cbn [firstn map]. f_equal.
Qed.

(** Write batches of a non-empty frame.  When no insert raises, the frame
    goes out in [ceil(len / batch_size)] batches of at most [batch_size]
    rows which, stacked in order, are the frame: no row is left out and
    none is sent twice. *)
Theorem write_batches_partition (bs : nat) (data : frame) :
  0 < bs -> len data <> 0 -> rectangular (len data) data ->
  (forall k f, exists u, insert_df k f = Ok u) ->
  fst (insert_all bs data) = Ok tt
  /\ stack (snd (insert_all bs data)) = Some data
  /\ Forall (fun f => len f <= bs) (snd (insert_all bs data))
  /\ length (snd (insert_all bs data)) = (len data + bs - 1) / bs.
Proof.
  intros Hbs Hn Hr Hok. unfold AppleMangoOpenSearchETL.insert_all.
  apply Nat.eqb_neq in Hn as Hn'. rewrite Hn'.
  set (starts := py_range (len data) bs).
  assert (Hlen : length starts = (len data + bs - 1) / bs)
    by (unfold starts, py_range; now rewrite length_map, length_seq).
  pose proof (range_covers (len data) bs Hbs) as Hcov.
  assert (Hpos : 0 < (len data + bs - 1) / bs) by (destruct ((len data + bs - 1) / bs); lia).
  assert (E : insert_batches bs data starts 0
              = (Ok tt, map (fun i => frame_slice i bs data) starts)).
  { clearbody starts. clear -Hok. generalize 0.
    induction starts as [|i starts IH]; intros k; [reflexivity|].
    cbn [AppleMangoOpenSearchETL.insert_batches map].
    destruct (Hok k (frame_slice i bs data)) as [u ->]. now rewrite IH. }
  rewrite E. cbn [fst snd]. split; [reflexivity|]. split; [|split].
  - unfold starts, py_range.
    destruct ((len data + bs - 1) / bs) as [|n] eqn:En; [lia|].
    rewrite stack_slices. cbn [Nat.mul]. f_equal.
    apply (frame_slice_all (len data)); [exact Hr|lia].
  - apply Forall_map. apply Forall_forall. intros i _. apply frame_slice_len.
  - now rewrite length_map.
Qed.

(** An insert that raises ends the load with its exception: the batches
    inserted before it stay inserted, and no later batch is sent. *)
Theorem failed_insert_keeps_earlier_batches (bs : nat) (data : frame)
    (e : string) (limit : nat) :
  len data <> 0 ->
  (forall k' f, k' < limit -> exists u, insert_df k' f = Ok u) ->
  (forall f, insert_df limit f = Raise e) ->
  limit < length (py_range (len data) bs) ->
  insert_all bs data
  = (Raise e,
     map (fun i => frame_slice i bs data) (firstn limit (py_range (len data) bs))).
Proof.
  intros Hn Hok Hbad Hl. unfold AppleMangoOpenSearchETL.insert_all.
  apply Nat.eqb_neq in Hn. rewrite Hn.
  rewrite (insert_batches_spec bs data e limit _ 0 Hok Hbad) by lia.
  rewrite Nat.sub_0_r. apply Nat.ltb_lt in Hl. now rewrite Hl.
Qed.

End Inserts.

Lemma write_batches_partition_witness :
  0 < 2 /\ len Fixtures.three_rows <> 0
  /\ rectangular (len Fixtures.three_rows) Fixtures.three_rows
  /\ fst (insert_all Fixtures.insert_ok 2 Fixtures.three_rows) = Ok tt
  /\ stack (snd (insert_all Fixtures.insert_ok 2 Fixtures.three_rows))
     = Some Fixtures.three_rows
  /\ Forall (fun f => len f <= 2) (snd (insert_all Fixtures.insert_ok 2 Fixtures.three_rows))
  /\ length (snd (insert_all Fixtures.insert_ok 2 Fixtures.three_rows))
     = (len Fixtures.three_rows + 2 - 1) / 2.
Proof.
  assert (H1 : 0 < 2) by lia.
  assert (H2 : len Fixtures.three_rows <> 0) by (vm_compute; discriminate).
  assert (H3 : rectangular (len Fixtures.three_rows) Fixtures.three_rows)
    by (repeat constructor).
  split; [exact H1|]. split; [exact H2|]. split; [exact H3|].
  apply (write_batches_partition Fixtures.insert_ok 2 Fixtures.three_rows H1 H2 H3).
  intros k f. exists tt. reflexivity.
Defined.

Lemma failed_insert_keeps_earlier_batches_witness :
  len Fixtures.three_rows <> 0
  /\ 1 < length (py_range (len Fixtures.three_rows) 1)
  /\ insert_all Fixtures.insert_second_fails 1 Fixtures.three_rows
     = (Raise "Code: 252. DB::Exception: Too many parts",
        map (fun i => frame_slice i 1 Fixtures.three_rows)
            (firstn 1 (py_range (len Fixtures.three_rows) 1))).
Proof.
  assert (H2 : len Fixtures.three_rows <> 0) by (vm_compute; discriminate).
  assert (H3 : 1 < length (py_range (len Fixtures.three_rows) 1)) by (vm_compute; lia).
  split; [exact H2|]. split; [exact H3|].
  apply (failed_insert_keeps_earlier_batches Fixtures.insert_second_fails 1
           Fixtures.three_rows _ 1 H2).
  - intros k' f Hk. exists tt. destruct k' as [|k']; [reflexivity|lia].
  - intros f. reflexivity.
  - exact H3.
Defined.

End LoadFacts.

(* ================================================================= *)
(** ** The row transformer of the OpenSearch job *)

Module RenameFacts.
Import PyStr PyStrFacts Frame AppleMangoOpenSearchETL.









































End RenameFacts.

(* ================================================================= *)
(** ** The MariaDB job: sorting key and provenance *)

Module MariaDBFacts.
Import PyStr Frame GuavaMariaDBETL.






(** A key given in upper case is not among the lower-cased labels: it is
    dropped, and the label ending in [_id] becomes the sorting key. *)
Example upper_case_key_is_replaced :
  _create_table_if_not_exists (init_primary_key (KeyStr "ID")) "guava_users" Fixtures.users
  = Some (mk_create_table "guava_users"
            [mk_column "id" "Int64" true; mk_column "user_id" "Int64" false;
             mk_column "name" "String" true; mk_column "source_system" "String" false;
             mk_column "source_table" "String" false]
            ["user_id"]).
Proof. reflexivity. Qed.








Section Stamp.
Context (strftime : Z -> string) (table_name : string).

Abbreviation transform := (transform strftime table_name).



(** A frame all of whose rows repeat the first label in the first column
    comes back without rows, with its labels as they were and without the
    provenance columns. *)
Theorem header_rows_only (first_col : string) (c : series) (data : frame) :
  len ((first_col, c) :: data) <> 0 ->
  mem first_col (columns data) = false ->
  len (frame_select (ne_mask first_col c) ((first_col, c) :: data)) = 0 ->
  transform ((first_col, c) :: data)
  = Ok (frame_select (ne_mask first_col c) ((first_col, c) :: data)).
Proof.
  intros Hlen Hm Hk. unfold GuavaMariaDBETL.transform.
  apply Nat.eqb_neq in Hlen. rewrite Hlen. cbn [columns map fst List.tail].
  unfold columns in Hm. rewrite Hm. apply Nat.eqb_eq in Hk. now rewrite Hk.
Qed.

End Stamp.



End MariaDBFacts.
(* ================================================================= *)
(** ** The paged loop as a whole: its end, the failure counter, halving *)

Module LoopFacts.
Import GuavaClickHouseETL BatchFacts.

Section Run.
Context {Row : Type} (j : job Row) (where_clause : string) (total_rows : nat).

Abbreviation iteration := (iteration j where_clause total_rows).
Abbreviation loop := (loop j where_clause total_rows).
Abbreviation query k l o := (query_df (source j) k where_clause l o).
Abbreviation page := (page total_rows).






End Run.

End LoopFacts.

Module LoopExamples.
Import GuavaClickHouseETL BatchFacts LoopFacts.







End LoopExamples.
(* ================================================================= *)
(** ** The cap on the rows of one run, on both extraction paths *)

Module CapFacts.
Import BatchFacts.




End CapFacts.

(* ================================================================= *)
(** ** Reconciling the schema twice *)

Module ReconcileFacts.
Import Frame AppleMangoOpenSearchETL.

Section Twice.
Context {D : Type} (tc : ddl_client D) (table_name : string) (df : frame).





End Twice.


End ReconcileFacts.

(* ================================================================= *)
(** ** Pages that answer, and tables of integer type *)

Module PageFacts.
Import GuavaClickHouseETL BatchFacts.

Section Page.
Context {Row : Type} (j : job Row) (where_clause : string) (total_rows : nat).


End Page.





End PageFacts.
